(** * Doggo platform: availability, triage and matching engines

    A shallow embedding of the three computational cores of the platform,

    - [DatabaseService.getVeterinarianAvailability]  (apps/cms/src/server.ts),
    - [TriageSystem.calculateTriageScore]            (packages/database/seed.ts),
    - [MatchingAlgorithm.calculateCompatibilityScore] (packages/database/seed.ts),

    together with the properties the specification states about them,
    and of the code around them:

    - [DatabaseService.registerForEvent]              (apps/cms/src/server.ts),
    - [validateBusinessHours]                (apps/cms/src/collections/Users.ts),
    - the triage block of the booking route and the ranking of the
      matches route                               (apps/cms/src/routes/api.ts),
    - [DateUtils], [GeoUtils], [FoodCalculator], [FormatUtils], [ApiUtils]
      and [CacheUtils]                            (packages/database/seed.ts),

    with properties read off the code.

    Conventions of the embedding.

    - A JavaScript [Date] is its time value: an integer number of
      milliseconds since the epoch.  Calendar fields are read in UTC, so
      [setHours] and [getDay] are the UTC ones (the source uses the local
      zone of the server; daylight-saving shifts are not modelled).
    - A JavaScript number is an exact rational ([Q]) or NaN ([None]);
      where only integers can arise the carrier is [Z].  The properties
      stated on these numbers are comparisons, bounds and equalities
      that rounding to doubles keeps.  Where the result depends on the
      rounding -- the value of the triage score -- the arithmetic is the
      binary64 one ([Binary64], [TriageDouble]).
    - A call that throws is a computation with an exception as outcome
      ([Matching.Completion], [Events.M]).
    - An invocation happens at one instant: the calls of [dayjs()] made
      within one invocation read the same clock value, which is an
      explicit argument [now].
    - Built-ins whose full definition lies outside the repository
      ([Number] on strings, [Math.sin], ...) are parameters of the
      development; a reference instance is given for running examples. *)

From Stdlib Require Import ZArith QArith Qround Qminmax.
From Stdlib Require Import List String Ascii Bool Lia Lqa Sorted.
From Stdlib Require Import DecimalString Permutation SpecFloat.
From Equations Require Import Equations.
Import ListNotations.

Open Scope Z_scope.

(* ===================================================================== *)
(** * Part I: the programs                                                *)
(* ===================================================================== *)

(** ** JavaScript built-ins used by the sources *)
Module Js.

(** [n.toString()] for an integer-valued number. *)
Definition toString (n : Z) : string :=
  NilZero.string_of_int (Z.to_int n).

Fixpoint repeat_char (c : ascii) (n : nat) : string :=
  match n with
  | O => EmptyString
  | S k => String c (repeat_char c k)
  end.

(** [s.padStart(len, c)] with a one-character filler. *)
Definition padStart (len : nat) (c : ascii) (s : string) : string :=
  (repeat_char c (len - String.length s) ++ s)%string.

(** [s.split(sep)] for a one-character separator; [cur] is the piece
    being read. *)
Fixpoint split_aux (sep : ascii) (cur : string) (s : string) : list string :=
  match s with
  | EmptyString => [cur]
  | String c rest =>
      if Ascii.eqb c sep
      then cur :: split_aux sep EmptyString rest
      else split_aux sep (cur ++ String c EmptyString)%string rest
  end.

Definition split (sep : ascii) (s : string) : list string :=
  split_aux sep EmptyString s.

(** Integer-valued numbers with NaN. *)
Definition number := option Z.
Definition NaN : number := None.

Definition mul (a b : number) : number :=
  match a, b with Some x, Some y => Some (x * y) | _, _ => None end.
Definition add (a b : number) : number :=
  match a, b with Some x, Some y => Some (x + y) | _, _ => None end.

(** Array destructuring [[a, b] = xs.map(f)]: a missing element is
    [undefined], which arithmetic turns into NaN. *)
Definition element (f : string -> number) (xs : list string) (i : nat) : number :=
  match nth_error xs i with Some s => f s | None => NaN end.

(** [Date.prototype.getDay], [setHours(0,0,0,0)], [setHours(23,59,59,999)]
    and [setHours(h, m, 0, 0)] on a time value, read in UTC. *)
Definition MS_PER_DAY : Z := 86400000.
Definition getDay (t : Z) : Z := (t / MS_PER_DAY + 4) mod 7.
Definition startOfDay (t : Z) : Z := t - t mod MS_PER_DAY.
Definition endOfDay (t : Z) : Z := startOfDay t + 86399999.
Definition setHours (t : Z) (h m : Z) : Z :=
  startOfDay t + h * 3600000 + m * 60000.

(** A reference [Number] on strings: decimal digit strings and the empty
    string (which [Number] maps to 0); every other string is NaN here. *)
Definition digit_of (c : ascii) : option Z :=
  let n := Z.of_nat (nat_of_ascii c) in
  if (48 <=? n) && (n <=? 57) then Some (n - 48) else None.

Fixpoint digits_value (acc : Z) (s : string) : option Z :=
  match s with
  | EmptyString => Some acc
  | String c rest =>
      match digit_of c with
      | Some d => digits_value (10 * acc + d) rest
      | None => None
      end
  end.

Definition decimalNumber (s : string) : number := digits_value 0 s.

End Js.

(** ** Availability engine: [getVeterinarianAvailability] *)
Module Availability.

Inductive BookingStatus :=
| PENDING | CONFIRMED | IN_PROGRESS | COMPLETED | CANCELLED | NO_SHOW.

Definition BookingStatus_eqb (a b : BookingStatus) : bool :=
  match a, b with
  | PENDING, PENDING | CONFIRMED, CONFIRMED | IN_PROGRESS, IN_PROGRESS
  | COMPLETED, COMPLETED | CANCELLED, CANCELLED | NO_SHOW, NO_SHOW => true
  | _, _ => false
  end.

(** One entry of [veterinarian.workingHours]. *)
Record DayRule := mkDayRule {
  dayOfWeek : Z;
  startTime : string;
  endTime : string;
  isAvailable : bool
}.

Record Veterinarian := mkVeterinarian {
  id : string;
  workingHours : list DayRule
}.

Record Booking := mkBooking {
  veterinarianId : string;
  scheduledAt : Z;          (* time value, ms *)
  duration : Z;             (* minutes *)
  status : BookingStatus
}.

(** The two tables the function queries. *)
Record Database := mkDatabase {
  veterinarian : list Veterinarian;
  booking : list Booking
}.

(** [this.veterinarian.findUnique({ where: { id } })] *)
Definition findUnique (db : Database) (vid : string) : option Veterinarian :=
  find (fun v => String.eqb (id v) vid) (veterinarian db).

(** [this.booking.findMany({ where: { veterinarianId,
      scheduledAt: { gte: startOfDay, lte: endOfDay },
      status: { not: 'CANCELLED' } } })] *)
Definition findMany (db : Database) (vid : string) (lo hi : Z) : list Booking :=
  filter (fun b =>
            String.eqb (veterinarianId b) vid
            && (lo <=? scheduledAt b) && (scheduledAt b <=? hi)
            && negb (BookingStatus_eqb (status b) CANCELLED))
         (booking db).

(** The instant of the slot that starts [minutes] after midnight:
    [hour = Math.floor(minutes / 60)], [minute = minutes % 60],
    [slotDateTime.setHours(hour, minute, 0, 0)].  JavaScript's [%] takes
    the sign of the dividend ([Z.rem]). *)
Definition slotHour (minutes : Z) : Z := minutes / 60.
Definition slotMinute (minutes : Z) : Z := Z.rem minutes 60.

Definition slotDateTime (date minutes : Z) : Z :=
  Js.setHours date (slotHour minutes) (slotMinute minutes).

Definition timeString (minutes : Z) : string :=
  (Js.padStart 2 "0" (Js.toString (slotHour minutes))
     ++ ":" ++ Js.padStart 2 "0" (Js.toString (slotMinute minutes)))%string.

Definition bookingStart (b : Booking) : Z := scheduledAt b.
Definition bookingEnd (b : Booking) : Z := scheduledAt b + duration b * 60000.

(** [bookings.some(booking => slotDateTime >= bookingStart
                              && slotDateTime < bookingEnd)] *)
Definition isBooked (bookings : list Booking) (slot : Z) : bool :=
  existsb (fun b => (bookingStart b <=? slot) && (slot <? bookingEnd b)) bookings.

(** The [for (let minutes = startMinutes; minutes < endMinutes;
    minutes += 30)] loop; [availableSlots] is the array being filled. *)
Equations? slotLoop (date : Z) (bookings : list Booking) (endMinutes : Z)
           (minutes : Z) (availableSlots : list string) : list string
  by wf (Z.to_nat (endMinutes - minutes)) lt :=
  slotLoop date bookings endMinutes minutes availableSlots
    with Z_lt_dec minutes endMinutes => {
    | left _ =>
        if isBooked bookings (slotDateTime date minutes)
        then slotLoop date bookings endMinutes (minutes + 30) availableSlots
        else slotLoop date bookings endMinutes (minutes + 30)
                      (availableSlots ++ [timeString minutes]);
    | right _ => availableSlots }.
Proof. all: lia. Qed.

Section WithNumber.

(** The global [Number], applied to the pieces of a time string. *)
Variable Number : string -> Js.number.

(** [const [h, m] = time.split(':').map(Number); h * 60 + m] *)
Definition minutesOf (time : string) : Js.number :=
  let parts := Js.split ":" time in
  Js.add (Js.mul (Js.element Number parts 0) (Some 60))
         (Js.element Number parts 1).

Definition getVeterinarianAvailability
           (db : Database) (veterinarianId : string) (date : Z) : list string :=
  let dayOfWeek' := Js.getDay date in
  match findUnique db veterinarianId with
  | None => []
  | Some vet =>
      match find (fun wh => (dayOfWeek wh =? dayOfWeek') && isAvailable wh)
                 (workingHours vet) with
      | None => []
      | Some daySchedule =>
          let bookings :=
            findMany db veterinarianId (Js.startOfDay date) (Js.endOfDay date) in
          match minutesOf (startTime daySchedule),
                minutesOf (endTime daySchedule) with
          | Some startMinutes, Some endMinutes =>
              slotLoop date bookings endMinutes startMinutes []
          | _, _ => []   (* a NaN bound: the loop test is false at once *)
          end
      end
  end.

End WithNumber.

End Availability.

(** ** Triage scorer: [TriageSystem.calculateTriageScore] *)
Module Triage.

Open Scope Q_scope.

(** A JavaScript number: a rational, or [None] for NaN.  A division by
    zero is mapped to [None] as well; the question bank below never
    divides by zero. *)
Definition number := option Q.

Definition num (z : Z) : number := Some (inject_Z z).

Definition add (a b : number) : number :=
  match a, b with Some x, Some y => Some (x + y) | _, _ => None end.
Definition mul (a b : number) : number :=
  match a, b with Some x, Some y => Some (x * y) | _, _ => None end.
Definition div (a b : number) : number :=
  match a, b with
  | Some x, Some y => if Qeq_bool y 0 then None else Some (x / y)
  | _, _ => None
  end.

(** [Math.round]: the nearest integer, halves going up. *)
Definition Math_round (a : number) : option Z :=
  match a with
  | Some x => Some (Qfloor (x + (1 # 2)))
  | None => None
  end.

(** [a >= k] for an integer literal [k]; false on NaN. *)
Definition geq (a : option Z) (k : Z) : bool :=
  match a with Some x => (k <=? x)%Z | None => false end.

(** [xs.indexOf(x)]: the first position, or -1. *)
Fixpoint indexOf_from (i : Z) (xs : list string) (x : string) : Z :=
  match xs with
  | [] => (-1)%Z
  | y :: ys => if String.eqb y x then i else indexOf_from (i + 1)%Z ys x
  end.
Definition indexOf (xs : list string) (x : string) : Z := indexOf_from 0 xs x.

Inductive QuestionType := boolean | multiple | scale.
Inductive Category := symptoms | behavior | history | urgency.

(** [TriageQuestion]; the display text of the question is left out. *)
Record TriageQuestion := mkQuestion {
  id : string;
  type : QuestionType;
  options : option (list string);
  weight : Z;
  category : Category
}.

(** [answer: string | number | boolean] *)
Inductive Answer :=
| AString (s : string)
| ANumber (n : Q)
| ABoolean (b : bool).

Record TriageResponse := mkResponse {
  questionId : string;
  answer : Answer
}.

Inductive UrgencyLevel := low | medium | high | critical.

Record TriageResult := mkResult {
  score : option Z;            (* [None] is NaN *)
  urgencyLevel : UrgencyLevel;
  recommendations : list string;
  suggestedActions : list string;
  veterinarianRequired : bool;
  emergencyServices : bool
}.

Definition questions : list TriageQuestion :=
  [ mkQuestion "breathing_difficulty" boolean None 10 symptoms;
    mkQuestion "consciousness" boolean None 9 symptoms;
    mkQuestion "bleeding" multiple
               (Some ["Nessuno"; "Lieve"; "Moderato"; "Grave"]%string) 8 symptoms;
    mkQuestion "pain_level" scale None 7 symptoms;
    mkQuestion "vomiting" boolean None 5 symptoms;
    mkQuestion "appetite" boolean None 4 behavior;
    mkQuestion "mobility" boolean None 6 symptoms;
    mkQuestion "previous_issues" boolean None 3 history ].

Definition is_true (a : Answer) : bool :=
  match a with ABoolean true => true | _ => false end.
Definition is_false (a : Answer) : bool :=
  match a with ABoolean false => true | _ => false end.

Section WithNumber.

(** The coercion of a string to a number ([Number(s)]), which the
    arithmetic [answer / 10] applies to a string answer. *)
Variable Number : string -> number.

Definition toNumber (a : Answer) : number :=
  match a with
  | ANumber n => Some n
  | ABoolean b => if b then num 1 else num 0
  | AString s => Number s
  end.

(** The value of [score] at the end of the callback's body, for a
    question that has a response. *)
Definition questionScore (question : TriageQuestion) (response : TriageResponse)
  : number :=
  match type question with
  | boolean =>
      if String.eqb (id question) "consciousness"
         || String.eqb (id question) "appetite"
      then (if is_false (answer response) then num (weight question) else num 0)
      else (if is_true (answer response) then num (weight question) else num 0)
  | scale =>
      mul (div (toNumber (answer response)) (num 10)) (num (weight question))
  | multiple =>
      let options' := match options question with Some os => os | None => [] end in
      let answerIndex :=
        match answer response with
        | AString s => indexOf options' s
        | _ => (-1)%Z
        end in
      mul (div (num answerIndex) (num (Z.of_nat (List.length options') - 1)))
          (num (weight question))
  end.

(** One call of the [forEach] callback on the pair
    [(totalScore, maxPossibleScore)]. *)
Definition step (responses : list TriageResponse)
           (acc : number * number) (question : TriageQuestion)
  : number * number :=
  let '(totalScore, maxPossibleScore) := acc in
  let maxPossibleScore := add maxPossibleScore (num (weight question)) in
  match find (fun r => String.eqb (questionId r) (id question)) responses with
  | None => (totalScore, maxPossibleScore)
  | Some response =>
      (add totalScore (questionScore question response), maxPossibleScore)
  end.

Definition totals (responses : list TriageResponse) : number * number :=
  fold_left (step responses) questions (num 0, num 0).

Definition normalizedScore (responses : list TriageResponse) : option Z :=
  let '(totalScore, maxPossibleScore) := totals responses in
  Math_round (mul (div totalScore maxPossibleScore) (num 100)).

Definition calculateTriageScore (responses : list TriageResponse) : TriageResult :=
  let normalizedScore := normalizedScore responses in
  if geq normalizedScore 80 then
    mkResult normalizedScore critical
      [ "Contattare immediatamente i servizi di emergenza veterinaria";
        "Non spostare il cane se non necessario";
        "Mantenere il cane calmo e al caldo" ]%string
      [ "Chiamare emergenza veterinaria"; "Prepararsi al trasporto" ]%string
      true true
  else if geq normalizedScore 60 then
    mkResult normalizedScore high
      [ "Consultare un veterinario entro 2-4 ore";
        "Monitorare attentamente i sintomi";
        "Non somministrare farmaci senza consulto" ]%string
      [ "Prenotare visita urgente"; "Preparare documenti sanitari" ]%string
      true false
  else if geq normalizedScore 30 then
    mkResult normalizedScore medium
      [ "Consultare un veterinario entro 24-48 ore";
        "Tenere sotto osservazione";
        "Offrire acqua e cibo leggero se gradito" ]%string
      [ "Prenotare visita"; "Monitorare sintomi" ]%string
      true false
  else
    mkResult normalizedScore low
      [ "Situazione non urgente";
        "Continuare a monitorare";
        "Consultare il veterinario se i sintomi peggiorano" ]%string
      [ "Monitoraggio domestico"; "Consultazione opzionale" ]%string
      false false.

End WithNumber.

(** A reference [Number] for running examples: decimal digit strings. *)
Definition decimalNumber (s : string) : number :=
  match Js.decimalNumber s with Some z => num z | None => None end.

End Triage.

(** ** The [dayjs] calls made by [DateUtils.calculateAge]

    [dayjs] is a dependency of the repository, not part of it.  The model
    follows the library's algorithm for [a.diff(b, unit)] with month-based
    units: a whole-month count corrected by the fraction of the month
    between two anchors, negated, and truncated towards zero. *)
Module Dayjs.

Open Scope Z_scope.

(** Proleptic Gregorian calendar: day number <-> (year, month, day),
    months counted from 1. *)
Definition days_from_civil (y m d : Z) : Z :=
  let y := if m <=? 2 then y - 1 else y in
  let era := y / 400 in
  let yoe := y - era * 400 in
  let doy := (153 * (if 2 <? m then m - 3 else m + 9) + 2) / 5 + d - 1 in
  let doe := yoe * 365 + yoe / 4 - yoe / 100 + doy in
  era * 146097 + doe - 719468.

Definition civil_from_days (z : Z) : Z * Z * Z :=
  let z := z + 719468 in
  let era := z / 146097 in
  let doe := z - era * 146097 in
  let yoe := (doe - doe / 1460 + doe / 36524 - doe / 146096) / 365 in
  let y := yoe + era * 400 in
  let doy := doe - (365 * yoe + yoe / 4 - yoe / 100) in
  let mp := (5 * doy + 2) / 153 in
  let d := doy - (153 * mp + 2) / 5 + 1 in
  let m := if mp <? 10 then mp + 3 else mp - 9 in
  ((if m <=? 2 then y + 1 else y), m, d).

Definition year (t : Z) : Z := fst (fst (civil_from_days (t / Js.MS_PER_DAY))).
Definition month (t : Z) : Z := snd (fst (civil_from_days (t / Js.MS_PER_DAY))).
Definition date (t : Z) : Z := snd (civil_from_days (t / Js.MS_PER_DAY)).

Definition daysInMonth (y m : Z) : Z :=
  days_from_civil (y + m / 12) (m mod 12 + 1) 1 - days_from_civil y m 1.

(** [t.add(n, 'month')]: move to the first of the month, shift the month
    (overflow carries into the year), then restore the day of the month,
    capped at the length of the target month.  The time of day is kept. *)
Definition addMonths (t n : Z) : Z :=
  let m0 := month t - 1 + n in
  let y' := year t + m0 / 12 in
  let m' := m0 mod 12 + 1 in
  let d' := Z.min (date t) (daysInMonth y' m') in
  days_from_civil y' m' d' * Js.MS_PER_DAY + t mod Js.MS_PER_DAY.

(** [t.add(n, 'year')] *)
Definition addYears (t n : Z) : Z := addMonths t (12 * n).

Open Scope Q_scope.

Definition monthDiff_core (a b : Z) : Q :=
  let wholeMonthDiff := ((year b - year a) * 12 + (month b - month a))%Z in
  let anchor := addMonths a wholeMonthDiff in
  let c := (b - anchor <? 0)%Z in
  let anchor2 := addMonths a (wholeMonthDiff + (if c then -1 else 1))%Z in
  - (inject_Z wholeMonthDiff
     + inject_Z (b - anchor)
       / inject_Z (if c then anchor - anchor2 else anchor2 - anchor)%Z).

Definition monthDiff (a b : Z) : Q :=
  if (date a <? date b)%Z then - monthDiff_core b a else monthDiff_core a b.

(** Truncation towards zero. *)
Definition absFloor (n : Q) : Z :=
  if Qle_bool 0 n then Qfloor n else Qceiling n.

Definition diff_month (a b : Z) : Z := absFloor (monthDiff a b).
Definition diff_year (a b : Z) : Z := absFloor (monthDiff a b / 12).

End Dayjs.

(** ** Matching engine: [MatchingAlgorithm.calculateCompatibilityScore]

    The module of the utilities (packages/database/seed.ts from line 777)
    names [DogSize] and [ActivityLevel] in an [import type] clause (lines
    782-791) and then reads them as values (lines 1200, 1241, 1295 and
    1317).  A type-only import is erased when the module is compiled: at
    run time the two names are bound to nothing in the module, and
    evaluating [DogSize.TINY] or [ActivityLevel.LOW] throws a
    ReferenceError.  The functions below are therefore computations that
    may throw. *)
Module Matching.

Open Scope Q_scope.

Inductive Exception :=
| ReferenceError (name : string)    (* '<name> is not defined' *)
| TypeError (message : string).

(** The outcome of a call: an exception thrown, or a value returned. *)
Definition Completion (A : Type) : Type := (Exception + A)%type.

Definition ret {A} (a : A) : Completion A := inr a.
Definition throw {A} (e : Exception) : Completion A := inl e.
Definition bind {A B} (m : Completion A) (k : A -> Completion B) : Completion B :=
  match m with
  | inr a => k a
  | inl e => inl e
  end.

Notation "x <- m ;; k" := (bind m (fun x => k))
  (at level 61, m at next level, right associativity).

(** [export enum DogSize] and [export enum ActivityLevel] of
    packages/types: objects whose members are strings. *)
Record DogSizeEnum := mkDogSizeEnum {
  TINY : string;
  SMALL : string;
  MEDIUM : string;
  LARGE : string;
  GIANT : string
}.

Record ActivityLevelEnum := mkActivityLevelEnum {
  LOW : string;
  MODERATE : string;
  HIGH : string;
  VERY_HIGH : string
}.

(** What packages/types exports (index.ts, lines 46-59). *)
Definition Types_DogSize : DogSizeEnum :=
  mkDogSizeEnum "tiny" "small" "medium" "large" "giant".
Definition Types_ActivityLevel : ActivityLevelEnum :=
  mkActivityLevelEnum "low" "moderate" "high" "very_high".

(** What the identifiers [DogSize] and [ActivityLevel] evaluate to in
    the module of the utilities: the type-only import binds no value. *)
Definition DogSize : Completion DogSizeEnum :=
  throw (ReferenceError "DogSize").
Definition ActivityLevel : Completion ActivityLevelEnum :=
  throw (ReferenceError "ActivityLevel").

Record LocationPoint := mkPoint {
  latitude : Q;
  longitude : Q
}.

(** A number or NaN. *)
Definition number := option Q.

(** [user.address?.coordinates] of an [any]-typed user: the address and
    its coordinates are optional, and so are the two fields of the
    coordinates (a field that is missing reads as [undefined], which
    arithmetic turns into NaN). *)
Record Coordinates := mkCoordinates {
  coord_latitude : number;
  coord_longitude : number
}.
Record Address := mkAddress { coordinates : option Coordinates }.
Record User := mkUser { address : option Address }.

(** The fields of an [any]-typed dog the algorithm reads; [size],
    [activityLevel] and [gender] are the strings stored with the dog. *)
Record Dog := mkDog {
  size : string;
  birthDate : Z;
  activityLevel : string;
  temperament : list string;
  gender : string
}.

(** [xs.indexOf(x)] on strings: the first position, or -1. *)
Fixpoint indexOf_from (i : Z) (xs : list string) (x : string) : Z :=
  match xs with
  | [] => (-1)%Z
  | y :: ys => if String.eqb y x then i else indexOf_from (i + 1)%Z ys x
  end.
Definition indexOf (xs : list string) (x : string) : Z := indexOf_from 0 xs x.

(** [xs.includes(x)] on strings *)
Definition includes (xs : list string) (x : string) : bool :=
  existsb (fun y => String.eqb y x) xs.

(** [Math.round] and [Math.min(_, maxScore)] *)
Definition Math_round (x : Q) : Z := Qfloor (x + (1 # 2)).

(** The functions of [Math] that [GeoUtils] calls. *)
Record MathLibrary := mkMath {
  Math_sin : Q -> Q;
  Math_cos : Q -> Q;
  Math_sqrt : Q -> Q;
  Math_atan2 : Q -> Q -> Q;
  Math_PI : Q
}.

(** [DateUtils.calculateAge]; [now] is the clock reading of [dayjs()]. *)
Definition calculateAge (now : Z) (birthDate : Z) : Z * Z :=
  let birth := birthDate in
  let years := Dayjs.diff_year now birth in
  let months := Dayjs.diff_month now (Dayjs.addYears birth years) in
  (years, months).

Section WithMath.

Variable M : MathLibrary.

Definition toRadians (degrees : Q) : Q := degrees * (Math_PI M / 180).

(** [GeoUtils.calculateDistance] (haversine) *)
Definition calculateDistance (point1 point2 : LocationPoint) : Q :=
  let R := 6371 in
  let dLat := toRadians (latitude point2 - latitude point1) in
  let dLon := toRadians (longitude point2 - longitude point1) in
  let a :=
    Math_sin M (dLat / 2) * Math_sin M (dLat / 2)
    + Math_cos M (toRadians (latitude point1))
      * Math_cos M (toRadians (latitude point2))
      * Math_sin M (dLon / 2) * Math_sin M (dLon / 2) in
  let c := 2 * Math_atan2 M (Math_sqrt M a) (Math_sqrt M (1 - a)) in
  R * c.

Definition getSizeCompatibility (size1 size2 : string) : Completion Q :=
  tiny <- (e <- DogSize ;; ret (TINY e)) ;;
  small <- (e <- DogSize ;; ret (SMALL e)) ;;
  medium <- (e <- DogSize ;; ret (MEDIUM e)) ;;
  large <- (e <- DogSize ;; ret (LARGE e)) ;;
  giant <- (e <- DogSize ;; ret (GIANT e)) ;;
  let sizeOrder := [tiny; small; medium; large; giant] in
  let index1 := indexOf sizeOrder size1 in
  let index2 := indexOf sizeOrder size2 in
  let difference := Z.abs (index1 - index2) in
  ret (Qmax 0 (1 - inject_Z difference * (2 # 10))).

Definition getAgeCompatibility (now : Z) (birthDate1 birthDate2 : Z) : Q :=
  let age1 := fst (calculateAge now birthDate1) in
  let age2 := fst (calculateAge now birthDate2) in
  let ageDifference := Z.abs (age1 - age2) in
  if (ageDifference <=? 2)%Z then 1
  else if (ageDifference <=? 4)%Z then 7 # 10
  else if (ageDifference <=? 6)%Z then 4 # 10
  else 1 # 10.

Definition getActivityCompatibility (level1 level2 : string) : Completion Q :=
  low <- (e <- ActivityLevel ;; ret (LOW e)) ;;
  moderate <- (e <- ActivityLevel ;; ret (MODERATE e)) ;;
  high <- (e <- ActivityLevel ;; ret (HIGH e)) ;;
  very_high <- (e <- ActivityLevel ;; ret (VERY_HIGH e)) ;;
  let activityOrder := [low; moderate; high; very_high] in
  let index1 := indexOf activityOrder level1 in
  let index2 := indexOf activityOrder level2 in
  let difference := Z.abs (index1 - index2) in
  ret (Qmax 0 (1 - inject_Z difference * (25 # 100))).

Definition getTemperamentCompatibility (temperament1 temperament2 : list string) : Q :=
  if (Nat.eqb (List.length temperament1) 0 || Nat.eqb (List.length temperament2) 0)%bool
  then 1 # 2
  else
    let commonTraits := filter (fun trait => includes temperament2 trait) temperament1 in
    let totalTraits :=
      List.length (nodup string_dec (temperament1 ++ temperament2)) in
    inject_Z (Z.of_nat (List.length commonTraits))
    / inject_Z (Z.of_nat totalTraits).

Definition coordinatesOf (user : User) : option Coordinates :=
  match address user with
  | Some a => coordinates a
  | None => None
  end.

(** [GeoUtils.calculateDistance] on coordinates read from a user: NaN
    when one of the four fields is missing. *)
Definition distanceBetween (c1 c2 : Coordinates) : number :=
  match coord_latitude c1, coord_longitude c1,
        coord_latitude c2, coord_longitude c2 with
  | Some lat1, Some lon1, Some lat2, Some lon2 =>
      Some (calculateDistance (mkPoint lat1 lon1) (mkPoint lat2 lon2))
  | _, _, _, _ => None
  end.

(** [Math.max(0, 1 - (distance / 50))]: NaN for NaN. *)
Definition proximityScoreOf (distance : number) : number :=
  match distance with
  | Some d => Some (Qmax 0 (1 - d / 50))
  | None => None
  end.

(** [score += x] on a score that may be NaN. *)
Definition plus (score : number) (x : number) : number :=
  match score, x with
  | Some s, Some y => Some (s + y)
  | _, _ => None
  end.

(** [Math.min(Math.round(score), maxScore)]: NaN for NaN. *)
Definition roundedAtMost (score : number) (maxScore : Z) : option Z :=
  match score with
  | Some s => Some (Z.min (Math_round s) maxScore)
  | None => None
  end.

Definition calculateCompatibilityScore
           (now : Z) (dog1 dog2 : Dog) (user1 user2 : User)
  : Completion (option Z) :=
  let score := 0 in
  let maxScore := 100%Z in
  sizeCompatibility <- getSizeCompatibility (size dog1) (size dog2) ;;
  let score := score + sizeCompatibility * 20 in
  let ageCompatibility :=
    getAgeCompatibility now (birthDate dog1) (birthDate dog2) in
  let score := score + ageCompatibility * 15 in
  activityCompatibility <-
    getActivityCompatibility (activityLevel dog1) (activityLevel dog2) ;;
  let score := score + activityCompatibility * 20 in
  let temperamentCompatibility :=
    getTemperamentCompatibility (temperament dog1) (temperament dog2) in
  let score := score + temperamentCompatibility * 20 in
  let score :=
    match coordinatesOf user1, coordinatesOf user2 with
    | Some c1, Some c2 =>
        let distance := distanceBetween c1 c2 in
        let proximityScore := proximityScoreOf distance in
        plus (Some score)
             (match proximityScore with Some p => Some (p * 15) | None => None end)
    | _, _ => Some score
    end in
  let genderScore :=
    if negb (String.eqb (gender dog1) (gender dog2)) then 1 else 7 # 10 in
  let score := plus score (Some (genderScore * 10)) in
  ret (roundedAtMost score maxScore).

End WithMath.

End Matching.

(** ** [DateUtils.isBusinessHour] and [DateUtils.addBusinessDays] *)
Module DateUtils.

Open Scope Z_scope.

(** [dayjs(date).hour()] and [dayjs(date).day()], read in UTC. *)
Definition hour (t : Z) : Z := (t mod Js.MS_PER_DAY) / 3600000.
Definition day (t : Z) : Z := Js.getDay t.

Definition isBusinessHour (date : Z) : bool :=
  let hour := hour date in
  let day := day date in
  (1 <=? day) && (day <=? 5) && (9 <=? hour) && (hour <=? 18).

(** [result.add(1, 'day')] *)
Definition addDay (t : Z) : Z := t + Js.MS_PER_DAY.

(** The number of weekend days that follow [t] without interruption;
    it bounds the iterations of the loop that do not count. *)
Definition weekendAhead (t : Z) : nat :=
  let d := day (addDay t) in
  if d =? 6 then 2%nat else if d =? 0 then 1%nat else 0%nat.

(** The test [result.day() !== 0 && result.day() !== 6], with its
    evidence. *)
Definition weekday_dec (t : Z)
  : {day t <> 0 /\ day t <> 6} + {day t = 0 \/ day t = 6} :=
  match Z.eq_dec (day t) 0, Z.eq_dec (day t) 6 with
  | right n0, right n6 => left (conj n0 n6)
  | left e, _ => right (or_introl e)
  | _, left e => right (or_intror e)
  end.

(** The [while (remainingDays > 0)] loop of [addBusinessDays]. *)
Equations? businessDaysLoop (result remainingDays : Z) : Z
  by wf (3 * Z.to_nat remainingDays + weekendAhead result)%nat lt :=
  businessDaysLoop result remainingDays with Z_lt_dec 0 remainingDays => {
    | left _ with weekday_dec (addDay result) => {
        | left _ => businessDaysLoop (addDay result) (remainingDays - 1);
        | right _ => businessDaysLoop (addDay result) remainingDays };
    | right _ => result }.
Proof.
  - unfold weekendAhead. repeat destruct (_ =? _); lia.
  - assert (N : day (addDay (addDay result)) = (day (addDay result) + 1) mod 7).
    { unfold day, addDay, Js.getDay, Js.MS_PER_DAY.
      replace (result + 86400000 + 86400000)
        with (result + 86400000 + 1 * 86400000) by lia.
      rewrite Z.div_add by lia.
      replace ((result + 86400000) / 86400000 + 1 + 4)
        with (((result + 86400000) / 86400000 + 4) + 1) by lia.
      rewrite Z.add_mod by lia.
      rewrite (Z.mod_small 1 7) by lia. reflexivity. }
    unfold weekendAhead. rewrite N.
    destruct o as [E|E]; rewrite E; cbn; lia.
Qed.

(** [addBusinessDays(date, days)] for a whole number of days. *)
Definition addBusinessDays (date days : Z) : Z := businessDaysLoop date days.

End DateUtils.

(** ** [validateBusinessHours] (apps/cms/src/collections/Users.ts) *)
Module Validation.

Import Availability.
Open Scope Z_scope.

Definition isDigit (c : ascii) : bool :=
  let n := Z.of_nat (nat_of_ascii c) in (48 <=? n) && (n <=? 57).

Definition inRange (lo hi : ascii) (c : ascii) : bool :=
  let n := Z.of_nat (nat_of_ascii c) in
  (Z.of_nat (nat_of_ascii lo) <=? n) && (n <=? Z.of_nat (nat_of_ascii hi)).

(** [/^([01]\d|2[0-3]):([0-5]\d)$/.test(s)] *)
Definition timeRegex (s : string) : bool :=
  match s with
  | String h1 (String h2 (String sep (String m1 (String m2 EmptyString)))) =>
      ((inRange "0" "1" h1 && isDigit h2) || (Ascii.eqb h1 "2" && inRange "0" "3" h2))
      && Ascii.eqb sep ":"
      && inRange "0" "5" m1 && isDigit m2
  | _ => false
  end.

(** [parseInt(s)] on the strings the function passes to it: the value of
    the leading decimal digits, NaN when there is none.  (Leading white
    space, a sign and the [0x] prefix are not modelled; the time pattern
    has excluded them when [parseInt] is reached.) *)
Fixpoint leadingDigits (acc : Z) (seen : bool) (s : string) : Js.number :=
  match s with
  | String c rest =>
      match Js.digit_of c with
      | Some d => leadingDigits (10 * acc + d) true rest
      | None => if seen then Some acc else None
      end
  | EmptyString => if seen then Some acc else None
  end.

Definition parseInt (s : string) : Js.number := leadingDigits 0 false s.

(** [parseInt(time.split(':')[0]) * 60 + parseInt(time.split(':')[1])] *)
Definition minutesOfDay (time : string) : Js.number :=
  Js.add (Js.mul (Js.element parseInt (Js.split ":" time) 0) (Some 60))
         (Js.element parseInt (Js.split ":" time) 1).

(** [a < b] on numbers; false when one is NaN. *)
Definition lt (a b : Js.number) : bool :=
  match a, b with Some x, Some y => x <? y | _, _ => false end.

(** The callback of [workingHours.every]. *)
Definition validHour (hour : DayRule) : bool :=
  if (dayOfWeek hour =? 0) || (String.length (startTime hour) =? 0)%nat
     || (String.length (endTime hour) =? 0)%nat
  then false
  else
    let dayOfWeek := dayOfWeek hour in
    if (dayOfWeek <? 0) || (6 <? dayOfWeek) then false
    else if negb (timeRegex (startTime hour)) || negb (timeRegex (endTime hour))
    then false
    else
      let startMinutes := minutesOfDay (startTime hour) in
      let endMinutes := minutesOfDay (endTime hour) in
      lt startMinutes endMinutes.

Definition validateBusinessHours (workingHours : list DayRule) : bool :=
  forallb validHour workingHours.

End Validation.

(** ** [registerForEvent] (apps/cms/src/server.ts)

    The two tables are lists of rows; a call runs to its end before the
    next one starts.  A failed call keeps the writes it made before the
    exception, as the source has no transaction. *)
Module Events.

Open Scope Z_scope.

Record Event := mkEvent {
  id : string;
  maxParticipants : option Z;
  currentParticipants : Z
}.

Record EventParticipation := mkParticipation {
  eventId : string;
  userId : string
}.

Record Db := mkDb {
  event : list Event;
  eventParticipation : list EventParticipation
}.

Inductive Error :=
| AlreadyRegistered     (* 'Already registered for this event' *)
| EventFull             (* 'Event is full' *)
| RecordNotFound.       (* raised by [update] when no row has the id *)

(** Computations on the database that may throw. *)
Definition M (A : Type) : Type := Db -> (Error + A) * Db.

Definition ret {A} (a : A) : M A := fun db => (inr a, db).
Definition throw {A} (e : Error) : M A := fun db => (inl e, db).
Definition bind {A B} (m : M A) (k : A -> M B) : M B :=
  fun db =>
    match m db with
    | (inr a, db') => k a db'
    | (inl e, db') => (inl e, db')
    end.

Notation "x <- m ;; k" := (bind m (fun x => k))
  (at level 61, m at next level, right associativity).

(** [this.eventParticipation.findUnique({ where: { eventId_userId } })] *)
Definition findParticipation (eid uid : string) : M (option EventParticipation) :=
  fun db =>
    (inr (find (fun p => String.eqb (eventId p) eid && String.eqb (userId p) uid)
               (eventParticipation db)),
     db).

(** [this.event.findUnique({ where: { id } })] *)
Definition findEvent (eid : string) : M (option Event) :=
  fun db => (inr (find (fun e => String.eqb (id e) eid) (event db)), db).

(** [this.eventParticipation.create({ data: { eventId, userId } })] *)
Definition createParticipation (eid uid : string) : M EventParticipation :=
  fun db =>
    let p := mkParticipation eid uid in
    (inr p, mkDb (event db) (eventParticipation db ++ [p])).

(** The row with the id, with its counter incremented. *)
Fixpoint increment (eid : string) (events : list Event) : option (list Event) :=
  match events with
  | [] => None
  | e :: rest =>
      if String.eqb (id e) eid
      then Some (mkEvent (id e) (maxParticipants e) (currentParticipants e + 1) :: rest)
      else match increment eid rest with
           | Some rest' => Some (e :: rest')
           | None => None
           end
  end.

(** [this.event.update({ where: { id },
                         data: { currentParticipants: { increment: 1 } } })] *)
Definition incrementParticipants (eid : string) : M unit :=
  fun db =>
    match increment eid (event db) with
    | Some events' => (inr tt, mkDb events' (eventParticipation db))
    | None => (inl RecordNotFound, db)
    end.

(** [event?.maxParticipants && event.currentParticipants >= event.maxParticipants] *)
Definition isFull (event : option Event) : bool :=
  match event with
  | Some e =>
      match maxParticipants e with
      | Some m => negb (m =? 0) && (m <=? currentParticipants e)
      | None => false
      end
  | None => false
  end.

Definition registerForEvent (eventId userId : string) : M EventParticipation :=
  existing <- findParticipation eventId userId ;;
  match existing with
  | Some _ => throw AlreadyRegistered
  | None =>
      event <- findEvent eventId ;;
      if isFull event then throw EventFull
      else
        participation <- createParticipation eventId userId ;;
        _ <- incrementParticipants eventId ;;
        ret participation
  end.

End Events.

(** ** [Array.prototype.sort] with a comparator

    The sort is stable, so its result is determined by the comparator:
    it is computed here by insertion.  [le x y] says that the comparator
    does not put [y] before [x] ([compare(x, y) <= 0]). *)
Module JsArray.

Fixpoint insertBy {A} (le : A -> A -> bool) (x : A) (l : list A) : list A :=
  match l with
  | [] => [x]
  | y :: rest => if le x y then x :: y :: rest else y :: insertBy le x rest
  end.

Definition sortBy {A} (le : A -> A -> bool) (l : list A) : list A :=
  fold_right (insertBy le) [] l.


End JsArray.

(** ** [GeoUtils.filterByRadius] and [GeoUtils.getBoundingBox] *)
Module GeoUtils.

Import Matching.
Open Scope Q_scope.

Record BoundingBox := mkBox {
  north : Q;
  south : Q;
  east : Q;
  west : Q
}.

Section WithMath.

Variable M : MathLibrary.

Section FilterByRadius.

(** [T extends { coordinates: LocationPoint }] *)
Variable T : Type.
Variable coordinates : T -> LocationPoint.

(** The elements of the result: the point with its [distance]. *)
Definition withDistance (center : LocationPoint) (point : T) : T * Q :=
  (point, calculateDistance M center (coordinates point)).

Definition filterByRadius (points : list T) (center : LocationPoint) (radiusKm : Q)
  : list (T * Q) :=
  JsArray.sortBy
    (fun a b => Qle_bool (snd a) (snd b))
    (filter (fun point => Qle_bool (snd point) radiusKm)
            (map (withDistance center) points)).

End FilterByRadius.

(** The sums, differences and quotients are exact here; the code rounds
    each of them to a double, which keeps their order. *)
Definition getBoundingBox (center : LocationPoint) (radiusKm : Q) : BoundingBox :=
  let lat := latitude center in
  let lon := longitude center in
  let latDelta := radiusKm / (11132 # 100) in
  let lonDelta :=
    radiusKm / ((11132 # 100) * Math_cos M (lat * Math_PI M / 180)) in
  mkBox (lat + latDelta) (lat - latDelta) (lon + lonDelta) (lon - lonDelta).

End WithMath.

End GeoUtils.

(** ** The ranking of potential matches (apps/cms/src/routes/api.ts) *)
Module Ranking.

Import Matching.



(** [a >= k] for a whole number [k]; false on NaN. *)
Definition geq (a : option Z) (k : Z) : bool :=
  match a with Some x => (k <=? x)%Z | None => false end.


Section WithMath.

Variable M : MathLibrary.





End WithMath.

End Ranking.

(** ** [FoodCalculator.calculateDailyNeeds] *)
Module FoodCalculator.

Import Matching.
Open Scope Q_scope.

Record WeightRange := mkRange {
  min : Q;
  max : Q;
  ideal : Q
}.







(** [this.getIdealWeightRange(size).max] and its like: reading a field
    of [undefined] throws a TypeError. *)
Definition field (f : WeightRange -> Q) (range : option WeightRange)
  : Completion Q :=
  match range with
  | Some r => ret (f r)
  | None => throw (TypeError "Cannot read properties of undefined")
  end.

Section WithPow.

(** [Math.pow] *)
Variable Math_pow : Q -> Q -> Q.


End WithPow.

End FoodCalculator.

(** ** [FormatUtils]: phone numbers, truncation, capitalisation

    Strings are sequences of one-byte characters; [toUpperCase] and
    [toLowerCase] are the ones of the ASCII letters. *)
Module FormatUtils.

Open Scope Z_scope.

Fixpoint take (n : nat) (s : string) : string :=
  match n, s with
  | S k, String c rest => String c (take k rest)
  | _, _ => EmptyString
  end.

Fixpoint drop (n : nat) (s : string) : string :=
  match n, s with
  | S k, String c rest => drop k rest
  | _, _ => s
  end.

(** [s.substring(0, n)] and [s.substring(n)] / [s.slice(n)] for a whole
    number [n]; a negative [n] counts as 0. *)
Definition substringTo (n : Z) (s : string) : string := take (Z.to_nat n) s.
Definition substringFrom (n : Z) (s : string) : string := drop (Z.to_nat n) s.

Fixpoint filterChars (keep : ascii -> bool) (s : string) : string :=
  match s with
  | EmptyString => EmptyString
  | String c rest =>
      if keep c then String c (filterChars keep rest) else filterChars keep rest
  end.

Fixpoint mapChars (f : ascii -> ascii) (s : string) : string :=
  match s with
  | EmptyString => EmptyString
  | String c rest => String (f c) (mapChars f rest)
  end.

(** [s.startsWith(p)] *)
Definition startsWith (p s : string) : bool := String.prefix p s.

(** [xs.join(sep)] *)
Fixpoint join (sep : string) (xs : list string) : string :=
  match xs with
  | [] => EmptyString
  | [x] => x
  | x :: rest => (x ++ sep ++ join sep rest)%string
  end.

Definition formatPhone (phone : string) : string :=
  let cleaned := filterChars Validation.isDigit phone in   (* replace(/\D/g, '') *)
  if startsWith "39" cleaned then
    let number := substringFrom 2 cleaned in
    ("+39 " ++ substringTo 3 number ++ " " ++ substringFrom 3 number)%string
  else phone.

Definition truncateText (text : string) (maxLength : Z) : string :=
  if Z.of_nat (String.length text) <=? maxLength then text
  else (substringTo (maxLength - 3) text ++ "...")%string.

Definition toUpperChar (c : ascii) : ascii :=
  let n := nat_of_ascii c in
  if (97 <=? n)%nat && (n <=? 122)%nat then ascii_of_nat (n - 32) else c.

Definition toLowerChar (c : ascii) : ascii :=
  let n := nat_of_ascii c in
  if (65 <=? n)%nat && (n <=? 90)%nat then ascii_of_nat (n + 32) else c.

Definition toUpperCase : string -> string := mapChars toUpperChar.
Definition toLowerCase : string -> string := mapChars toLowerChar.

(** [text.charAt(0).toUpperCase() + text.slice(1).toLowerCase()] *)
Definition capitalizeFirst (text : string) : string :=
  (toUpperCase (substringTo 1 text) ++ toLowerCase (substringFrom 1 text))%string.

Definition formatBreed (breed : string) : string :=
  join " " (map capitalizeFirst (Js.split " " breed)).

End FormatUtils.

(** ** [ApiUtils.validatePagination] and [ApiUtils.paginated] *)
Module ApiUtils.

Open Scope Q_scope.

(** [x || d] for an optional number: [undefined], NaN and 0 give [d]. *)
Definition orDefault (x : option Q) (d : Q) : Q :=
  match x with
  | Some q => if Qeq_bool q 0 then d else q
  | None => d
  end.

Record Pagination := mkPagination {
  page : Q;
  limit : Q;
  offset : Q
}.

Definition validatePagination (page limit : option Q) : Pagination :=
  let validatedPage := Qmax 1 (orDefault page 1) in
  let validatedLimit := Qmin 100 (Qmax 1 (orDefault limit 10)) in
  mkPagination validatedPage validatedLimit ((validatedPage - 1) * validatedLimit).

Record PageInfo := mkPageInfo {
  info_page : Q;
  info_limit : Q;
  total : Q;
  totalPages : option Z   (* [None]: not a finite number (limit 0) *)
}.

Record Paginated (T : Type) := mkPaginated {
  success : bool;
  data : list T;
  pagination : PageInfo
}.

(** The quotient [total / limit] is exact here; the code's is a
    double, with the same ceiling for whole numbers below 2^53. *)
Definition paginated {T} (data : list T) (page limit total : Q) : Paginated T :=
  mkPaginated T true data
    (mkPageInfo page limit total
       (if Qeq_bool limit 0 then None else Some (Qceiling (total / limit)))).

End ApiUtils.

(** ** [CacheUtils.generateKey] and [CacheUtils.parseTTL] *)
Module CacheUtils.

Open Scope Z_scope.

(** [string | number], numbers being whole. *)
Inductive Part :=
| PString (s : string)
| PNumber (n : Z).

(** The string that [join] makes of an element. *)
Definition render (p : Part) : string :=
  match p with
  | PString s => s
  | PNumber n => Js.toString n
  end.

Definition generateKey (parts : list Part) : string :=
  FormatUtils.join ":" (map render parts).

Definition units (u : ascii) : option Z :=
  if Ascii.eqb u "s" then Some 1
  else if Ascii.eqb u "m" then Some 60
  else if Ascii.eqb u "h" then Some 3600
  else if Ascii.eqb u "d" then Some 86400
  else if Ascii.eqb u "w" then Some 604800
  else None.

(** [ttl.match(/^(\d+)([smhdw])$/)]: the digits and the unit, when the
    string is one or more digits followed by one unit letter. *)
Fixpoint matchTTL (digits : string) (s : string) : option (string * ascii) :=
  match s with
  | EmptyString => None
  | String c EmptyString =>
      match units c with
      | Some _ => if (String.length digits =? 0)%nat then None else Some (digits, c)
      | None => None
      end
  | String c rest =>
      if Validation.isDigit c
      then matchTTL (digits ++ String c EmptyString)%string rest
      else None
  end.

(** The result for a string.  [parseInt] and the product are whole
    numbers here; the code's are doubles, which hold them exactly below
    2^53 (a value of up to ten digits times any unit). *)
Definition parseTTL_string (ttl : string) : Z :=
  match matchTTL EmptyString ttl with
  | None => 3600
  | Some (value, unit) =>
      match Validation.parseInt value, units unit with
      | Some v, Some u => v * u
      | _, _ => 3600   (* not reached: [value] is made of digits *)
      end
  end.

(** [ttl: string | number] *)
Definition parseTTL (ttl : string + Q) : Q :=
  match ttl with
  | inr n => n
  | inl s => inject_Z (parseTTL_string s)
  end.

End CacheUtils.

(** ** The triage block of the booking route (apps/cms/src/routes/api.ts) *)
Module BookingRoute.

Import Triage.

Definition showLevel (l : UrgencyLevel) : string :=
  match l with
  | low => "low" | medium => "medium" | high => "high" | critical => "critical"
  end.

(** A score inside a template literal. *)
Definition showScore (s : option Z) : string :=
  match s with Some z => Js.toString z | None => "NaN" end.

(** [Math.ceil(score / 10)] *)
Definition ceilTenth (s : option Z) : option Z :=
  match s with
  | Some z => Some (Qceiling (inject_Z z / 10))
  | None => None
  end.

Section WithNumber.

Variable Number : string -> number.

(** [urgencyScore] and [triageNotes] as the route computes them;
    [triageResponses] is optional in the request. *)
Definition triageOfRequest (triageResponses : option (list TriageResponse))
  : option Z * string :=
  match triageResponses with
  | Some (r :: rs) =>
      let triageResult := calculateTriageScore Number (r :: rs) in
      (ceilTenth (score triageResult),
       ("Triage score: " ++ showScore (score triageResult)
          ++ "%. Urgency: " ++ showLevel (urgencyLevel triageResult))%string)
  | _ => (Some 1%Z, EmptyString)
  end.

End WithNumber.

End BookingRoute.
(** ** Double-precision numbers

    The numbers of JavaScript are IEEE 754 binary64 values.  Their
    arithmetic is the one of the Standard Library's [SpecFloat], with 53
    bits of precision: every operation returns the double nearest to the
    exact result, ties going to the even mantissa. *)
Module Binary64.

Open Scope Z_scope.

Definition double : Type := spec_float.

Definition prec : Z := 53.
Definition emax : Z := 1024.

Definition NaN : double := S754_nan.

(** [a + b], [a * b] and [a / b] *)
Definition add (a b : double) : double := SFadd prec emax a b.
Definition mul (a b : double) : double := SFmul prec emax a b.
Definition div (a b : double) : double := SFdiv prec emax a b.

(** The double of a whole-number literal; exact up to 2^53. *)
Definition ofZ (z : Z) : double := binary_normalize prec emax z 0 false.

(** [a >= k] for a whole-number literal [k]; false on NaN. *)
Definition geq (a : double) (k : Z) : bool := SFleb (ofZ k) a.

(** The mantissa with its sign. *)
Definition signed (s : bool) (m : positive) : Z :=
  if s then Z.neg m else Z.pos m.

(** [Math.round]: the nearest whole number, halves going up; NaN, the
    infinities and the zeros are returned as they are, and a value from
    -0.5 to below 0 gives -0. *)
Definition Math_round (x : double) : double :=
  match x with
  | S754_finite s m (Z.neg p) =>
      let n := (2 * signed s m + 2 ^ Z.pos p) / 2 ^ (Z.pos p + 1) in
      if n =? 0 then S754_zero s else ofZ n
  | _ => x
  end.

(** The whole number a double holds, when it holds one. *)
Definition toZ (x : double) : option Z :=
  match x with
  | S754_zero _ => Some 0
  | S754_finite s m (Z.neg p) =>
      if signed s m mod 2 ^ Z.pos p =? 0
      then Some (signed s m / 2 ^ Z.pos p)
      else None
  | S754_finite s m e => Some (signed s m * 2 ^ e)
  | _ => None
  end.

(** The exact value of a finite double, in lowest terms (0 for NaN and
    the infinities, which have none). *)
Definition toQ (x : double) : Q :=
  match x with
  | S754_finite s m (Z.neg p) => Qred (signed s m # 2 ^ p)
  | S754_finite s m e => inject_Z (signed s m * 2 ^ e)
  | _ => 0%Q
  end.

End Binary64.

(** ** The triage scorer in double precision

    [TriageSystem.calculateTriageScore] once more, with the arithmetic
    of the code: every sum, quotient and product is rounded to a double.
    The question bank and the types without numbers are those of
    [Triage]. *)
Module TriageDouble.

Import Binary64.

(** [answer: string | number | boolean] *)
Inductive Answer :=
| AString (s : string)
| ANumber (n : double)
| ABoolean (b : bool).

Record TriageResponse := mkResponse {
  questionId : string;
  answer : Answer
}.

Record TriageResult := mkResult {
  score : double;
  urgencyLevel : Triage.UrgencyLevel;
  recommendations : list string;
  suggestedActions : list string;
  veterinarianRequired : bool;
  emergencyServices : bool
}.

Definition is_true (a : Answer) : bool :=
  match a with ABoolean true => true | _ => false end.
Definition is_false (a : Answer) : bool :=
  match a with ABoolean false => true | _ => false end.

Section WithNumber.

(** The coercion of a string to a number ([Number(s)]), which the
    arithmetic [answer / 10] applies to a string answer. *)
Variable Number : string -> double.

Definition toNumber (a : Answer) : double :=
  match a with
  | ANumber n => n
  | ABoolean b => if b then ofZ 1 else ofZ 0
  | AString s => Number s
  end.

(** The value of [score] at the end of the callback's body, for a
    question that has a response. *)
Definition questionScore (question : Triage.TriageQuestion)
           (response : TriageResponse) : double :=
  match Triage.type question with
  | Triage.boolean =>
      if String.eqb (Triage.id question) "consciousness"
         || String.eqb (Triage.id question) "appetite"
      then (if is_false (answer response)
            then ofZ (Triage.weight question) else ofZ 0)
      else (if is_true (answer response)
            then ofZ (Triage.weight question) else ofZ 0)
  | Triage.scale =>
      mul (div (toNumber (answer response)) (ofZ 10))
          (ofZ (Triage.weight question))
  | Triage.multiple =>
      let options' :=
        match Triage.options question with Some os => os | None => [] end in
      let answerIndex :=
        match answer response with
        | AString s => Triage.indexOf options' s
        | _ => (-1)%Z
        end in
      mul (div (ofZ answerIndex) (ofZ (Z.of_nat (List.length options') - 1)))
          (ofZ (Triage.weight question))
  end.

(** One call of the [forEach] callback on the pair
    [(totalScore, maxPossibleScore)]. *)
Definition step (responses : list TriageResponse)
           (acc : double * double) (question : Triage.TriageQuestion)
  : double * double :=
  let '(totalScore, maxPossibleScore) := acc in
  let maxPossibleScore := add maxPossibleScore (ofZ (Triage.weight question)) in
  match find (fun r => String.eqb (questionId r) (Triage.id question)) responses with
  | None => (totalScore, maxPossibleScore)
  | Some response =>
      (add totalScore (questionScore question response), maxPossibleScore)
  end.

Definition totals (responses : list TriageResponse) : double * double :=
  fold_left (step responses) Triage.questions (ofZ 0, ofZ 0).

Definition normalizedScore (responses : list TriageResponse) : double :=
  let '(totalScore, maxPossibleScore) := totals responses in
  Math_round (mul (div totalScore maxPossibleScore) (ofZ 100)).

Definition calculateTriageScore (responses : list TriageResponse) : TriageResult :=
  let normalizedScore := normalizedScore responses in
  if geq normalizedScore 80 then
    mkResult normalizedScore Triage.critical
      [ "Contattare immediatamente i servizi di emergenza veterinaria";
        "Non spostare il cane se non necessario";
        "Mantenere il cane calmo e al caldo" ]%string
      [ "Chiamare emergenza veterinaria"; "Prepararsi al trasporto" ]%string
      true true
  else if geq normalizedScore 60 then
    mkResult normalizedScore Triage.high
      [ "Consultare un veterinario entro 2-4 ore";
        "Monitorare attentamente i sintomi";
        "Non somministrare farmaci senza consulto" ]%string
      [ "Prenotare visita urgente"; "Preparare documenti sanitari" ]%string
      true false
  else if geq normalizedScore 30 then
    mkResult normalizedScore Triage.medium
      [ "Consultare un veterinario entro 24-48 ore";
        "Tenere sotto osservazione";
        "Offrire acqua e cibo leggero se gradito" ]%string
      [ "Prenotare visita"; "Monitorare sintomi" ]%string
      true false
  else
    mkResult normalizedScore Triage.low
      [ "Situazione non urgente";
        "Continuare a monitorare";
        "Consultare il veterinario se i sintomi peggiorano" ]%string
      [ "Monitoraggio domestico"; "Consultazione opzionale" ]%string
      false false.

End WithNumber.

(** A reference [Number] for running examples: decimal digit strings. *)
Definition decimalNumber (s : string) : double :=
  match Js.decimalNumber s with Some z => ofZ z | None => NaN end.

End TriageDouble.

(* ===================================================================== *)
(** * Part II: the vocabulary of the specification                        *)
(* ===================================================================== *)

(** ** Availability *)
Module AvailabilitySpec.

Import Availability.

(** The candidate slot starts of a window: [startMinutes],
    [startMinutes + 30], ... below [endMinutes]. *)
Definition candidateMinutes (startMinutes endMinutes : Z) : list Z :=
  map (fun k => startMinutes + 30 * Z.of_nat k)
      (seq 0 (Z.to_nat ((endMinutes - startMinutes + 29) / 30))).

(** The length of a slot, in milliseconds. *)
Definition SLOT_MS : Z := 30 * 60000.

(** Half-open interval overlap, as the specification words it:
    [slotStart < bookedEnd && bookedStart < slotEnd]. *)
Definition overlapsHalfOpen (slotStart slotEnd bookedStart bookedEnd : Z) : bool :=
  (slotStart <? bookedEnd) && (bookedStart <? slotEnd).

Definition slotOverlaps (slot : Z) (b : Booking) : bool :=
  overlapsHalfOpen slot (slot + SLOT_MS) (bookingStart b) (bookingEnd b).

(** What the code tests: the start of the slot lies in the booking. *)
Definition startsInside (slot : Z) (b : Booking) : Prop :=
  bookingStart b <= slot < bookingEnd b.

(** A booking that starts a whole number of slots away from [slot]. *)
Definition onSlotGrid (slot : Z) (b : Booking) : Prop :=
  (bookingStart b - slot) mod SLOT_MS = 0.

(** The day rule the function works with and its two bounds. *)
Definition window (Number : string -> Js.number) (db : Database)
           (vid : string) (date : Z) (startMinutes endMinutes : Z) : Prop :=
  exists vet rule,
    findUnique db vid = Some vet
    /\ find (fun wh => (dayOfWeek wh =? Js.getDay date) && isAvailable wh)
            (workingHours vet) = Some rule
    /\ minutesOf Number (startTime rule) = Some startMinutes
    /\ minutesOf Number (endTime rule) = Some endMinutes.

(** The bookings the function looks at. *)
Definition bookingsOfDay (db : Database) (vid : string) (date : Z) : list Booking :=
  findMany db vid (Js.startOfDay date) (Js.endOfDay date).

(** Monday 1 January 2024, 00:00 UTC. *)
Definition monday : Z := 1704067200000.

(** A clinic open on Mondays from 09:00 to 10:00, with one half-hour
    booking at 09:15. *)
Definition quarterPastDb : Database :=
  mkDatabase
    [ mkVeterinarian "v1" [ mkDayRule 1 "09:00" "10:00" true ] ]
    [ mkBooking "v1" (monday + 9 * 3600000 + 15 * 60000) 30 CONFIRMED ].

(** A clinic open on Mondays from 09:00 to 09:45, without bookings. *)
Definition shortWindowDb : Database :=
  mkDatabase [ mkVeterinarian "v1" [ mkDayRule 1 "09:00" "09:45" true ] ] [].

(** The example of the specification: Monday 09:00-12:00, closed on
    Tuesdays, no bookings. *)
Definition exampleDb : Database :=
  mkDatabase
    [ mkVeterinarian "v1" [ mkDayRule 1 "09:00" "12:00" true;
                            mkDayRule 2 "09:00" "12:00" false ] ]
    [].

(** The same clinic with a one-hour booking at 10:00 on Monday
    1 January 2024. *)
Definition bookedMondayDb : Database :=
  mkDatabase
    [ mkVeterinarian "v1" [ mkDayRule 1 "09:00" "12:00" true;
                            mkDayRule 2 "09:00" "12:00" false ] ]
    [ mkBooking "v1" (monday + 10 * 3600000) 60 CONFIRMED ].

End AvailabilitySpec.

(** ** Matching *)
Module MatchingSpec.

Import Matching.
Open Scope Q_scope.

(** What the proofs use of the [Math] functions: their value depends on
    the value of the argument only, and the sine is odd. *)
Record MathLaws (M : MathLibrary) : Prop := mkMathLaws {
  sin_compat : forall x y, x == y -> Math_sin M x == Math_sin M y;
  sqrt_compat : forall x y, x == y -> Math_sqrt M x == Math_sqrt M y;
  atan2_compat : forall x x' y y',
      x == x' -> y == y' -> Math_atan2 M x y == Math_atan2 M x' y';
  sin_odd : forall x, Math_sin M (- x) == - Math_sin M x
}.

(** A rational stand-in for [Math], made of first terms of the series;
    it has the laws above and serves to run examples. *)
Definition referenceMath : MathLibrary :=
  mkMath (fun x => x - x * x * x / 6)
         (fun x => 1 - x * x / 2)
         (fun x => (1 + x) / 2)
         (fun y x => y / x)
         (355 # 113).

(** Midnight UTC of a calendar day, as a time value. *)
Definition utc (y m d : Z) : Z := (Dayjs.days_from_civil y m d * Js.MS_PER_DAY)%Z.

(** Two clock readings: 15 June 2024 and 15 July 2024. *)
Definition midJune : Z := utc 2024 6 15.
Definition midJuly : Z := utc 2024 7 15.

(** An owner without an address, and one in Rome. *)
Definition nowhere : User := mkUser None.
Definition inRome : User :=
  mkUser (Some (mkAddress (Some (mkCoordinates (Some (419 # 10))
                                               (Some (125 # 10)))))).

(** Dogs of the examples, with the values of the enums of
    packages/types. *)
Definition rex : Dog :=
  mkDog "medium" (utc 2020 6 1) "high" ["friendly"; "energetic"]%string "maschio".

Definition rexFemale : Dog :=
  mkDog "medium" (utc 2020 6 1) "high" ["friendly"; "energetic"]%string "femmina".

Definition luna : Dog :=
  mkDog "medium" (utc 2017 7 1) "high" ["friendly"; "energetic"]%string "femmina".

End MatchingSpec.

(** ** Triage *)
Module TriageSpec.

Import Triage.
Open Scope Q_scope.

(** Equality of JavaScript numbers: equal rationals, or both NaN. *)
Definition neq (a b : number) : Prop :=
  match a, b with
  | Some x, Some y => x == y
  | None, None => True
  | _, _ => False
  end.

(** The response the scorer uses for a question: the first one in the
    list that carries the question's id. *)
Definition firstResponse (responses : list TriageResponse) (qid : string)
  : option TriageResponse :=
  find (fun r => String.eqb (questionId r) qid) responses.

(** What one question of the bank adds to [totalScore]. *)
Definition contribution (Number : string -> number)
           (responses : list TriageResponse) (q : TriageQuestion) : number :=
  match firstResponse responses (id q) with
  | Some r => questionScore Number q r
  | None => num 0
  end.

(** A boolean question: the full weight when the answer passes [test],
    nothing otherwise, nothing when unanswered. *)
Definition fullWeightWhen (test : Answer -> bool)
           (responses : list TriageResponse) (qid : string) (w : Z) : number :=
  match firstResponse responses qid with
  | Some r => if test (answer r) then num w else num 0
  | None => num 0
  end.

(** A scale question: [(answer / 10) * weight]. *)
Definition scaleTerm (Number : string -> number)
           (responses : list TriageResponse) (qid : string) (w : Z) : number :=
  match firstResponse responses qid with
  | Some r => mul (div (toNumber Number (answer r)) (num 10)) (num w)
  | None => num 0
  end.

(** The index of the option chosen; -1 when the answer is not one of the
    options. *)
Definition optionIndex (opts : list string) (a : Answer) : Z :=
  match a with
  | AString s => indexOf opts s
  | _ => (-1)%Z
  end.

(** A multiple-choice question:
    [(optionIndex / (numOptions - 1)) * weight]. *)
Definition choiceTerm (responses : list TriageResponse) (qid : string)
           (opts : list string) (w : Z) : number :=
  match firstResponse responses qid with
  | Some r =>
      mul (div (num (optionIndex opts (answer r)))
               (num (Z.of_nat (List.length opts) - 1)))
          (num w)
  | None => num 0
  end.

Definition answeredTrue : Answer -> bool := is_true.
Definition answeredFalse : Answer -> bool := is_false.

Definition bleedingOptions : list string :=
  ["Nessuno"; "Lieve"; "Moderato"; "Grave"]%string.

(** The numerator, question by question: the two positive-phrased
    questions (consciousness, appetite) count when answered [false], the
    other boolean questions when answered [true]. *)
Definition spec_totalScore (Number : string -> number)
           (responses : list TriageResponse) : number :=
  add (add (add (add (add (add (add
    (fullWeightWhen answeredTrue responses "breathing_difficulty" 10)
    (fullWeightWhen answeredFalse responses "consciousness" 9))
    (choiceTerm responses "bleeding" bleedingOptions 8))
    (scaleTerm Number responses "pain_level" 7))
    (fullWeightWhen answeredTrue responses "vomiting" 5))
    (fullWeightWhen answeredFalse responses "appetite" 4))
    (fullWeightWhen answeredTrue responses "mobility" 6))
    (fullWeightWhen answeredTrue responses "previous_issues" 3).

(** The denominator: the sum of the weights of all the questions. *)
Definition spec_maxPossibleScore : Z :=
  fold_right Z.add 0%Z (map weight questions).

(** [round(100 * totalScore / maxPossibleScore)] *)
Definition spec_score (Number : string -> number)
           (responses : list TriageResponse) : option Z :=
  Math_round (div (mul (num 100) (spec_totalScore Number responses))
                  (num spec_maxPossibleScore)).

(** Answers within the range of their question: a scale answer is a
    number between 0 and 10, a multiple-choice answer is one of the
    options. *)
Definition inRange (Number : string -> number) (r : TriageResponse) : Prop :=
  (questionId r = "pain_level"%string ->
   exists q, toNumber Number (answer r) = Some q /\ 0 <= q <= 10)
  /\ (questionId r = "bleeding"%string ->
      exists s, answer r = AString s /\ In s bleedingOptions).

Definition wellFormed (Number : string -> number)
           (responses : list TriageResponse) : Prop :=
  forall r, In r responses -> inRange Number r.

(** A number between 0 and [w]. *)
Definition within (a : number) (w : Z) : Prop :=
  exists q, a = Some q /\ 0 <= q <= inject_Z w.

(** Every question answered with its most severe answer. *)
Definition worstCase : list TriageResponse :=
  [ mkResponse "breathing_difficulty" (ABoolean true);
    mkResponse "consciousness" (ABoolean false);
    mkResponse "bleeding" (AString "Grave");
    mkResponse "pain_level" (ANumber 10);
    mkResponse "vomiting" (ABoolean true);
    mkResponse "appetite" (ABoolean false);
    mkResponse "mobility" (ABoolean true);
    mkResponse "previous_issues" (ABoolean true) ].

(** A bleeding answer that is not one of the options. *)
Definition unknownOption : list TriageResponse :=
  [ mkResponse "bleeding" (AString "xyz") ].

(** A pain level beyond the scale. *)
Definition offScale : list TriageResponse :=
  [ mkResponse "pain_level" (ANumber 1000) ].

Definition isBankQuestion (qid : string) : bool :=
  existsb (fun q => String.eqb (id q) qid) questions.

Definition seenBefore (seen : list string) (qid : string) : bool :=
  existsb (fun s => String.eqb s qid) seen.

(** The list restricted to the first response of each question of the
    bank; [seen] holds the ids met so far. *)
Fixpoint firstPerQuestion (seen : list string) (responses : list TriageResponse)
  : list TriageResponse :=
  match responses with
  | [] => []
  | r :: rest =>
      if isBankQuestion (questionId r) && negb (seenBefore seen (questionId r))
      then r :: firstPerQuestion (questionId r :: seen) rest
      else firstPerQuestion seen rest
  end.

End TriageSpec.

(** ** Further vocabulary: bookings, validated hours *)
Module AvailabilityOps.

Import Availability AvailabilitySpec.

(** The database after [booking.create]. *)
Definition addBooking (db : Database) (b : Booking) : Database :=
  mkDatabase (veterinarian db) (booking db ++ [b]).

(** A booking the availability query of ([vid], [date]) reads. *)
Definition readBy (vid : string) (date : Z) (b : Booking) : bool :=
  String.eqb (veterinarianId b) vid
  && (Js.startOfDay date <=? scheduledAt b) && (scheduledAt b <=? Js.endOfDay date)
  && negb (BookingStatus_eqb (status b) CANCELLED).

(** The time string of an hour and a minute, digit by digit. *)
Definition digitChar (d : Z) : ascii := ascii_of_nat (Z.to_nat (48 + d)).

Definition clock (h1 h2 m1 m2 : Z) : string :=
  String (digitChar h1) (String (digitChar h2) (String ":"
    (String (digitChar m1) (String (digitChar m2) EmptyString)))).

(** What is checked of the clock reading [h]:[mi]: both parsers read it
    as its minute of the day, and the slot label of that minute is the
    reading itself. *)
Definition clockChecks (h mi : Z) : bool :=
  let c := clock (h / 10) (h mod 10) (mi / 10) (mi mod 10) in
  let m := h * 60 + mi in
  match minutesOf Js.decimalNumber c, Validation.minutesOfDay c with
  | Some a, Some b => (a =? m) && (b =? m) && String.eqb (timeString m) c
  | _, _ => false
  end.

(** A clinic with validated hours, open on Mondays and Saturdays. *)
Definition validatedDb : Database :=
  mkDatabase
    [ mkVeterinarian "v1" [ mkDayRule 1 "08:30" "12:15" true;
                            mkDayRule 6 "09:00" "13:00" true ] ]
    [ mkBooking "v1" (monday + 9 * 3600000) 30 CONFIRMED;
      mkBooking "v1" (monday + 10 * 3600000) 30 CANCELLED;
      mkBooking "v2" (monday + 11 * 3600000) 30 CONFIRMED ].

End AvailabilityOps.

(** ** Further vocabulary: triage *)
Module TriageOps.

Import Triage TriageSpec.

(** Two benign answers, in both orders. *)
Definition calmAnswers : list TriageResponse :=
  [ mkResponse "vomiting" (ABoolean false);
    mkResponse "pain_level" (ANumber 0) ].

Definition calmAnswersSwapped : list TriageResponse :=
  [ mkResponse "pain_level" (ANumber 0);
    mkResponse "vomiting" (ABoolean false) ].

End TriageOps.

(** ** Further vocabulary: distances *)
Module MatchingOps.

Import Matching MatchingSpec.
Open Scope Q_scope.

(** Ascending order of the distances. *)
Definition byDistance {A} (a b : A * Q) : Prop := snd a <= snd b.

Definition rome : LocationPoint := mkPoint (419 # 10) (125 # 10).
Definition milan : LocationPoint := mkPoint (4546 # 100) (919 # 100).

(** One box inside another. *)
Definition inside (inner outer : GeoUtils.BoundingBox) : Prop :=
  GeoUtils.south outer <= GeoUtils.south inner
  /\ GeoUtils.north inner <= GeoUtils.north outer
  /\ GeoUtils.west outer <= GeoUtils.west inner
  /\ GeoUtils.east inner <= GeoUtils.east outer.

End MatchingOps.

(** ** Further vocabulary: strings *)
Module StringOps.

(** Every character of the string passes the test. *)
Fixpoint allChars (p : ascii -> bool) (s : string) : bool :=
  match s with
  | EmptyString => true
  | String c rest => p c && allChars p rest
  end.

(** The string has no occurrence of the character. *)
Definition without (sep : ascii) (s : string) : bool :=
  allChars (fun c => negb (Ascii.eqb c sep)) s.

(** A string of ASCII characters (codes below 128). *)
Definition isAscii (s : string) : bool :=
  allChars (fun c => (nat_of_ascii c <? 128)%nat) s.

Definition allDigits (s : string) : bool := allChars Validation.isDigit s.

End StringOps.
(** ** Vocabulary for [registerForEvent] *)
Module EventsSpec.

Import Events.
Open Scope Z_scope.

(** No event with a limit (a [maxParticipants] that is set and not 0)
    counts more participants than the limit. *)
Definition capacityOk (db : Db) : Prop :=
  forall e m, In e (event db) -> maxParticipants e = Some m -> m <> 0 ->
              currentParticipants e <= m.

(** The participation rows of an event. *)
Definition participants (db : Db) (eid : string) : list EventParticipation :=
  filter (fun p => String.eqb (eventId p) eid) (eventParticipation db).

(** Every counter is the number of participation rows of its event. *)
Definition countOk (db : Db) : Prop :=
  forall e, In e (event db) ->
            currentParticipants e = Z.of_nat (List.length (participants db (id e))).

Definition uniqueIds (db : Db) : Prop := NoDup (map id (event db)).

(** A walk with two places, one of them taken. *)
Definition walkDb : Db :=
  mkDb [ mkEvent "walk" (Some 2) 1; mkEvent "picnic" None 0 ]
       [ mkParticipation "walk" "anna" ].

End EventsSpec.

(** ** Vocabulary for the triage scorer in double precision *)
Module TriageDoubleSpec.

Import Binary64 TriageDouble.

(** The response the scorer uses for a question: the first one in the
    list that carries the question's id. *)
Definition firstResponse (responses : list TriageResponse) (qid : string)
  : option TriageResponse :=
  find (fun r => String.eqb (questionId r) qid) responses.

(** [totalScore] with one more term, or as it is for an unanswered
    question. *)
Definition plus (totalScore : double) (term : option double) : double :=
  match term with
  | Some s => add totalScore s
  | None => totalScore
  end.

(** A boolean question: the full weight when the answer passes [test],
    0 otherwise, nothing when unanswered. *)
Definition fullWeightWhen (test : Answer -> bool)
           (responses : list TriageResponse) (qid : string) (w : Z)
  : option double :=
  match firstResponse responses qid with
  | Some r => Some (if test (answer r) then ofZ w else ofZ 0)
  | None => None
  end.

(** A scale question: [(answer / 10) * weight]. *)
Definition scaleTerm (Number : string -> double)
           (responses : list TriageResponse) (qid : string) (w : Z)
  : option double :=
  match firstResponse responses qid with
  | Some r => Some (mul (div (toNumber Number (answer r)) (ofZ 10)) (ofZ w))
  | None => None
  end.

(** The index of the option chosen; -1 when the answer is not one of the
    options. *)
Definition optionIndex (opts : list string) (a : Answer) : Z :=
  match a with
  | AString s => Triage.indexOf opts s
  | _ => (-1)%Z
  end.

(** A multiple-choice question:
    [(optionIndex / (numOptions - 1)) * weight]. *)
Definition choiceTerm (responses : list TriageResponse) (qid : string)
           (opts : list string) (w : Z) : option double :=
  match firstResponse responses qid with
  | Some r =>
      Some (mul (div (ofZ (optionIndex opts (answer r)))
                     (ofZ (Z.of_nat (List.length opts) - 1)))
                (ofZ w))
  | None => None
  end.

(** The numerator, question by question in the order of the bank, each
    sum rounded: the two positive-phrased questions (consciousness,
    appetite) count when answered [false], the other boolean questions
    when answered [true]. *)
Definition spec_totalScore (Number : string -> double)
           (responses : list TriageResponse) : double :=
  plus (plus (plus (plus (plus (plus (plus (plus (ofZ 0)
    (fullWeightWhen is_true responses "breathing_difficulty" 10))
    (fullWeightWhen is_false responses "consciousness" 9))
    (choiceTerm responses "bleeding" TriageSpec.bleedingOptions 8))
    (scaleTerm Number responses "pain_level" 7))
    (fullWeightWhen is_true responses "vomiting" 5))
    (fullWeightWhen is_false responses "appetite" 4))
    (fullWeightWhen is_true responses "mobility" 6))
    (fullWeightWhen is_true responses "previous_issues" 3).

(** [Math.round((totalScore / maxPossibleScore) * 100)]: the quotient,
    then the product, then the rounding to a whole number. *)
Definition spec_score (Number : string -> double)
           (responses : list TriageResponse) : double :=
  Math_round (mul (div (spec_totalScore Number responses)
                       (ofZ TriageSpec.spec_maxPossibleScore))
                  (ofZ 100)).

(** The formula in the order the specification writes it,
    [round(100 * totalScore / maxPossibleScore)], in double precision. *)
Definition spec_score_product_first (Number : string -> double)
           (responses : list TriageResponse) : double :=
  Math_round (div (mul (ofZ 100) (spec_totalScore Number responses))
                  (ofZ TriageSpec.spec_maxPossibleScore)).

(** The same answers with the exact values of their numbers, as the
    exact scorer reads them. *)
Definition exactAnswer (a : Answer) : Triage.Answer :=
  match a with
  | AString s => Triage.AString s
  | ANumber n => Triage.ANumber (toQ n)
  | ABoolean b => Triage.ABoolean b
  end.

Definition exactResponse (r : TriageResponse) : Triage.TriageResponse :=
  Triage.mkResponse (questionId r) (exactAnswer (answer r)).

Definition exact (responses : list TriageResponse) : list Triage.TriageResponse :=
  map exactResponse responses.

(** Answers within the range of their question, in whole numbers: a
    scale answer is one of 0, 1, ..., 10, a multiple-choice answer is one
    of the options. *)
Definition inRangeWhole (r : TriageResponse) : Prop :=
  (questionId r = "pain_level"%string ->
   exists k : Z, (0 <= k <= 10)%Z /\ answer r = ANumber (ofZ k))
  /\ (questionId r = "bleeding"%string ->
      exists s, answer r = AString s /\ In s TriageSpec.bleedingOptions).

Definition wellFormedWhole (responses : list TriageResponse) : Prop :=
  forall r, In r responses -> inRangeWhole r.

(** Vomiting, difficulty in walking and a pain level of 1:
    (5 + 6 + 0.7) / 52 = 0.225. *)
Definition halfPoint : list TriageResponse :=
  [ mkResponse "vomiting" (ABoolean true);
    mkResponse "mobility" (ABoolean true);
    mkResponse "pain_level" (ANumber (ofZ 1)) ].

(** *** What an answer comes to

    For the scorer an answer to a question comes to a level: 0 or 1 for
    a boolean question (whether it scores), the index of the option for a
    multiple-choice question, the number itself for a scale question. *)
Definition levelOf (q : Triage.TriageQuestion) (a : Answer) : Z :=
  match Triage.type q with
  | Triage.boolean =>
      if String.eqb (Triage.id q) "consciousness"
         || String.eqb (Triage.id q) "appetite"
      then (if is_false a then 1 else 0)
      else (if is_true a then 1 else 0)
  | Triage.scale =>
      match a with
      | ANumber n => match toZ n with Some k => k | None => 0 end
      | _ => 0
      end
  | Triage.multiple =>
      optionIndex
        (match Triage.options q with Some os => os | None => [] end) a
  end%Z.

(** The level of the first response to a question, if there is one. *)
Definition reading (responses : list TriageResponse) (q : Triage.TriageQuestion)
  : option Z :=
  match firstResponse responses (Triage.id q) with
  | Some r => Some (levelOf q (answer r))
  | None => None
  end.

(** The levels of the in-range answers in whole numbers. *)
Definition levels (q : Triage.TriageQuestion) : list Z :=
  match Triage.type q with
  | Triage.boolean => [0; 1]
  | Triage.scale => [0; 1; 2; 3; 4; 5; 6; 7; 8; 9; 10]
  | Triage.multiple => [0; 1; 2; 3]
  end%Z.

Definition readings (q : Triage.TriageQuestion) : list (option Z) :=
  None :: map Some (levels q).

(** What a question adds to [totalScore] at a level, in double precision
    and exactly. *)
Definition doubleTerm (q : Triage.TriageQuestion) (l : option Z) : option double :=
  match l with
  | None => None
  | Some k =>
      Some match Triage.type q with
           | Triage.boolean =>
               if (k =? 0)%Z then ofZ 0 else ofZ (Triage.weight q)
           | Triage.scale =>
               mul (div (ofZ k) (ofZ 10)) (ofZ (Triage.weight q))
           | Triage.multiple =>
               mul (div (ofZ k)
                        (ofZ (Z.of_nat
                                (List.length
                                   (match Triage.options q with
                                    | Some os => os
                                    | None => []
                                    end)) - 1)))
                   (ofZ (Triage.weight q))
           end
  end.

Definition exactTerm (q : Triage.TriageQuestion) (l : option Z)
  : option Triage.number :=
  match l with
  | None => None
  | Some k =>
      Some match Triage.type q with
           | Triage.boolean =>
               if (k =? 0)%Z then Triage.num 0 else Triage.num (Triage.weight q)
           | Triage.scale =>
               Triage.mul (Triage.div (Some (toQ (ofZ k))) (Triage.num 10))
                          (Triage.num (Triage.weight q))
           | Triage.multiple =>
               Triage.mul
                 (Triage.div (Triage.num k)
                    (Triage.num (Z.of_nat
                                   (List.length
                                      (match Triage.options q with
                                       | Some os => os
                                       | None => []
                                       end)) - 1)))
                 (Triage.num (Triage.weight q))
           end
  end.

Definition exactPlus (totalScore : Triage.number) (term : option Triage.number)
  : Triage.number :=
  match term with
  | Some s => Triage.add totalScore s
  | None => totalScore
  end.

(** The two scores side by side, from the totals of the two scorers:
    the double holds a whole number, which is the exact score or one
    less, and the two lie on the same side of 30, 60 and 80. *)
Definition agree (total maxPossible : double)
           (exactTotal exactMax : Triage.number) : bool :=
  let s := Math_round (mul (div total maxPossible) (ofZ 100)) in
  let x := Triage.Math_round
             (Triage.mul (Triage.div exactTotal exactMax) (Triage.num 100)) in
  match toZ s, x with
  | Some d, Some e =>
      ((d =? e) || (d =? e - 1))%Z
      && Bool.eqb (geq s 80) (Triage.geq x 80)
      && Bool.eqb (geq s 60) (Triage.geq x 60)
      && Bool.eqb (geq s 30) (Triage.geq x 30)
  | _, _ => false
  end.

(** A total that is not -0; adding 0 to such a total leaves it as it
    is, so that a boolean question that scores nothing and one that is
    unanswered come to the same. *)
Definition notNegZero (x : double) : bool :=
  match x with
  | S754_zero true => false
  | _ => true
  end.

(** The readings to try for a question: all of them, without the
    unanswered one for a boolean question. *)
Definition swept (q : Triage.TriageQuestion) : list (option Z) :=
  match Triage.type q with
  | Triage.boolean => map Some (levels q)
  | _ => readings q
  end.

(** The comparison at every combination of the readings to try of the
    questions [qs], from the totals reached so far. *)
Fixpoint sweep (qs : list Triage.TriageQuestion)
         (total maxPossible : double) (exactTotal exactMax : Triage.number)
  : bool :=
  match qs with
  | [] => agree total maxPossible exactTotal exactMax
  | q :: rest =>
      notNegZero total
      && forallb (fun l =>
                    sweep rest
                          (plus total (doubleTerm q l))
                          (add maxPossible (ofZ (Triage.weight q)))
                          (exactPlus exactTotal (exactTerm q l))
                          (Triage.add exactMax (Triage.num (Triage.weight q))))
                 (swept q)
  end.

End TriageDoubleSpec.

(* ===================================================================== *)
(** * Part III: properties                                                *)
(* ===================================================================== *)

(** Statements about closed programs are settled by running them. *)
Ltac run := vm_compute; reflexivity.

(** Duplicate-freeness of a literal list of strings. *)
Ltac distinct_strings := repeat constructor; cbn; intuition discriminate.

(** ** Availability engine *)
Section AvailabilityFacts.

Import Availability AvailabilitySpec.

Variable Number : string -> Js.number.

Lemma candidateMinutes_nil s e : e <= s -> candidateMinutes s e = [].
Proof.
  intros H. unfold candidateMinutes.
  replace (Z.to_nat ((e - s + 29) / 30)) with 0%nat; [reflexivity|].
  assert ((e - s + 29) / 30 <= 0).
  { apply Z.lt_succ_r. apply Z.div_lt_upper_bound; lia. }
  lia.
Qed.

Lemma candidateMinutes_cons s e :
  s < e -> candidateMinutes s e = s :: candidateMinutes (s + 30) e.
Proof.
  intros H. unfold candidateMinutes.
  assert (E : (e - s + 29) / 30 = (e - (s + 30) + 29) / 30 + 1).
  { replace (e - s + 29) with ((e - (s + 30) + 29) + 1 * 30) by lia.
    rewrite Z.div_add by lia. reflexivity. }
  assert (P : 0 <= (e - (s + 30) + 29) / 30).
  { apply Z.div_pos; lia. }
  rewrite E, Z2Nat.inj_add by lia.
  change (Z.to_nat 1) with 1%nat. rewrite Nat.add_1_r.
  cbn [seq map]. f_equal; [lia|].
  rewrite <- seq_shift, map_map.
  apply map_ext. intros k. lia.
Qed.

Lemma candidateMinutes_spec s e m :
  In m (candidateMinutes s e) <-> (s <= m < e /\ (m - s) mod 30 = 0).
Proof.
  unfold candidateMinutes. rewrite in_map_iff. split.
  - intros (k & <- & Hk). apply in_seq in Hk.
    assert (Z.of_nat k < (e - s + 29) / 30) by lia.
    assert (30 * (Z.of_nat k + 1) <= e - s + 29).
    { transitivity (30 * ((e - s + 29) / 30)).
      - apply Z.mul_le_mono_nonneg_l; lia.
      - apply Z.mul_div_le; lia. }
    split; [lia|].
    replace (s + 30 * Z.of_nat k - s) with (Z.of_nat k * 30) by lia.
    apply Z.mod_mul; lia.
  - intros ([H1 H2] & H3).
    apply Z.mod_divide in H3; [|lia]. destruct H3 as [q Hq].
    exists (Z.to_nat q). split; [lia|].
    apply in_seq.
    assert (q + 1 <= (e - s + 29) / 30) by (apply Z.div_le_lower_bound; lia).
    lia.
Qed.

Lemma candidateMinutes_sorted s e : StronglySorted Z.lt (candidateMinutes s e).
Proof.
  unfold candidateMinutes.
  generalize (Z.to_nat ((e - s + 29) / 30)) as n. generalize 0%nat as i.
  intros i n. revert i.
  induction n as [|n IH]; intros i; cbn [seq map]; constructor.
  - apply IH.
  - apply Forall_forall. intros m Hm.
    apply in_map_iff in Hm. destruct Hm as (k & <- & Hk).
    apply in_seq in Hk. lia.
Qed.

Lemma StronglySorted_filter_lt (keep : Z -> bool) l :
  StronglySorted Z.lt l -> StronglySorted Z.lt (filter keep l).
Proof.
  induction 1 as [|x l Hs IH Hall]; cbn [filter]; [constructor|].
  destruct (keep x); [|exact IH].
  constructor; [exact IH|].
  rewrite Forall_forall in *. intros y Hy.
  apply filter_In in Hy. apply Hall, Hy.
Qed.

(** The loop appends, in order, the labels of the candidates whose start
    is in no booking. *)
Lemma slotLoop_filter date bookings endMinutes minutes availableSlots :
  slotLoop date bookings endMinutes minutes availableSlots
  = availableSlots
      ++ map timeString
           (filter (fun m => negb (isBooked bookings (slotDateTime date m)))
                   (candidateMinutes minutes endMinutes)).
Proof.
  funelim (slotLoop date bookings endMinutes minutes availableSlots).
  - rewrite candidateMinutes_cons by assumption. cbn [filter].
    destruct (isBooked bookings (slotDateTime date minutes)); cbn [negb map].
    + assumption.
    + match goal with
      | IH : slotLoop _ _ _ _ (_ ++ _) = (_ ++ _) ++ _ |- _ => rewrite IH
      end.
      rewrite <- app_assoc. reflexivity.
  - rewrite candidateMinutes_nil by lia. cbn. rewrite app_nil_r. reflexivity.
Qed.

Lemma isBooked_spec bookings slot :
  isBooked bookings slot = true
  <-> exists b, In b bookings /\ startsInside slot b.
Proof.
  unfold isBooked, startsInside. rewrite existsb_exists.
  split; intros (b & Hb & H); exists b; split; auto.
  - apply andb_true_iff in H. lia.
  - apply andb_true_iff. lia.
Qed.

(** With the window resolved, the function is the loop. *)
Lemma availability_of_window db vid date s e :
  window Number db vid date s e ->
  getVeterinarianAvailability Number db vid date
  = map timeString
        (filter (fun m => negb (isBooked (bookingsOfDay db vid date)
                                         (slotDateTime date m)))
                (candidateMinutes s e)).
Proof.
  intros (vet & rule & Hv & Hr & Hs & He).
  unfold getVeterinarianAvailability. rewrite Hv, Hr, Hs, He.
  rewrite slotLoop_filter. reflexivity.
Qed.

(** On the slot grid, "the start lies in the booking" and half-open
    overlap of the 30-minute slot are the same test. *)
Lemma startsInside_iff_overlap slot b :
  onSlotGrid slot b ->
  (startsInside slot b <-> slotOverlaps slot b = true).
Proof.
  unfold onSlotGrid, startsInside, slotOverlaps, overlapsHalfOpen, SLOT_MS.
  intros G. apply Z.mod_divide in G; [|lia]. destruct G as [k Hk].
  rewrite andb_true_iff, !Z.ltb_lt. lia.
Qed.

(** C1 (amended): with 30-minute slots, a candidate is discarded exactly
    when its start instant lies in some booked interval
    [bookedStart, bookedEnd) -- which, for a booking that starts a whole
    number of slots away from the candidate, is half-open overlap --, and
    the labels returned are those of the remaining candidates in ascending
    time order. *)
Theorem availability_discards_started_slots db vid date s e :
  window Number db vid date s e ->
  exists emitted,
    getVeterinarianAvailability Number db vid date = map timeString emitted
    /\ (forall m,
           In m emitted
           <-> In m (candidateMinutes s e)
               /\ ~ (exists b, In b (bookingsOfDay db vid date)
                               /\ startsInside (slotDateTime date m) b))
    /\ StronglySorted Z.lt emitted
    /\ (forall m b,
           onSlotGrid (slotDateTime date m) b ->
           (startsInside (slotDateTime date m) b
            <-> slotOverlaps (slotDateTime date m) b = true)).
Proof.
  intros W.
  exists (filter (fun m => negb (isBooked (bookingsOfDay db vid date)
                                          (slotDateTime date m)))
                 (candidateMinutes s e)).
  split; [apply availability_of_window, W|].
  split; [|split].
  - intros m. rewrite filter_In, negb_true_iff, <- isBooked_spec.
    destruct (isBooked _ _); intuition congruence.
  - apply StronglySorted_filter_lt, candidateMinutes_sorted.
  - intros m b. apply startsInside_iff_overlap.
Qed.

(** C2 (amended): the slot size is fixed at 30 minutes; every label
    returned is the label of a minute count [m] with [start <= m < end],
    aligned to 30-minute multiples from [start]; when the window is a whole
    number of slots long, [m <= end - 30]. *)
Theorem availability_labels_in_window db vid date s e :
  window Number db vid date s e ->
  forall label,
    In label (getVeterinarianAvailability Number db vid date) ->
    exists m,
      label = timeString m
      /\ s <= m < e
      /\ (m - s) mod 30 = 0
      /\ ((e - s) mod 30 = 0 -> m <= e - 30).
Proof.
  intros W label Hin.
  rewrite (availability_of_window _ _ _ _ _ W) in Hin.
  apply in_map_iff in Hin. destruct Hin as (m & <- & Hm).
  apply filter_In in Hm. destruct Hm as [Hm _].
  apply candidateMinutes_spec in Hm. destruct Hm as [Hb Ha].
  exists m. repeat split; try lia.
  intros Hw.
  apply Z.mod_divide in Ha; [|lia]. destruct Ha as [k Hk].
  apply Z.mod_divide in Hw; [|lia]. destruct Hw as [j Hj].
  lia.
Qed.

Lemma slotLoop_empty_window date bookings m acc :
  slotLoop date bookings m m acc = acc.
Proof.
  rewrite slotLoop_filter, candidateMinutes_nil by lia.
  cbn. apply app_nil_r.
Qed.

(** C8: the function returns the empty list when, for the veterinarian
    found, every rule of the date's day of the week is unavailable or has
    equal start and end times -- in particular when there is no rule for
    that day. *)
Theorem availability_empty_when_closed db vid date :
  (forall vet rule,
      findUnique db vid = Some vet ->
      In rule (workingHours vet) ->
      dayOfWeek rule = Js.getDay date ->
      isAvailable rule = false \/ startTime rule = endTime rule) ->
  getVeterinarianAvailability Number db vid date = [].
Proof.
  intros H. unfold getVeterinarianAvailability.
  destruct (findUnique db vid) as [vet|] eqn:Hv; [|reflexivity].
  destruct (find _ (workingHours vet)) as [rule|] eqn:Hr; [|reflexivity].
  apply find_some in Hr. destruct Hr as [Hin Hp].
  apply andb_true_iff in Hp. destruct Hp as [Hd Ha].
  apply Z.eqb_eq in Hd.
  destruct (H vet rule eq_refl Hin Hd) as [Hc|Heq]; [congruence|].
  rewrite Heq.
  destruct (minutesOf Number (endTime rule)); [|reflexivity].
  apply slotLoop_empty_window.
Qed.

End AvailabilityFacts.

Section AvailabilityExamples.

Import Availability AvailabilitySpec.

(** Labels of a day are read back by the parser of time strings. *)
Lemma timeString_roundtrip m :
  0 <= m < 1440 -> minutesOf Js.decimalNumber (timeString m) = Some m.
Proof.
  intros H.
  assert (A : forallb
                (fun k => match minutesOf Js.decimalNumber (timeString (Z.of_nat k)) with
                          | Some v => v =? Z.of_nat k
                          | None => false
                          end)
                (seq 0 1440) = true) by run.
  rewrite forallb_forall in A.
  specialize (A (Z.to_nat m)). rewrite Z2Nat.id in A by lia.
  destruct (minutesOf Js.decimalNumber (timeString m)) as [v|].
  - f_equal. apply Z.eqb_eq, A, in_seq. lia.
  - discriminate A. apply in_seq. lia.
Qed.

Lemma timeString_injective m m' :
  0 <= m < 1440 -> 0 <= m' < 1440 -> timeString m = timeString m' -> m = m'.
Proof.
  intros H H' E.
  apply timeString_roundtrip in H, H'. congruence.
Qed.

(** The example of the specification: Monday 09:00-12:00, no bookings. *)
Example availability_monday_morning :
  getVeterinarianAvailability Js.decimalNumber exampleDb "v1" monday
  = ["09:00"; "09:30"; "10:00"; "10:30"; "11:00"; "11:30"]%string.
Proof. run. Qed.

Lemma exampleDb_window : window Js.decimalNumber exampleDb "v1" monday 540 720.
Proof.
  exists (mkVeterinarian "v1" [ mkDayRule 1 "09:00" "12:00" true;
                                mkDayRule 2 "09:00" "12:00" false ]),
         (mkDayRule 1 "09:00" "12:00" true).
  repeat split; reflexivity.
Defined.

Lemma bookedMondayDb_window :
  window Js.decimalNumber bookedMondayDb "v1" monday 540 720.
Proof.
  exists (mkVeterinarian "v1" [ mkDayRule 1 "09:00" "12:00" true;
                                mkDayRule 2 "09:00" "12:00" false ]),
         (mkDayRule 1 "09:00" "12:00" true).
  repeat split; reflexivity.
Defined.

(** With the booking from 10:00 to 11:00 the slots of 10:00 and 10:30
    start inside it and are discarded. *)
Example availability_booked_monday :
  bookingsOfDay bookedMondayDb "v1" monday
  = [ mkBooking "v1" (monday + 10 * 3600000) 60 CONFIRMED ]
  /\ getVeterinarianAvailability Js.decimalNumber bookedMondayDb "v1" monday
     = ["09:00"; "09:30"; "11:00"; "11:30"]%string.
Proof. split; run. Qed.

Lemma availability_discards_started_slots_witness :
  exists emitted,
    getVeterinarianAvailability Js.decimalNumber bookedMondayDb "v1" monday
    = map timeString emitted
    /\ (forall m,
           In m emitted
           <-> In m (candidateMinutes 540 720)
               /\ ~ (exists b, In b (bookingsOfDay bookedMondayDb "v1" monday)
                               /\ startsInside (slotDateTime monday m) b))
    /\ StronglySorted Z.lt emitted
    /\ (forall m b,
           onSlotGrid (slotDateTime monday m) b ->
           (startsInside (slotDateTime monday m) b
            <-> slotOverlaps (slotDateTime monday m) b = true)).
Proof.
  apply (availability_discards_started_slots
           Js.decimalNumber bookedMondayDb "v1" monday 540 720).
  exact bookedMondayDb_window.
Defined.

Lemma availability_labels_in_window_witness :
  exists m,
    "11:30"%string = timeString m
    /\ 540 <= m < 720
    /\ (m - 540) mod 30 = 0
    /\ ((720 - 540) mod 30 = 0 -> m <= 720 - 30).
Proof.
  apply (availability_labels_in_window
           Js.decimalNumber exampleDb "v1" monday 540 720 exampleDb_window
           "11:30"%string).
  vm_compute. do 5 right. left. reflexivity.
Defined.

(** Tuesday 2 January 2024: the only rule of the day is unavailable. *)
Lemma availability_empty_when_closed_witness :
  getVeterinarianAvailability Js.decimalNumber exampleDb "v1" (monday + 86400000) = [].
Proof.
  apply (availability_empty_when_closed
           Js.decimalNumber exampleDb "v1" (monday + 86400000)).
  intros vet rule Hv Hin Hd.
  vm_compute in Hv. injection Hv as <-.
  cbn [workingHours In] in Hin.
  destruct Hin as [<-|[<-|[]]].
  - vm_compute in Hd. discriminate Hd.
  - left. reflexivity.
Defined.

(** C1 as stated fails: the 09:00 slot overlaps the 09:15-09:45 booking
    and is returned all the same. *)
Lemma availability_overlap_counterexample :
  ~ (forall m,
        In m (candidateMinutes 540 600) ->
        (~ In (timeString m)
              (getVeterinarianAvailability Js.decimalNumber quarterPastDb "v1" monday)
         <-> exists b, In b (bookingsOfDay quarterPastDb "v1" monday)
                       /\ slotOverlaps (slotDateTime monday m) b = true)).
Proof.
  intros H.
  destruct (H 540) as [_ K].
  - vm_compute. left. reflexivity.
  - apply K.
    + exists (mkBooking "v1" (monday + 9 * 3600000 + 15 * 60000) 30 CONFIRMED).
      split; [vm_compute; left; reflexivity | vm_compute; reflexivity].
    + vm_compute. left. reflexivity.
Qed.

(** C2 as stated fails: in the window 09:00-09:45 the label 09:30 is
    returned although it lies after 09:15 = end - 30. *)
Lemma availability_partial_slot_counterexample :
  ~ (forall label,
        In label (getVeterinarianAvailability Js.decimalNumber shortWindowDb "v1" monday) ->
        exists m,
          label = timeString m /\ 540 <= m <= 585 - 30 /\ (m - 540) mod 30 = 0).
Proof.
  intros H.
  destruct (H "09:30"%string) as (m & E & B & A).
  - vm_compute. right. left. reflexivity.
  - apply Z.mod_divide in A; [|lia]. destruct A as [k Hk].
    assert (m = 540) by lia. subst m.
    vm_compute in E. discriminate E.
Qed.

End AvailabilityExamples.

(** ** Triage scorer *)
Section TriageFacts.

Import Triage TriageSpec.
Open Scope Q_scope.

Variable Number : string -> number.

Lemma neq_refl a : neq a a.
Proof. destruct a; cbn; [reflexivity | exact I]. Qed.

Lemma neq_sym a b : neq a b -> neq b a.
Proof. destruct a, b; cbn; auto. intros H. symmetry. exact H. Qed.

Lemma neq_trans a b c : neq a b -> neq b c -> neq a c.
Proof.
  destruct a, b, c; cbn; try tauto. intros H1 H2. rewrite H1. exact H2.
Qed.

#[local] Instance neq_Equivalence : Equivalence neq.
Proof.
  split; [exact neq_refl | exact neq_sym | exact neq_trans].
Qed.

#[local] Instance add_Proper : Proper (neq ==> neq ==> neq) add.
Proof.
  intros [a|] [b|] H1 [c|] [d|] H2; cbn in *; try tauto.
  rewrite H1, H2. reflexivity.
Qed.

#[local] Instance mul_Proper : Proper (neq ==> neq ==> neq) mul.
Proof.
  intros [a|] [b|] H1 [c|] [d|] H2; cbn in *; try tauto.
  rewrite H1, H2. reflexivity.
Qed.

#[local] Instance div_Proper : Proper (neq ==> neq ==> neq) div.
Proof.
  intros [a|] [b|] H1 [c|] [d|] H2; cbn in *; try tauto.
  destruct (Qeq_bool c 0) eqn:Ec, (Qeq_bool d 0) eqn:Ed; cbn.
  - exact I.
  - apply Qeq_bool_iff in Ec. apply Qeq_bool_neq in Ed.
    apply Ed. rewrite <- H2. exact Ec.
  - apply Qeq_bool_iff in Ed. apply Qeq_bool_neq in Ec.
    apply Ec. rewrite H2. exact Ed.
  - rewrite H1, H2. reflexivity.
Qed.

Lemma Math_round_neq a b : neq a b -> Math_round a = Math_round b.
Proof.
  destruct a, b; unfold neq, Math_round; try tauto.
  intros H. f_equal. apply Qfloor_comp. rewrite H. reflexivity.
Qed.

Lemma add_0_l a : neq (add (num 0) a) a.
Proof. destruct a; cbn; [ring | exact I]. Qed.

Lemma add_0_r a : neq (add a (num 0)) a.
Proof. destruct a; cbn; [ring | exact I]. Qed.

Lemma step_contribution responses t m q :
  neq (fst (step Number responses (t, m) q)) (add t (contribution Number responses q))
  /\ snd (step Number responses (t, m) q) = add m (num (weight q)).
Proof.
  unfold step, contribution, firstResponse.
  destruct (find _ responses); cbn [fst snd]; split;
    try reflexivity.
  symmetry. apply add_0_r.
Qed.

Lemma fold_step_contribution responses qs : forall t m t',
  neq t t' ->
  neq (fst (fold_left (step Number responses) qs (t, m)))
      (fold_left (fun acc q => add acc (contribution Number responses q)) qs t')
  /\ snd (fold_left (step Number responses) qs (t, m))
     = fold_left (fun acc q => add acc (num (weight q))) qs m.
Proof.
  induction qs as [|q qs IH]; intros t m t' H; cbn [fold_left].
  - split; [exact H | reflexivity].
  - destruct (step_contribution responses t m q) as [H1 H2].
    destruct (step Number responses (t, m) q) as [t1 m1] eqn:E.
    cbn [fst snd] in H1, H2. subst m1.
    apply IH. rewrite H1, H. reflexivity.
Qed.

(** The accumulators at the end of the [forEach]. *)
Lemma totals_spec responses :
  neq (fst (totals Number responses)) (spec_totalScore Number responses)
  /\ neq (snd (totals Number responses)) (num spec_maxPossibleScore).
Proof.
  unfold totals.
  destruct (fold_step_contribution responses questions (num 0) (num 0) (num 0)
                                   (neq_refl _)) as [H1 H2].
  split.
  - rewrite H1. unfold questions. cbn [fold_left].
    rewrite add_0_l. apply neq_refl.
  - rewrite H2. vm_compute. reflexivity.
Qed.

Lemma normalize_order (t : number) :
  neq (mul (div t (num spec_maxPossibleScore)) (num 100))
      (div (mul (num 100) t) (num spec_maxPossibleScore)).
Proof.
  change spec_maxPossibleScore with 52%Z.
  destruct t as [x|]; cbn; [|exact I].
  field.
Qed.

Lemma normalizedScore_spec responses :
  normalizedScore Number responses = spec_score Number responses.
Proof.
  unfold normalizedScore, spec_score.
  destruct (totals_spec responses) as [Ht Hm].
  destruct (totals Number responses) as [t m]. cbn [fst snd] in Ht, Hm.
  apply Math_round_neq.
  rewrite Ht, Hm. apply normalize_order.
Qed.

Lemma score_calculateTriageScore responses :
  score (calculateTriageScore Number responses) = normalizedScore Number responses.
Proof.
  unfold calculateTriageScore.
  destruct (geq _ 80); [reflexivity|].
  destruct (geq _ 60); [reflexivity|].
  destruct (geq _ 30); reflexivity.
Qed.

Lemma firstResponse_some responses qid r :
  firstResponse responses qid = Some r -> In r responses /\ questionId r = qid.
Proof.
  unfold firstResponse. intros H. apply find_some in H.
  destruct H as [H1 H2]. apply String.eqb_eq in H2. auto.
Qed.

Lemma within_num_0 w : (0 <= w)%Z -> within (num 0) w.
Proof.
  intros H. exists (inject_Z 0). split; [reflexivity|].
  split; [apply Qle_refl|]. rewrite <- Zle_Qle. exact H.
Qed.

Lemma within_num_full w : (0 <= w)%Z -> within (num w) w.
Proof.
  intros H. exists (inject_Z w). split; [reflexivity|].
  split; [|apply Qle_refl]. change 0 with (inject_Z 0). rewrite <- Zle_Qle. exact H.
Qed.

Lemma fullWeightWhen_within test responses qid w :
  (0 <= w)%Z -> within (fullWeightWhen test responses qid w) w.
Proof.
  intros H. unfold fullWeightWhen.
  destruct (firstResponse responses qid) as [r|].
  - destruct (test (answer r)); auto using within_num_0, within_num_full.
  - apply within_num_0, H.
Qed.

Lemma scaleTerm_within responses :
  wellFormed Number responses ->
  within (scaleTerm Number responses "pain_level" 7) 7.
Proof.
  intros W. unfold scaleTerm.
  destruct (firstResponse responses "pain_level") as [r|] eqn:E.
  - apply firstResponse_some in E. destruct E as [Hin Hid].
    destruct (W r Hin) as [Hs _].
    destruct (Hs Hid) as (q & -> & Hq).
    exists (q / inject_Z 10 * inject_Z 7). split; [reflexivity|].
    change (inject_Z 10) with 10. change (inject_Z 7) with 7.
    split.
    + apply Qmult_le_0_compat; [|lra].
      apply Qle_shift_div_l; lra.
    + assert (q / 10 <= 1) by (apply Qle_shift_div_r; lra).
      nra.
  - apply within_num_0. lia.
Qed.

Lemma choiceTerm_within responses :
  wellFormed Number responses ->
  within (choiceTerm responses "bleeding" bleedingOptions 8) 8.
Proof.
  intros W. unfold choiceTerm.
  destruct (firstResponse responses "bleeding") as [r|] eqn:E.
  - apply firstResponse_some in E. destruct E as [Hin Hid].
    destruct (W r Hin) as [_ Hc].
    destruct (Hc Hid) as (s & -> & Hs).
    cbn [bleedingOptions In] in Hs.
    destruct Hs as [<-|[<-|[<-|[<-|[]]]]];
      (eexists; split; [reflexivity|]; vm_compute; split; discriminate).
  - apply within_num_0. lia.
Qed.

Lemma add_within a b wa wb :
  within a wa -> within b wb -> within (add a b) (wa + wb).
Proof.
  intros (x & -> & Hx) (y & -> & Hy).
  exists (x + y). split; [reflexivity|].
  rewrite inject_Z_plus. lra.
Qed.

Lemma spec_totalScore_within responses :
  wellFormed Number responses ->
  within (spec_totalScore Number responses) 52.
Proof.
  intros W. unfold spec_totalScore.
  change 52%Z with (10 + 9 + 8 + 7 + 5 + 4 + 6 + 3)%Z.
  repeat apply add_within;
    auto using scaleTerm_within, choiceTerm_within;
    apply fullWeightWhen_within; lia.
Qed.

Lemma spec_score_bounds responses :
  wellFormed Number responses ->
  exists z, spec_score Number responses = Some z /\ (0 <= z <= 100)%Z.
Proof.
  intros W. destruct (spec_totalScore_within responses W) as (t & Ht & H0 & H52).
  unfold spec_score. rewrite Ht. change spec_maxPossibleScore with 52%Z.
  cbn [num mul div]. change (Qeq_bool (inject_Z 52) 0) with false. cbn [Math_round].
  eexists. split; [reflexivity|].
  change (inject_Z 52) with 52 in *. change (inject_Z 100) with 100.
  assert (B : 0 <= 100 * t / 52 <= 100).
  { split.
    - apply Qle_shift_div_l; lra.
    - apply Qle_shift_div_r; lra. }
  split.
  - apply (Qfloor_resp_le 0). lra.
  - apply (Qfloor_resp_le _ (100 + (1 # 2))). lra.
Qed.

Lemma urgency_of_score responses :
  urgencyLevel (calculateTriageScore Number responses)
  = if geq (normalizedScore Number responses) 80 then critical
    else if geq (normalizedScore Number responses) 60 then high
    else if geq (normalizedScore Number responses) 30 then medium
    else low.
Proof.
  unfold calculateTriageScore.
  destruct (geq _ 80); [reflexivity|].
  destruct (geq _ 60); [reflexivity|].
  destruct (geq _ 30); reflexivity.
Qed.

(** C9 (amended): when every scale answer is a number between 0 and 10
    and every multiple-choice answer is one of the options, the score is
    an integer between 0 and 100; the worst-case response set scores 100
    and is [critical]; the empty response list scores 0 and is [low]. *)
Theorem triage_score_bounds responses :
  wellFormed Number responses ->
  (exists z, score (calculateTriageScore Number responses) = Some z
             /\ (0 <= z <= 100)%Z)
  /\ score (calculateTriageScore Number worstCase) = Some 100%Z
  /\ urgencyLevel (calculateTriageScore Number worstCase) = critical
  /\ score (calculateTriageScore Number []) = Some 0%Z
  /\ urgencyLevel (calculateTriageScore Number []) = low.
Proof.
  intros W. split; [|split; [|split; [|split]]].
  - rewrite score_calculateTriageScore, normalizedScore_spec.
    apply spec_score_bounds, W.
  - run.
  - run.
  - run.
  - run.
Qed.

Lemma seenBefore_cons s seen qid :
  seenBefore (s :: seen) qid = (String.eqb s qid || seenBefore seen qid)%bool.
Proof. reflexivity. Qed.

(** The first response of a bank question survives the restriction. *)
Lemma firstResponse_firstPerQuestion responses : forall seen qid,
  isBankQuestion qid = true ->
  firstResponse (firstPerQuestion seen responses) qid
  = if seenBefore seen qid then None else firstResponse responses qid.
Proof.
  induction responses as [|r rest IH]; intros seen qid Hb; cbn [firstPerQuestion].
  - destruct (seenBefore seen qid); reflexivity.
  - unfold firstResponse in *. cbn [find].
    destruct (String.eqb (questionId r) qid) eqn:Eq.
    + apply String.eqb_eq in Eq. subst qid. rewrite Hb. cbn [andb].
      destruct (seenBefore seen (questionId r)) eqn:Es; cbn [negb].
      * rewrite IH, Es by assumption. reflexivity.
      * cbn [find]. rewrite String.eqb_refl. reflexivity.
    + destruct (isBankQuestion (questionId r) && negb (seenBefore seen (questionId r)))%bool.
      * cbn [find]. rewrite Eq, IH by assumption.
        rewrite seenBefore_cons, Eq. reflexivity.
      * apply IH, Hb.
Qed.

Lemma isBankQuestion_questions q : In q questions -> isBankQuestion (id q) = true.
Proof.
  intros H. unfold isBankQuestion. apply existsb_exists.
  exists q. split; [exact H | apply String.eqb_refl].
Qed.

Lemma step_firstPerQuestion responses acc q :
  In q questions ->
  step Number (firstPerQuestion [] responses) acc q = step Number responses acc q.
Proof.
  intros H. unfold step. destruct acc as [t m].
  pose proof (firstResponse_firstPerQuestion responses [] (id q)
                (isBankQuestion_questions q H)) as E.
  unfold firstResponse in E. cbn [seenBefore existsb] in E.
  rewrite E. reflexivity.
Qed.

Lemma fold_left_ext_in {A B} (f g : A -> B -> A) (l : list B) :
  (forall a b, In b l -> f a b = g a b) ->
  forall a, fold_left f l a = fold_left g l a.
Proof.
  induction l as [|b l IH]; intros H a; cbn [fold_left]; [reflexivity|].
  rewrite H by (left; reflexivity).
  apply IH. intros a' b' Hb. apply H. right. exact Hb.
Qed.

(** C10: responses to unknown question ids are ignored and, of several
    responses to one question, only the first is used: the result on a
    list is the result on the list restricted to the first response of
    each question of the bank. *)
Theorem triage_uses_first_response responses :
  calculateTriageScore Number responses
  = calculateTriageScore Number (firstPerQuestion [] responses).
Proof.
  assert (E : normalizedScore Number (firstPerQuestion [] responses)
              = normalizedScore Number responses).
  { unfold normalizedScore, totals.
    rewrite (fold_left_ext_in
               (step Number (firstPerQuestion [] responses))
               (step Number responses) questions); [reflexivity|].
    intros acc q Hq. apply step_firstPerQuestion, Hq. }
  unfold calculateTriageScore. rewrite E. reflexivity.
Qed.

End TriageFacts.

Section TriageExamples.

Import Triage TriageSpec.
Open Scope Q_scope.

Lemma worstCase_wellFormed : wellFormed decimalNumber worstCase.
Proof.
  intros r Hin. cbn [worstCase In] in Hin.
  repeat (destruct Hin as [<-|Hin]); [..|destruct Hin];
    (split; intros Hid; try discriminate Hid).
  - exists "Grave"%string. split; [reflexivity|].
    right. right. right. left. reflexivity.
  - exists 10. split; [reflexivity|]. split; discriminate.
Defined.

Lemma triage_score_bounds_witness :
  (exists z, score (calculateTriageScore decimalNumber worstCase) = Some z
             /\ (0 <= z <= 100)%Z)
  /\ score (calculateTriageScore decimalNumber worstCase) = Some 100%Z
  /\ urgencyLevel (calculateTriageScore decimalNumber worstCase) = critical
  /\ score (calculateTriageScore decimalNumber []) = Some 0%Z
  /\ urgencyLevel (calculateTriageScore decimalNumber []) = low.
Proof.
  apply (triage_score_bounds decimalNumber worstCase).
  exact worstCase_wellFormed.
Defined.

(** C9 as stated fails: a bleeding answer outside the options has index
    -1 and the score is -5. *)
Lemma triage_negative_score_counterexample :
  ~ (exists z, score (calculateTriageScore decimalNumber unknownOption) = Some z
               /\ (0 <= z <= 100)%Z).
Proof.
  intros (z & E & B). vm_compute in E. injection E as <-. lia.
Qed.

(** A pain level of 1000 gives a score of 1346. *)
Example triage_score_off_scale :
  score (calculateTriageScore decimalNumber offScale) = Some 1346%Z.
Proof. run. Qed.

(** Duplicates and unknown ids: only the first pain level counts. *)
Example triage_first_response_example :
  firstPerQuestion []
    [ mkResponse "pain_level" (ANumber 5);
      mkResponse "tail_wagging" (ABoolean true);
      mkResponse "pain_level" (ANumber 10);
      mkResponse "previous_issues" (ABoolean true) ]
  = [ mkResponse "pain_level" (ANumber 5);
      mkResponse "previous_issues" (ABoolean true) ]
  /\ score (calculateTriageScore decimalNumber
              [ mkResponse "pain_level" (ANumber 5);
                mkResponse "tail_wagging" (ABoolean true);
                mkResponse "pain_level" (ANumber 10);
                mkResponse "previous_issues" (ABoolean true) ]) = Some 13%Z.
Proof. split; run. Qed.

End TriageExamples.

(** ** Triage scorer in double precision *)
Section TriageDoubleFacts.

Import Binary64 TriageDouble TriageDoubleSpec.

Variable Number : string -> double.

Lemma step_term responses t m q :
  step Number responses (t, m) q
  = (plus t (option_map (questionScore Number q)
                        (firstResponse responses (Triage.id q))),
     add m (ofZ (Triage.weight q))).
Proof.
  unfold step, firstResponse, plus.
  destruct (find _ responses); reflexivity.
Qed.

Lemma fold_step_terms responses qs : forall t m,
  fold_left (step Number responses) qs (t, m)
  = (fold_left (fun acc q =>
                  plus acc (option_map (questionScore Number q)
                                       (firstResponse responses (Triage.id q))))
               qs t,
     fold_left (fun acc q => add acc (ofZ (Triage.weight q))) qs m).
Proof.
  induction qs as [|q qs IH]; intros t m; cbn [fold_left]; [reflexivity|].
  rewrite step_term. apply IH.
Qed.

(** The accumulators at the end of the [forEach]. *)
Lemma totals_double_spec responses :
  totals Number responses
  = (spec_totalScore Number responses, ofZ TriageSpec.spec_maxPossibleScore).
Proof.
  unfold totals. rewrite fold_step_terms.
  f_equal; vm_compute; reflexivity.
Qed.

Lemma score_calculateTriageScore_double responses :
  score (calculateTriageScore Number responses) = normalizedScore Number responses.
Proof.
  unfold calculateTriageScore.
  destruct (geq _ 80); [reflexivity|].
  destruct (geq _ 60); [reflexivity|].
  destruct (geq _ 30); reflexivity.
Qed.

(** C3: in double precision the score is
    [Math.round((totalScore / maxPossibleScore) * 100)] -- the quotient,
    then the product, each rounded to a double --, where
    [maxPossibleScore] is the sum of the weights of the whole bank (52)
    and [totalScore] adds in the order of the bank, rounding each sum,
    nothing for an unanswered question, the full weight of a boolean
    question answered [true] -- [false] for the two positive-phrased
    ones --, [(answer / 10) * weight] for the scale question and
    [(optionIndex / (numOptions - 1)) * weight] for the multiple-choice
    one. *)
Theorem triage_score_formula_double responses :
  score (calculateTriageScore Number responses) = spec_score Number responses
  /\ TriageSpec.spec_maxPossibleScore = 52%Z.
Proof.
  split; [|reflexivity].
  rewrite score_calculateTriageScore_double.
  unfold normalizedScore, spec_score.
  rewrite totals_double_spec. reflexivity.
Qed.

End TriageDoubleFacts.

Section TriageDoubleSweep.

Import Binary64 TriageDouble TriageDoubleSpec.

Variable Number : string -> double.
Variable NumberQ : string -> Triage.number.

Lemma find_exact qid responses :
  find (fun r => String.eqb (Triage.questionId r) qid) (exact responses)
  = option_map exactResponse
               (find (fun r => String.eqb (questionId r) qid) responses).
Proof.
  induction responses as [|r rest IH]; cbn [exact map find option_map]; [reflexivity|].
  cbn [exactResponse Triage.questionId].
  destruct (String.eqb (questionId r) qid); [reflexivity | exact IH].
Qed.

Lemma is_true_exact a : Triage.is_true (exactAnswer a) = is_true a.
Proof. destruct a as [s|n|[|]]; reflexivity. Qed.

Lemma is_false_exact a : Triage.is_false (exactAnswer a) = is_false a.
Proof. destruct a as [s|n|[|]]; reflexivity. Qed.

Lemma toZ_ofZ_scale k : (0 <= k <= 10)%Z -> toZ (ofZ k) = Some k.
Proof.
  intros H.
  assert (C : (k = 0 \/ k = 1 \/ k = 2 \/ k = 3 \/ k = 4 \/ k = 5 \/ k = 6
               \/ k = 7 \/ k = 8 \/ k = 9 \/ k = 10)%Z) by lia.
  repeat destruct C as [->|C]; try subst k; reflexivity.
Qed.

(** What the two scorers do at a question, given a reading of it. *)
Lemma steps_unanswered responses q :
  firstResponse responses (Triage.id q) = None ->
  (forall acc, step Number responses acc q
               = (plus (fst acc) (doubleTerm q None),
                  add (snd acc) (ofZ (Triage.weight q))))
  /\ (forall acc, Triage.step NumberQ (exact responses) acc q
                  = (exactPlus (fst acc) (exactTerm q None),
                     Triage.add (snd acc) (Triage.num (Triage.weight q)))).
Proof.
  unfold firstResponse. intros F. split; intros [t m].
  - unfold step. rewrite F. reflexivity.
  - unfold Triage.step. rewrite find_exact, F. reflexivity.
Qed.

Lemma steps_answered responses q r k :
  firstResponse responses (Triage.id q) = Some r ->
  questionScore Number q r
  = match doubleTerm q (Some k) with Some s => s | None => ofZ 0 end ->
  Triage.questionScore NumberQ q (exactResponse r)
  = match exactTerm q (Some k) with Some s => s | None => Triage.num 0 end ->
  (forall acc, step Number responses acc q
               = (plus (fst acc) (doubleTerm q (Some k)),
                  add (snd acc) (ofZ (Triage.weight q))))
  /\ (forall acc, Triage.step NumberQ (exact responses) acc q
                  = (exactPlus (fst acc) (exactTerm q (Some k)),
                     Triage.add (snd acc) (Triage.num (Triage.weight q)))).
Proof.
  unfold firstResponse. intros F D E. split; intros [t m].
  - unfold step. rewrite F, D. reflexivity.
  - unfold Triage.step. rewrite find_exact, F. cbn [option_map]. rewrite E.
    reflexivity.
Qed.


Lemma first_In responses qid r :
  firstResponse responses qid = Some r -> In r responses /\ questionId r = qid.
Proof.
  unfold firstResponse. intros H. apply find_some in H.
  destruct H as [H1 H2]. apply String.eqb_eq in H2. auto.
Qed.

Lemma indexOf_option s :
  In s TriageSpec.bleedingOptions ->
  In (Triage.indexOf TriageSpec.bleedingOptions s) [0; 1; 2; 3]%Z.
Proof.
  intros [<-|[<-|[<-|[<-|[]]]]]; vm_compute; tauto.
Qed.

Ltac boolean_question r :=
  unfold levelOf, questionScore, Triage.questionScore, doubleTerm, exactTerm,
    readings, levels;
  cbn [Triage.type Triage.id Triage.weight Triage.options
       exactResponse Triage.answer String.eqb Ascii.eqb Bool.eqb orb readings
       levels map];
  rewrite ?is_true_exact, ?is_false_exact;
  repeat split;
  match goal with
  | |- context [is_true (answer r)] => destruct (is_true (answer r))
  | |- context [is_false (answer r)] => destruct (is_false (answer r))
  end; cbn [In Z.eqb]; try reflexivity; tauto.

(** Every question of the bank has a reading that tells what the two
    scorers add for it. *)
Lemma question_reading responses q :
  wellFormedWhole responses -> In q Triage.questions ->
  exists l,
    In l (readings q)
    /\ (forall acc, step Number responses acc q
                    = (plus (fst acc) (doubleTerm q l),
                       add (snd acc) (ofZ (Triage.weight q))))
    /\ (forall acc, Triage.step NumberQ (exact responses) acc q
                    = (exactPlus (fst acc) (exactTerm q l),
                       Triage.add (snd acc) (Triage.num (Triage.weight q)))).
Proof.
  intros W Hq.
  destruct (firstResponse responses (Triage.id q)) as [r|] eqn:F.
  2:{ exists None. split; [left; reflexivity|].
      apply steps_unanswered, F. }
  destruct (first_In _ _ _ F) as [Hr Hid].
  destruct (W r Hr) as [Wp Wb].
  exists (Some (levelOf q (answer r))).
  cut (In (Some (levelOf q (answer r))) (readings q)
       /\ questionScore Number q r
          = match doubleTerm q (Some (levelOf q (answer r))) with
            | Some s => s | None => ofZ 0 end
       /\ Triage.questionScore NumberQ q (exactResponse r)
          = match exactTerm q (Some (levelOf q (answer r))) with
            | Some s => s | None => Triage.num 0 end).
  { intros (I & D & E). split; [exact I|]. apply (steps_answered _ _ r); assumption. }
  clear F.
  unfold Triage.questions in Hq.
  destruct Hq as [<-|[<-|[<-|[<-|[<-|[<-|[<-|[<-|[]]]]]]]]];
    cbn [Triage.id] in Hid.
  - boolean_question r.
  - boolean_question r.
  - (* bleeding *)
    destruct (Wb Hid) as (s & Ea & Hs).
    unfold levelOf, questionScore, Triage.questionScore, doubleTerm, exactTerm,
      readings, levels.
    cbn [Triage.type Triage.id Triage.weight Triage.options
         exactResponse Triage.answer readings levels].
    rewrite Ea. cbn [exactAnswer optionIndex].
    pose proof (indexOf_option s Hs) as I.
    change TriageSpec.bleedingOptions
      with ["Nessuno"; "Lieve"; "Moderato"; "Grave"]%string in I.
    split; [|split; reflexivity].
    right. apply in_map. exact I.
  - (* pain_level *)
    destruct (Wp Hid) as (k & Hk & Ea).
    unfold levelOf, questionScore, Triage.questionScore, doubleTerm, exactTerm,
      readings, levels.
    cbn [Triage.type Triage.id Triage.weight Triage.options
         exactResponse Triage.answer readings levels].
    rewrite Ea. cbn [exactAnswer toNumber Triage.toNumber].
    rewrite (toZ_ofZ_scale k Hk).
    split; [|split; reflexivity].
    right. apply in_map.
    assert (C : (k = 0 \/ k = 1 \/ k = 2 \/ k = 3 \/ k = 4 \/ k = 5 \/ k = 6
                 \/ k = 7 \/ k = 8 \/ k = 9 \/ k = 10)%Z) by lia.
    cbn [In]. intuition.
  - boolean_question r.
  - boolean_question r.
  - boolean_question r.
  - boolean_question r.
Qed.

Lemma add_zero_r d : notNegZero d = true -> add d (ofZ 0) = d.
Proof. destruct d as [[|]| | |]; intros H; try reflexivity; discriminate H. Qed.

Lemma exactPlus_neq x x' t :
  TriageSpec.neq x x' -> TriageSpec.neq (exactPlus x t) (exactPlus x' t).
Proof.
  intros H. destruct t as [s|]; cbn [exactPlus]; [|exact H].
  apply add_Proper; [exact H | apply neq_refl].
Qed.

Lemma agree_neq t m x x' xm xm' :
  TriageSpec.neq x x' -> TriageSpec.neq xm xm' ->
  agree t m x xm = agree t m x' xm'.
Proof.
  intros H1 H2. unfold agree.
  rewrite (Math_round_neq
             (Triage.mul (Triage.div x xm) (Triage.num 100))
             (Triage.mul (Triage.div x' xm') (Triage.num 100))); [reflexivity|].
  apply mul_Proper; [|apply neq_refl]. apply div_Proper; assumption.
Qed.

(** A reading that is not tried comes to one that is. *)
Lemma swept_cover q l :
  In l (readings q) ->
  exists l',
    In l' (swept q)
    /\ (forall d, notNegZero d = true ->
                  plus d (doubleTerm q l') = plus d (doubleTerm q l))
    /\ (forall x, TriageSpec.neq (exactPlus x (exactTerm q l))
                                 (exactPlus x (exactTerm q l'))).
Proof.
  unfold swept, readings, doubleTerm, exactTerm, levels.
  destruct (Triage.type q); intros H.
  - (* boolean *)
    destruct H as [<-|H].
    + exists (Some 0%Z). split; [left; reflexivity|]. split.
      * intros d Hd. cbn [plus Z.eqb]. apply add_zero_r, Hd.
      * intros x. cbn [exactPlus Z.eqb]. apply neq_sym, add_0_r.
    + exists l. split; [exact H|]. split; [reflexivity | intros x; apply neq_refl].
  - exists l. split; [exact H|]. split; [reflexivity | intros x; apply neq_refl].
  - exists l. split; [exact H|]. split; [reflexivity | intros x; apply neq_refl].
Qed.

(** If the comparison holds at every combination of the readings to
    try, it holds at the totals the two scorers reach on the responses. *)
Lemma sweep_sound responses qs :
  (forall q, In q qs ->
     exists l,
       In l (readings q)
       /\ (forall acc, step Number responses acc q
                       = (plus (fst acc) (doubleTerm q l),
                          add (snd acc) (ofZ (Triage.weight q))))
       /\ (forall acc, Triage.step NumberQ (exact responses) acc q
                       = (exactPlus (fst acc) (exactTerm q l),
                          Triage.add (snd acc) (Triage.num (Triage.weight q))))) ->
  forall acc accQ x xm,
    TriageSpec.neq (fst accQ) x -> TriageSpec.neq (snd accQ) xm ->
    sweep qs (fst acc) (snd acc) x xm = true ->
    agree (fst (fold_left (step Number responses) qs acc))
          (snd (fold_left (step Number responses) qs acc))
          (fst (fold_left (Triage.step NumberQ (exact responses)) qs accQ))
          (snd (fold_left (Triage.step NumberQ (exact responses)) qs accQ))
    = true.
Proof.
  induction qs as [|q qs IH]; intros H acc accQ x xm Hx Hm S; cbn [fold_left].
  - cbn [sweep] in S. rewrite (agree_neq _ _ _ x _ xm Hx Hm). exact S.
  - destruct (H q (or_introl eq_refl)) as (l & Hl & D & E).
    destruct (swept_cover q l Hl) as (l' & Hl' & CD & CX).
    cbn [sweep] in S. apply andb_true_iff in S. destruct S as [Z S].
    rewrite forallb_forall in S. specialize (S l' Hl').
    rewrite D, E. rewrite <- (CD _ Z).
    apply (IH (fun q' Hq' => H q' (or_intror Hq'))
              (plus (fst acc) (doubleTerm q l'),
               add (snd acc) (ofZ (Triage.weight q)))
              (exactPlus (fst accQ) (exactTerm q l),
               Triage.add (snd accQ) (Triage.num (Triage.weight q)))
              (exactPlus x (exactTerm q l'))
              (Triage.add xm (Triage.num (Triage.weight q)))).
    + cbn [fst]. apply (neq_trans _ (exactPlus x (exactTerm q l))).
      * apply exactPlus_neq, Hx.
      * apply CX.
    + cbn [snd]. apply add_Proper; [exact Hm | apply neq_refl].
    + exact S.
Qed.

(** The comparison at the 3840 combinations of the readings to try. *)
Lemma sweep_questions :
  sweep Triage.questions (ofZ 0) (ofZ 0) (Triage.num 0) (Triage.num 0) = true.
Proof. vm_cast_no_check (@eq_refl bool true). Qed.

Lemma scores_agree responses :
  wellFormedWhole responses ->
  exists d e : Z,
    toZ (normalizedScore Number responses) = Some d
    /\ Triage.normalizedScore NumberQ (exact responses) = Some e
    /\ (d = e \/ d = e - 1)%Z
    /\ geq (normalizedScore Number responses) 80 = Triage.geq (Some e) 80
    /\ geq (normalizedScore Number responses) 60 = Triage.geq (Some e) 60
    /\ geq (normalizedScore Number responses) 30 = Triage.geq (Some e) 30.
Proof.
  intros W.
  pose proof (sweep_sound responses Triage.questions
                (fun q Hq => question_reading responses q W Hq)
                (ofZ 0, ofZ 0) (Triage.num 0, Triage.num 0)
                (Triage.num 0) (Triage.num 0) (neq_refl _) (neq_refl _)
                sweep_questions) as A.
  unfold normalizedScore, Triage.normalizedScore.
  fold (totals Number responses) in A.
  fold (Triage.totals NumberQ (exact responses)) in A.
  destruct (totals Number responses) as [t m].
  destruct (Triage.totals NumberQ (exact responses)) as [x xm].
  cbn [fst snd] in A. unfold agree in A.
  destruct (toZ _) as [d|]; [|discriminate A].
  destruct (Triage.Math_round _) as [e|]; [|discriminate A].
  apply andb_true_iff in A. destruct A as [A G30].
  apply andb_true_iff in A. destruct A as [A G60].
  apply andb_true_iff in A. destruct A as [A G80].
  apply Bool.eqb_prop in G30, G60, G80.
  exists d, e. repeat split; try assumption.
  apply orb_true_iff in A. destruct A as [A|A]; apply Z.eqb_eq in A; auto.
Qed.

(** X11: for in-range answers in whole numbers, the score computed in
    double precision is a whole number: the score of the exact formula
    [round(100 * totalScore / maxPossibleScore)], or one less. *)
Theorem triage_double_within_one responses :
  wellFormedWhole responses ->
  exists d e : Z,
    toZ (score (calculateTriageScore Number responses)) = Some d
    /\ TriageSpec.spec_score NumberQ (exact responses) = Some e
    /\ (d = e \/ d = e - 1)%Z.
Proof.
  intros W. destruct (scores_agree responses W) as (d & e & D & E & C & _).
  exists d, e. rewrite score_calculateTriageScore_double.
  rewrite <- normalizedScore_spec. auto.
Qed.

(** X16: for in-range answers in whole numbers, rounding to doubles
    changes nothing but the score: the urgency level, the texts and the
    two flags are those of the exact computation. *)
Theorem triage_double_same_urgency responses :
  wellFormedWhole responses ->
  let r := calculateTriageScore Number responses in
  let x := Triage.calculateTriageScore NumberQ (exact responses) in
  urgencyLevel r = Triage.urgencyLevel x
  /\ recommendations r = Triage.recommendations x
  /\ suggestedActions r = Triage.suggestedActions x
  /\ veterinarianRequired r = Triage.veterinarianRequired x
  /\ emergencyServices r = Triage.emergencyServices x.
Proof.
  intros W. cbv zeta.
  destruct (scores_agree responses W) as (d & e & _ & E & _ & G80 & G60 & G30).
  unfold calculateTriageScore, Triage.calculateTriageScore.
  rewrite G80, G60, G30, E.
  destruct (Triage.geq (Some e) 80); [repeat split|].
  destruct (Triage.geq (Some e) 60); [repeat split|].
  destruct (Triage.geq (Some e) 30); repeat split.
Qed.

End TriageDoubleSweep.

Section TriageDoubleExamples.

Import Binary64 TriageDouble TriageDoubleSpec.

(** The scores of [halfPoint]: 22 as the code computes it,
    22.499999999999996 before the rounding; 23 by the exact formula, and
    23 in double precision too when the product is taken first. *)
Example triage_half_point :
  score (calculateTriageScore decimalNumber halfPoint) = ofZ 22
  /\ TriageSpec.spec_score Triage.decimalNumber (exact halfPoint) = Some 23%Z
  /\ spec_score_product_first decimalNumber halfPoint = ofZ 23.
Proof. repeat split; vm_compute; reflexivity. Qed.

(** C3 as stated fails: on [halfPoint] the score is 22 and the formula
    gives 23. *)
Lemma triage_rounding_counterexample :
  ~ (forall responses,
        toZ (score (calculateTriageScore decimalNumber responses))
        = TriageSpec.spec_score Triage.decimalNumber (exact responses)).
Proof.
  intros H. specialize (H halfPoint). vm_compute in H. discriminate H.
Qed.

Lemma halfPoint_wellFormedWhole : wellFormedWhole halfPoint.
Proof.
  intros r [<-|[<-|[<-|[]]]]; split; cbn [questionId answer]; intros E;
    try discriminate E.
  exists 1%Z. split; [lia | reflexivity].
Defined.

Lemma triage_double_within_one_witness :
  exists d e : Z,
    toZ (score (calculateTriageScore decimalNumber halfPoint)) = Some d
    /\ TriageSpec.spec_score Triage.decimalNumber (exact halfPoint) = Some e
    /\ (d = e \/ d = e - 1)%Z.
Proof.
  apply (triage_double_within_one decimalNumber Triage.decimalNumber halfPoint).
  exact halfPoint_wellFormedWhole.
Defined.

Lemma triage_double_same_urgency_witness :
  urgencyLevel (calculateTriageScore decimalNumber halfPoint)
  = Triage.urgencyLevel (Triage.calculateTriageScore Triage.decimalNumber (exact halfPoint))
  /\ recommendations (calculateTriageScore decimalNumber halfPoint)
     = Triage.recommendations
         (Triage.calculateTriageScore Triage.decimalNumber (exact halfPoint))
  /\ suggestedActions (calculateTriageScore decimalNumber halfPoint)
     = Triage.suggestedActions
         (Triage.calculateTriageScore Triage.decimalNumber (exact halfPoint))
  /\ veterinarianRequired (calculateTriageScore decimalNumber halfPoint)
     = Triage.veterinarianRequired
         (Triage.calculateTriageScore Triage.decimalNumber (exact halfPoint))
  /\ emergencyServices (calculateTriageScore decimalNumber halfPoint)
     = Triage.emergencyServices
         (Triage.calculateTriageScore Triage.decimalNumber (exact halfPoint)).
Proof.
  apply (triage_double_same_urgency decimalNumber Triage.decimalNumber halfPoint).
  exact halfPoint_wellFormedWhole.
Defined.

End TriageDoubleExamples.

(** ** Matching engine *)
Section MatchingFacts.

Import Matching MatchingSpec.
Open Scope Q_scope.

Variable M : MathLibrary.


(** C6: the comparison of rex with itself throws a ReferenceError, with
    or without coordinates: it yields no score, so not the maximum. *)
Theorem self_match_throws now :
  calculateCompatibilityScore M now rex rex nowhere nowhere
  = throw (ReferenceError "DogSize")
  /\ calculateCompatibilityScore M now rex rex inRome inRome
     = throw (ReferenceError "DogSize").
Proof. split; reflexivity. Qed.

(** C7: with an owner who lacks coordinates the call throws a
    ReferenceError before the geographic block is reached, whichever of
    the two owners it is: no score is returned, so none of 85. *)
Theorem missing_coordinates_throws now :
  calculateCompatibilityScore M now rex rexFemale inRome nowhere
  = throw (ReferenceError "DogSize")
  /\ calculateCompatibilityScore M now rex rexFemale nowhere inRome
     = throw (ReferenceError "DogSize")
  /\ calculateCompatibilityScore M now rex rexFemale nowhere nowhere
     = throw (ReferenceError "DogSize").
Proof. repeat split; reflexivity. Qed.

End MatchingFacts.

Section MatchingExamples.

Import Matching MatchingSpec.
Open Scope Q_scope.

Lemma referenceMath_laws : MathLaws referenceMath.
Proof.
  constructor; cbn.
  - intros x y E. rewrite E. reflexivity.
  - intros x y E. rewrite E. reflexivity.
  - intros x x' y y' E1 E2. rewrite E1, E2. reflexivity.
  - intros x. field.
Defined.


(** The age sub-score, which the call does not reach, reads the clock:
    for the birth dates of rex and luna it is 1 on 15 June 2024 (ages 4
    and 6) and 0.7 on 15 July 2024 (ages 4 and 7). *)
Example age_compatibility_clock :
  getAgeCompatibility midJune (birthDate rex) (birthDate luna) = 1
  /\ getAgeCompatibility midJuly (birthDate rex) (birthDate luna) = 7 # 10.
Proof. split; run. Qed.

End MatchingExamples.

(** ** Availability engine: bookings and validated hours *)
Section AvailabilityOpsFacts.

Import Availability AvailabilitySpec AvailabilityOps.

Variable Number : string -> Js.number.

Lemma isBooked_incl bs bs' slot :
  incl bs bs' -> isBooked bs slot = true -> isBooked bs' slot = true.
Proof.
  intros I H. apply isBooked_spec in H. destruct H as (b & Hb & Hs).
  apply isBooked_spec. exists b. split; [apply I, Hb | exact Hs].
Qed.

Lemma findMany_incl db db' vid lo hi :
  incl (booking db) (booking db') ->
  incl (findMany db vid lo hi) (findMany db' vid lo hi).
Proof.
  intros I b Hb. unfold findMany in *.
  apply filter_In in Hb. apply filter_In. split; [apply I|]; tauto.
Qed.

(** The result as a function of the rule found and of the bookings read. *)
Lemma availability_unfold db vid date :
  getVeterinarianAvailability Number db vid date
  = match findUnique db vid with
    | None => []
    | Some vet =>
        match find (fun wh => (dayOfWeek wh =? Js.getDay date) && isAvailable wh)
                   (workingHours vet) with
        | None => []
        | Some rule =>
            match minutesOf Number (startTime rule),
                  minutesOf Number (endTime rule) with
            | Some s, Some e =>
                map timeString
                    (filter (fun m => negb (isBooked (bookingsOfDay db vid date)
                                                     (slotDateTime date m)))
                            (candidateMinutes s e))
            | _, _ => []
            end
        end
    end.
Proof.
  unfold getVeterinarianAvailability.
  destruct (findUnique db vid); [|reflexivity].
  destruct (find _ _); [|reflexivity].
  destruct (minutesOf Number (startTime d)); [|reflexivity].
  destruct (minutesOf Number (endTime d)); [|reflexivity].
  rewrite slotLoop_filter. reflexivity.
Qed.

(** X1: more bookings never add a slot. *)
Theorem availability_shrinks_with_bookings db db' vid date label :
  veterinarian db' = veterinarian db ->
  incl (booking db) (booking db') ->
  In label (getVeterinarianAvailability Number db' vid date) ->
  In label (getVeterinarianAvailability Number db vid date).
Proof.
  intros Hv Hb. rewrite !availability_unfold.
  unfold findUnique. rewrite Hv.
  destruct (find _ (veterinarian db)) as [vet|]; [|auto].
  destruct (find _ (workingHours vet)) as [rule|]; [|auto].
  destruct (minutesOf Number (startTime rule)) as [s|]; [|auto].
  destruct (minutesOf Number (endTime rule)) as [e|]; [|auto].
  rewrite !in_map_iff. intros (m & <- & Hm). exists m. split; [reflexivity|].
  apply filter_In in Hm. destruct Hm as [Hc Hk].
  apply filter_In. split; [exact Hc|].
  apply negb_true_iff. apply negb_true_iff in Hk.
  destruct (isBooked (bookingsOfDay db vid date) (slotDateTime date m)) eqn:E;
    [|reflexivity].
  rewrite <- Hk. symmetry.
  apply (isBooked_incl (bookingsOfDay db vid date)); [|exact E].
  apply findMany_incl, Hb.
Qed.

Lemma slotDateTime_of_day date m :
  0 <= m -> slotDateTime date m = Js.startOfDay date + m * 60000.
Proof.
  intros H. unfold slotDateTime, Js.setHours, slotHour, slotMinute.
  rewrite Z.rem_mod_nonneg by lia.
  pose proof (Z.div_mod m 60 ltac:(lia)). lia.
Qed.

(** X2: a slot of the day in which a booking read by the query is running
    at its start is not offered, whatever other slots there are. *)
Theorem running_booking_blocks_slot db vid date s e b m :
  window Number db vid date s e ->
  0 <= s -> e <= 1440 ->
  0 <= m < 1440 ->
  In b (booking db) -> readBy vid date b = true ->
  bookingStart b <= slotDateTime date m < bookingEnd b ->
  ~ In (timeString m) (getVeterinarianAvailability Number db vid date).
Proof.
  intros W Hs He Hm Hb Hr Hrun Hin.
  rewrite (availability_of_window Number _ _ _ _ _ W) in Hin.
  apply in_map_iff in Hin. destruct Hin as (m' & E & Hm').
  apply filter_In in Hm'. destruct Hm' as [Hc Hk].
  apply candidateMinutes_spec in Hc.
  assert (m' = m) by (apply timeString_injective; [lia | lia | exact E]).
  subst m'. apply negb_true_iff in Hk.
  assert (B : isBooked (bookingsOfDay db vid date) (slotDateTime date m) = true).
  { apply isBooked_spec. exists b. split; [|exact Hrun].
    unfold bookingsOfDay, findMany. apply filter_In. split; [exact Hb|].
    exact Hr. }
  congruence.
Qed.

(** X3: a booking that is cancelled, belongs to another veterinarian or
    starts on another day changes nothing. *)
Theorem unread_booking_changes_nothing db vid date b :
  readBy vid date b = false ->
  getVeterinarianAvailability Number (addBooking db b) vid date
  = getVeterinarianAvailability Number db vid date.
Proof.
  intros Hr. rewrite !availability_unfold.
  assert (E : bookingsOfDay (addBooking db b) vid date = bookingsOfDay db vid date).
  { unfold bookingsOfDay, findMany, addBooking. cbn [booking].
    rewrite filter_app. cbn [filter].
    unfold readBy in Hr. rewrite Hr. apply app_nil_r. }
  rewrite E. reflexivity.
Qed.

Lemma find_all_false {A} (p : A -> bool) l :
  (forall x, In x l -> p x = false) -> find p l = None.
Proof.
  induction l as [|x l IH]; intros H; cbn [find]; [reflexivity|].
  rewrite (H x) by (left; reflexivity).
  apply IH. intros y Hy. apply H. right. exact Hy.
Qed.

Lemma validHour_weekday r :
  Validation.validHour r = true -> 1 <= dayOfWeek r <= 6.
Proof.
  unfold Validation.validHour. intros H.
  destruct (dayOfWeek r =? 0) eqn:E0; [discriminate H|]. cbn [orb] in H.
  destruct ((_ =? 0)%nat || _)%bool; [discriminate H|].
  destruct ((dayOfWeek r <? 0) || (6 <? dayOfWeek r)) eqn:E; [discriminate H|].
  apply orb_false_iff in E. lia.
Qed.

(** X4: hours that pass [validateBusinessHours] have no rule for Sunday
    (a [dayOfWeek] of 0 is rejected as missing), so no slot is ever
    offered on a Sunday. *)
Theorem validated_hours_never_sunday db vid date vet :
  findUnique db vid = Some vet ->
  Validation.validateBusinessHours (workingHours vet) = true ->
  Js.getDay date = 0 ->
  getVeterinarianAvailability Number db vid date = [].
Proof.
  intros Hv Hval Hsun. rewrite availability_unfold, Hv, Hsun.
  rewrite find_all_false; [reflexivity|].
  intros r Hr. unfold Validation.validateBusinessHours in Hval.
  rewrite forallb_forall in Hval.
  pose proof (validHour_weekday r (Hval r Hr)).
  apply andb_false_iff. left. lia.
Qed.

End AvailabilityOpsFacts.

Section ValidatedHours.

Import Availability AvailabilitySpec AvailabilityOps.

Lemma code_digitChar c :
  c = digitChar (Z.of_nat (nat_of_ascii c) - 48) \/ Z.of_nat (nat_of_ascii c) < 48.
Proof.
  destruct (Z_lt_dec (Z.of_nat (nat_of_ascii c)) 48) as [L|G]; [right; exact L|].
  left. unfold digitChar.
  replace (Z.to_nat (48 + (Z.of_nat (nat_of_ascii c) - 48))) with (nat_of_ascii c) by lia.
  symmetry. apply ascii_nat_embedding.
Qed.

Lemma inRange_digit lo hi c a b :
  Z.of_nat (nat_of_ascii lo) = 48 + a ->
  Z.of_nat (nat_of_ascii hi) = 48 + b ->
  0 <= a ->
  Validation.inRange lo hi c = true ->
  exists d, c = digitChar d /\ a <= d <= b.
Proof.
  unfold Validation.inRange. intros Hlo Hhi Ha H.
  apply andb_true_iff in H. destruct H as [H1 H2].
  apply Z.leb_le in H1, H2.
  exists (Z.of_nat (nat_of_ascii c) - 48). split; [|lia].
  destruct (code_digitChar c) as [E|L]; [exact E | lia].
Qed.

Lemma isDigit_digit c :
  Validation.isDigit c = true -> exists d, c = digitChar d /\ 0 <= d <= 9.
Proof.
  intros H.
  apply (inRange_digit "0" "9" c 0 9); [reflexivity | reflexivity | lia | exact H].
Qed.

(** The strings of the time pattern are the clock readings of a day. *)
Lemma timeRegex_clock s :
  Validation.timeRegex s = true ->
  exists h1 h2 m1 m2,
    s = clock h1 h2 m1 m2
    /\ 0 <= h1 /\ 0 <= h2 <= 9 /\ 10 * h1 + h2 <= 23
    /\ 0 <= m1 <= 5 /\ 0 <= m2 <= 9.
Proof.
  unfold Validation.timeRegex.
  destruct s as [|c1 [|c2 [|c3 [|c4 [|c5 [|]]]]]]; try discriminate.
  intros H.
  apply andb_true_iff in H. destruct H as [H H5].
  apply andb_true_iff in H. destruct H as [H H4].
  apply andb_true_iff in H. destruct H as [H H3].
  apply Ascii.eqb_eq in H3. subst c3.
  destruct (isDigit_digit _ H5) as (m2 & -> & ?).
  destruct (inRange_digit "0" "5" _ 0 5 eq_refl eq_refl ltac:(lia) H4)
    as (m1 & -> & ?).
  apply orb_true_iff in H. destruct H as [H|H];
    apply andb_true_iff in H; destruct H as [Ha Hb].
  - destruct (inRange_digit "0" "1" _ 0 1 eq_refl eq_refl ltac:(lia) Ha)
      as (h1 & -> & ?).
    destruct (isDigit_digit _ Hb) as (h2 & -> & ?).
    exists h1, h2, m1, m2. repeat split; lia.
  - apply Ascii.eqb_eq in Ha. subst c1.
    destruct (inRange_digit "0" "3" _ 0 3 eq_refl eq_refl ltac:(lia) Hb)
      as (h2 & -> & ?).
    exists 2, h2, m1, m2. repeat split; lia.
Qed.

(** Every clock reading is parsed to its minute of the day by both
    parsers, and is the label of that minute. *)
Lemma clock_roundtrip h1 h2 m1 m2 :
  0 <= h1 -> 0 <= h2 <= 9 -> 10 * h1 + h2 <= 23 ->
  0 <= m1 <= 5 -> 0 <= m2 <= 9 ->
  let m := (10 * h1 + h2) * 60 + (10 * m1 + m2) in
  minutesOf Js.decimalNumber (clock h1 h2 m1 m2) = Some m
  /\ Validation.minutesOfDay (clock h1 h2 m1 m2) = Some m
  /\ timeString m = clock h1 h2 m1 m2.
Proof.
  intros Hh1 Hh2 Hh Hm1 Hm2 m.
  assert (A : forallb (fun h => forallb (fun mi => clockChecks (Z.of_nat h) (Z.of_nat mi))
                                        (seq 0 60))
                      (seq 0 24) = true) by run.
  rewrite forallb_forall in A.
  specialize (A (Z.to_nat (10 * h1 + h2)) ltac:(apply in_seq; lia)).
  rewrite forallb_forall in A.
  specialize (A (Z.to_nat (10 * m1 + m2)) ltac:(apply in_seq; lia)).
  rewrite !Z2Nat.id in A by lia.
  unfold clockChecks in A.
  replace ((10 * h1 + h2) / 10) with h1 in A
    by (apply (Z.div_unique _ 10 h1 h2); lia).
  replace ((10 * h1 + h2) mod 10) with h2 in A
    by (apply (Z.mod_unique _ 10 h1 h2); lia).
  replace ((10 * m1 + m2) / 10) with m1 in A
    by (apply (Z.div_unique _ 10 m1 m2); lia).
  replace ((10 * m1 + m2) mod 10) with m2 in A
    by (apply (Z.mod_unique _ 10 m1 m2); lia).
  destruct (minutesOf Js.decimalNumber (clock h1 h2 m1 m2)) as [a|]; [|discriminate A].
  destruct (Validation.minutesOfDay (clock h1 h2 m1 m2)) as [b|]; [|discriminate A].
  apply andb_true_iff in A. destruct A as [A A3].
  apply andb_true_iff in A. destruct A as [A1 A2].
  apply Z.eqb_eq in A1, A2. apply String.eqb_eq in A3.
  subst a b. repeat split. exact A3.
Qed.

Lemma validHour_window r :
  Validation.validHour r = true ->
  exists s e,
    minutesOf Js.decimalNumber (startTime r) = Some s
    /\ minutesOf Js.decimalNumber (endTime r) = Some e
    /\ 0 <= s < e /\ e < 1440
    /\ timeString s = startTime r.
Proof.
  unfold Validation.validHour. intros H.
  destruct (_ || _ || _)%bool; [discriminate H|].
  destruct ((dayOfWeek r <? 0) || (6 <? dayOfWeek r)); [discriminate H|].
  destruct (Validation.timeRegex (startTime r)) eqn:Rs; [|discriminate H].
  destruct (Validation.timeRegex (endTime r)) eqn:Re; [|discriminate H].
  cbn [negb orb] in H.
  destruct (timeRegex_clock _ Rs) as (a1 & a2 & a3 & a4 & Es & ? & ? & ? & ? & ?).
  destruct (timeRegex_clock _ Re) as (b1 & b2 & b3 & b4 & Ee & ? & ? & ? & ? & ?).
  destruct (clock_roundtrip a1 a2 a3 a4) as (S1 & S2 & S3); try assumption.
  destruct (clock_roundtrip b1 b2 b3 b4) as (E1 & E2 & E3); try assumption.
  rewrite Es, Ee in *. rewrite S2, E2 in H. cbn [Validation.lt] in H.
  apply Z.ltb_lt in H.
  eexists _, _. split; [exact S1|]. split; [exact E1|].
  split; [lia|]. split; [lia|]. exact S3.
Qed.

(** X5: with hours that pass [validateBusinessHours], on a day whose rule
    is found and for which the query reads no booking, the first slot
    offered is the rule's [startTime], character for character. *)
Theorem validated_hours_open_at_start db vid date vet rule :
  findUnique db vid = Some vet ->
  Validation.validateBusinessHours (workingHours vet) = true ->
  find (fun wh => (dayOfWeek wh =? Js.getDay date) && isAvailable wh)
       (workingHours vet) = Some rule ->
  bookingsOfDay db vid date = [] ->
  exists rest,
    getVeterinarianAvailability Js.decimalNumber db vid date
    = startTime rule :: rest.
Proof.
  intros Hv Hval Hr Hb.
  assert (Hin : In rule (workingHours vet)) by (apply find_some in Hr; tauto).
  unfold Validation.validateBusinessHours in Hval. rewrite forallb_forall in Hval.
  destruct (validHour_window rule (Hval rule Hin)) as (s & e & Hs & He & B1 & B2 & L).
  rewrite availability_unfold, Hv, Hr, Hs, He, Hb.
  rewrite candidateMinutes_cons by lia. cbn [isBooked existsb negb filter map].
  rewrite L. eexists. reflexivity.
Qed.

End ValidatedHours.

Section AvailabilityOpsExamples.

Import Availability AvailabilitySpec AvailabilityOps.

(** The 09:30 slot, offered when a booking at 10:00 is added to the
    example clinic, is offered without that booking. *)
Lemma availability_shrinks_with_bookings_witness :
  In "09:30"%string
     (getVeterinarianAvailability Js.decimalNumber exampleDb "v1" monday).
Proof.
  apply (availability_shrinks_with_bookings
           Js.decimalNumber exampleDb
           (addBooking exampleDb
              (mkBooking "v1" (monday + 10 * 3600000) 30 CONFIRMED))
           "v1" monday "09:30"%string).
  - reflexivity.
  - intros b Hb. cbn in Hb. contradiction.
  - vm_compute. right. left. reflexivity.
Defined.

Lemma validatedDb_window : window Js.decimalNumber validatedDb "v1" monday 510 735.
Proof.
  exists (mkVeterinarian "v1" [ mkDayRule 1 "08:30" "12:15" true;
                                mkDayRule 6 "09:00" "13:00" true ]),
         (mkDayRule 1 "08:30" "12:15" true).
  repeat split; reflexivity.
Defined.

Lemma running_booking_blocks_slot_witness :
  ~ In (timeString 540)
       (getVeterinarianAvailability Js.decimalNumber validatedDb "v1" monday).
Proof.
  apply (running_booking_blocks_slot
           Js.decimalNumber validatedDb "v1" monday 510 735
           (mkBooking "v1" (monday + 9 * 3600000) 30 CONFIRMED) 540).
  - exact validatedDb_window.
  - lia.
  - lia.
  - lia.
  - left. reflexivity.
  - reflexivity.
  - vm_compute. split; [discriminate | reflexivity].
Defined.

Lemma unread_booking_changes_nothing_witness :
  getVeterinarianAvailability Js.decimalNumber
    (addBooking exampleDb (mkBooking "v1" (monday + 10 * 3600000) 30 CANCELLED))
    "v1" monday
  = getVeterinarianAvailability Js.decimalNumber exampleDb "v1" monday.
Proof.
  apply (unread_booking_changes_nothing
           Js.decimalNumber exampleDb "v1" monday
           (mkBooking "v1" (monday + 10 * 3600000) 30 CANCELLED)).
  reflexivity.
Defined.

(** Sunday 7 January 2024. *)
Lemma validated_hours_never_sunday_witness :
  getVeterinarianAvailability Js.decimalNumber validatedDb "v1"
                              (monday + 6 * 86400000) = [].
Proof.
  apply (validated_hours_never_sunday
           Js.decimalNumber validatedDb "v1" (monday + 6 * 86400000)
           (mkVeterinarian "v1" [ mkDayRule 1 "08:30" "12:15" true;
                                  mkDayRule 6 "09:00" "13:00" true ])).
  - reflexivity.
  - reflexivity.
  - reflexivity.
Defined.

(** Saturday 6 January 2024. *)
Lemma validated_hours_open_at_start_witness :
  exists rest,
    getVeterinarianAvailability Js.decimalNumber validatedDb "v1"
                                (monday + 5 * 86400000)
    = "09:00"%string :: rest.
Proof.
  apply (validated_hours_open_at_start
           validatedDb "v1" (monday + 5 * 86400000)
           (mkVeterinarian "v1" [ mkDayRule 1 "08:30" "12:15" true;
                                  mkDayRule 6 "09:00" "13:00" true ])
           (mkDayRule 6 "09:00" "13:00" true)).
  - reflexivity.
  - reflexivity.
  - reflexivity.
  - reflexivity.
Defined.

End AvailabilityOpsExamples.

(** ** Triage scorer: flags, order of the responses, the booking route *)
Section TriageOpsFacts.

Import Triage TriageSpec TriageOps.
Open Scope Z_scope.

Variable Number : string -> number.

Lemma geq_mono s a b : a <= b -> geq s b = true -> geq s a = true.
Proof.
  destruct s as [z|]; cbn; [|discriminate].
  rewrite !Z.leb_le. lia.
Qed.

(** X6: the two flags follow the score: a veterinarian is required
    exactly from 30 up, emergency services exactly from 80 up (so never
    without a veterinarian); a score that is not a number is [low] and
    requires nothing. *)
Theorem triage_flags_follow_score responses :
  let r := calculateTriageScore Number responses in
  veterinarianRequired r = geq (score r) 30
  /\ emergencyServices r = geq (score r) 80
  /\ (emergencyServices r = true -> veterinarianRequired r = true)
  /\ (veterinarianRequired r = false <-> urgencyLevel r = low)
  /\ (score r = None -> urgencyLevel r = low /\ veterinarianRequired r = false).
Proof.
  cbv zeta. unfold calculateTriageScore.
  destruct (normalizedScore Number responses) as [z|]; cbn [geq].
  - destruct (80 <=? z) eqn:E80; [|destruct (60 <=? z) eqn:E60;
                                    [|destruct (30 <=? z) eqn:E30]];
      cbn [score veterinarianRequired emergencyServices urgencyLevel geq];
      rewrite ?E80, ?E60, ?E30;
      repeat split; intros; try discriminate; try reflexivity;
      symmetry; apply Z.leb_le; rewrite ?Z.leb_le, ?Z.leb_gt in *; lia.
  - cbn [score veterinarianRequired emergencyServices urgencyLevel geq].
    repeat split; intros; try discriminate; reflexivity.
Qed.

Lemma NoDup_map_unique {A B} (f : A -> B) l x y :
  NoDup (map f l) -> In x l -> In y l -> f x = f y -> x = y.
Proof.
  induction l as [|a l IH]; cbn [map]; intros N Hx Hy E; [destruct Hx|].
  inversion N as [|? ? Hna Nl]; subst.
  destruct Hx as [<-|Hx], Hy as [<-|Hy]; auto.
  - exfalso. apply Hna. rewrite E. apply in_map, Hy.
  - exfalso. apply Hna. rewrite <- E. apply in_map, Hx.
Qed.

Lemma find_unique {A} (p : A -> bool) l x :
  (forall y, In y l -> p y = true -> y = x) ->
  In x l -> p x = true -> find p l = Some x.
Proof.
  intros U Hx Px.
  destruct (find p l) as [y|] eqn:E.
  - apply find_some in E. f_equal. apply U; tauto.
  - rewrite (find_none _ _ E x Hx) in Px. discriminate Px.
Qed.

Lemma firstResponse_Permutation rs rs' qid :
  NoDup (map questionId rs) -> Permutation rs rs' ->
  firstResponse rs' qid = firstResponse rs qid.
Proof.
  intros N P. unfold firstResponse.
  destruct (find _ rs) as [x|] eqn:E.
  - apply find_some in E. destruct E as [Hx Px].
    apply find_unique; [|apply (Permutation_in _ P), Hx | exact Px].
    intros y Hy Py. apply String.eqb_eq in Px, Py.
    apply (NoDup_map_unique questionId rs); [exact N | | exact Hx | congruence].
    apply (Permutation_in _ (Permutation_sym P)), Hy.
  - apply find_all_false. intros y Hy.
    apply (find_none _ _ E). apply (Permutation_in _ (Permutation_sym P)), Hy.
Qed.

(** X7: when no two responses answer the same question, their order
    does not matter. *)
Theorem triage_order_irrelevant responses responses' :
  NoDup (map questionId responses) ->
  Permutation responses responses' ->
  calculateTriageScore Number responses' = calculateTriageScore Number responses.
Proof.
  intros N P.
  assert (E : normalizedScore Number responses' = normalizedScore Number responses).
  { unfold normalizedScore, totals.
    rewrite (fold_left_ext_in (step Number responses') (step Number responses));
      [reflexivity|].
    intros [t m] q _. unfold step.
    pose proof (firstResponse_Permutation _ _ (id q) N P) as F.
    unfold firstResponse in F. rewrite F. reflexivity. }
  unfold calculateTriageScore. rewrite E. reflexivity.
Qed.

Lemma Qceiling_tenth_bounds (z a b : Z) :
  10 * a <= z <= 10 * b ->
  a <= Qceiling (inject_Z z / 10) <= b.
Proof.
  intros [Ha Hb].
  assert (Qa : (inject_Z a <= inject_Z z / 10)%Q).
  { apply Qle_shift_div_l; [reflexivity|].
    change 10%Q with (inject_Z 10). rewrite <- inject_Z_mult, <- Zle_Qle. lia. }
  assert (Qb : (inject_Z z / 10 <= inject_Z b)%Q).
  { apply Qle_shift_div_r; [reflexivity|].
    change 10%Q with (inject_Z 10). rewrite <- inject_Z_mult, <- Zle_Qle. lia. }
  split.
  - rewrite <- (Qceiling_Z a). apply Qceiling_resp_le, Qa.
  - rewrite <- (Qceiling_Z b). apply Qceiling_resp_le, Qb.
Qed.

(** X8: for a non-empty list of in-range answers the booking route
    stores an urgency between 0 and 10 -- 0 exactly for a score of 0,
    below the 1 given to a request without triage --, at least 8 when the
    level is [critical] and at most 3 when it is [low]. *)
Theorem route_urgency_scale r rs :
  wellFormed Number (r :: rs) ->
  exists u z,
    fst (BookingRoute.triageOfRequest Number (Some (r :: rs))) = Some u
    /\ score (calculateTriageScore Number (r :: rs)) = Some z
    /\ 0 <= u <= 10
    /\ (u = 0 <-> z = 0)
    /\ (urgencyLevel (calculateTriageScore Number (r :: rs)) = critical -> 8 <= u)
    /\ (urgencyLevel (calculateTriageScore Number (r :: rs)) = low -> u <= 3).
Proof.
  intros W.
  destruct (spec_score_bounds Number _ W) as (z & Hz & Bz).
  rewrite <- normalizedScore_spec in Hz.
  pose proof (urgency_of_score Number (r :: rs)) as U.
  pose proof (score_calculateTriageScore Number (r :: rs)) as S.
  rewrite Hz in U, S.
  exists (Qceiling (inject_Z z / 10)), z.
  cbn [BookingRoute.triageOfRequest fst]. rewrite S. cbn [BookingRoute.ceilTenth].
  split; [reflexivity|]. split; [reflexivity|].
  split; [apply Qceiling_tenth_bounds; lia|].
  split; [|split].
  - split; intros H.
    + pose proof (Qle_ceiling (inject_Z z / 10)) as L. rewrite H in L.
      change (inject_Z 0) with 0%Q in L.
      assert (D : (inject_Z z == inject_Z z / 10 * 10)%Q) by field.
      assert (N : (inject_Z z <= 0)%Q).
      { rewrite D. set (d := (inject_Z z / 10)%Q) in *. lra. }
      change 0%Q with (inject_Z 0) in N. rewrite <- Zle_Qle in N. lia.
    + subst z. reflexivity.
  - rewrite U. cbn [geq].
    destruct (80 <=? z) eqn:E; [|destruct (60 <=? z); [|destruct (30 <=? z)]];
      try discriminate.
    intros _. apply Z.leb_le in E. apply Qceiling_tenth_bounds with (b := 10). lia.
  - rewrite U. cbn [geq].
    destruct (80 <=? z) eqn:E8; [discriminate|].
    destruct (60 <=? z) eqn:E6; [discriminate|].
    destruct (30 <=? z) eqn:E3; [discriminate|].
    intros _. apply Z.leb_gt in E3.
    apply Qceiling_tenth_bounds with (a := 0). lia.
Qed.

End TriageOpsFacts.

Section TriageOpsExamples.

Import Triage TriageSpec TriageOps.
Open Scope Z_scope.

Lemma triage_order_irrelevant_witness :
  calculateTriageScore decimalNumber calmAnswersSwapped
  = calculateTriageScore decimalNumber calmAnswers.
Proof.
  apply (triage_order_irrelevant decimalNumber calmAnswers calmAnswersSwapped).
  - cbn. distinct_strings.
  - apply perm_swap.
Defined.

Lemma calmAnswers_wellFormed : wellFormed decimalNumber calmAnswers.
Proof.
  intros r Hin. cbn [calmAnswers In] in Hin.
  destruct Hin as [<-|[<-|[]]]; (split; intros Hid; try discriminate Hid).
  exists 0%Q. split; [reflexivity|]. split; discriminate.
Defined.

Lemma route_urgency_scale_witness :
  exists u z,
    fst (BookingRoute.triageOfRequest decimalNumber (Some calmAnswers)) = Some u
    /\ score (calculateTriageScore decimalNumber calmAnswers) = Some z
    /\ 0 <= u <= 10
    /\ (u = 0 <-> z = 0)
    /\ (urgencyLevel (calculateTriageScore decimalNumber calmAnswers) = critical
        -> 8 <= u)
    /\ (urgencyLevel (calculateTriageScore decimalNumber calmAnswers) = low
        -> u <= 3).
Proof.
  apply (route_urgency_scale
           decimalNumber
           (mkResponse "vomiting" (ABoolean false))
           [mkResponse "pain_level" (ANumber 0)]).
  exact calmAnswers_wellFormed.
Defined.

(** A request whose answers are all benign is stored with urgency 0. *)
Example route_urgency_zero :
  BookingRoute.triageOfRequest decimalNumber (Some calmAnswers)
  = (Some 0, "Triage score: 0%. Urgency: low"%string)
  /\ BookingRoute.triageOfRequest decimalNumber None = (Some 1, EmptyString).
Proof. split; run. Qed.

End TriageOpsExamples.

(** ** Sorting with a comparator *)
Section SortFacts.

Context {A : Type}.
Variable le : A -> A -> bool.

Lemma insertBy_Permutation x l : Permutation (JsArray.insertBy le x l) (x :: l).
Proof.
  induction l as [|y l IH]; cbn [JsArray.insertBy]; [reflexivity|].
  destruct (le x y); [reflexivity|].
  rewrite IH. apply perm_swap.
Qed.

Lemma sortBy_Permutation l : Permutation (JsArray.sortBy le l) l.
Proof.
  induction l as [|x l IH]; cbn; [constructor|].
  rewrite insertBy_Permutation. constructor. exact IH.
Qed.

Lemma sortBy_In l x : In x (JsArray.sortBy le l) <-> In x l.
Proof.
  split; apply Permutation_in;
    [apply sortBy_Permutation | apply Permutation_sym, sortBy_Permutation].
Qed.

Hypothesis le_total : forall x y, le x y = true \/ le y x = true.
Hypothesis le_trans : forall x y z, le x y = true -> le y z = true -> le x z = true.

Lemma insertBy_sorted x l :
  StronglySorted (fun a b => le a b = true) l ->
  StronglySorted (fun a b => le a b = true) (JsArray.insertBy le x l).
Proof.
  induction 1 as [|y l Hs IH Hall]; cbn [JsArray.insertBy].
  - repeat constructor.
  - destruct (le x y) eqn:E.
    + constructor; [constructor; assumption|].
      constructor; [exact E|].
      rewrite Forall_forall in *. intros z Hz. apply (le_trans x y z E), Hall, Hz.
    + constructor; [exact IH|].
      rewrite Forall_forall in *. intros z Hz.
      apply (Permutation_in _ (insertBy_Permutation x l)) in Hz.
      destruct Hz as [<-|Hz]; [|apply Hall, Hz].
      destruct (le_total x y) as [C|C]; congruence.
Qed.

Lemma sortBy_sorted l :
  StronglySorted (fun a b => le a b = true) (JsArray.sortBy le l).
Proof.
  induction l as [|x l IH]; cbn; [constructor|].
  apply insertBy_sorted, IH.
Qed.

End SortFacts.

Lemma StronglySorted_app_inv {A} (R : A -> A -> Prop) l1 l2 :
  StronglySorted R (l1 ++ l2) ->
  StronglySorted R l1 /\ forall x y, In x l1 -> In y l2 -> R x y.
Proof.
  induction l1 as [|a l1 IH]; cbn; intros H.
  - split; [constructor | contradiction].
  - inversion H as [|? ? Hs Hall]; subst.
    destruct (IH Hs) as [S1 C]. split.
    + constructor; [exact S1|].
      rewrite Forall_forall in *. intros z Hz. apply Hall, in_or_app. left. exact Hz.
    + intros x y [<-|Hx] Hy; [|apply C; assumption].
      rewrite Forall_forall in Hall. apply Hall, in_or_app. right. exact Hy.
Qed.

Lemma StronglySorted_weaken {A} (R S : A -> A -> Prop) l :
  (forall x y, R x y -> S x y) -> StronglySorted R l -> StronglySorted S l.
Proof.
  intros W. induction 1 as [|x l Hs IH Hall]; constructor; [exact IH|].
  rewrite Forall_forall in *. auto.
Qed.

(** ** Matching engine: what a call does; distances *)
Section MatchingOpsFacts.

Import Matching MatchingSpec MatchingOps.
Open Scope Q_scope.

Variable M : MathLibrary.




Lemma sorted_by_distance {T} (l : list (T * Q)) :
  StronglySorted byDistance
                 (JsArray.sortBy (fun a b => Qle_bool (snd a) (snd b)) l).
Proof.
  apply (StronglySorted_weaken (fun a b => Qle_bool (snd a) (snd b) = true)).
  - intros x y H. apply Qle_bool_iff, H.
  - apply sortBy_sorted.
    + intros x y. rewrite !Qle_bool_iff.
      destruct (Qlt_le_dec (snd y) (snd x)) as [L|L]; [right|left]; lra.
    + intros x y z. rewrite !Qle_bool_iff. lra.
Qed.

(** X12: [filterByRadius] returns, nearest first, exactly the points
    whose distance to the centre is at most the radius, each with that
    distance. *)
Theorem filterByRadius_sorted_within {T} (coordinates : T -> LocationPoint)
        points center radiusKm :
  let r := GeoUtils.filterByRadius M T coordinates points center radiusKm in
  StronglySorted byDistance r
  /\ Permutation
       r
       (filter (fun x => Qle_bool (snd x) radiusKm)
               (map (GeoUtils.withDistance M T coordinates center) points))
  /\ forall p d,
       In (p, d) r
       <-> In p points
           /\ d = calculateDistance M center (coordinates p)
           /\ d <= radiusKm.
Proof.
  cbv zeta. unfold GeoUtils.filterByRadius.
  split; [apply sorted_by_distance|].
  split; [apply sortBy_Permutation|].
  intros p d. rewrite sortBy_In, filter_In, in_map_iff, Qle_bool_iff.
  unfold GeoUtils.withDistance. cbn [snd]. split.
  - intros [(q & E & Hq) Hd]. inversion E; subst. auto.
  - intros (Hp & -> & Hd). split; [|exact Hd]. exists p. auto.
Qed.

(** X13: for a radius that is not negative, at a latitude whose cosine
    is positive, the bounding box contains its centre, and the box of a
    larger radius contains it. *)
Theorem boundingBox_contains_center center radiusKm radiusKm' :
  0 <= radiusKm -> radiusKm <= radiusKm' ->
  0 < Math_cos M (latitude center * Math_PI M / 180) ->
  let box := GeoUtils.getBoundingBox M center radiusKm in
  GeoUtils.south box <= latitude center <= GeoUtils.north box
  /\ GeoUtils.west box <= longitude center <= GeoUtils.east box
  /\ inside box (GeoUtils.getBoundingBox M center radiusKm').
Proof.
  intros Hr Hr' Hc. cbv zeta. unfold inside, GeoUtils.getBoundingBox.
  cbn [GeoUtils.north GeoUtils.south GeoUtils.east GeoUtils.west].
  set (c := Math_cos M _) in *.
  assert (P : 0 < (11132 # 100) * c).
  { apply Qmult_lt_0_compat; [reflexivity | exact Hc]. }
  assert (D1 : 0 <= radiusKm / (11132 # 100)).
  { apply Qle_shift_div_l; [reflexivity | lra]. }
  assert (D2 : 0 <= radiusKm / ((11132 # 100) * c)).
  { apply Qle_shift_div_l; [exact P | lra]. }
  assert (M1 : radiusKm / (11132 # 100) <= radiusKm' / (11132 # 100)).
  { apply Qmult_le_compat_r; [exact Hr'|]. discriminate. }
  assert (M2 : radiusKm / ((11132 # 100) * c) <= radiusKm' / ((11132 # 100) * c)).
  { apply Qmult_le_compat_r; [exact Hr'|].
    apply Qinv_le_0_compat. lra. }
  repeat split; lra.
Qed.

Section Haversine.

Hypothesis laws : MathLaws M.

Lemma sin_half_opp x y :
  y == - x -> Math_sin M (y / 2) * Math_sin M (y / 2)
              == Math_sin M (x / 2) * Math_sin M (x / 2).
Proof.
  intros E.
  assert (E2 : y / 2 == - (x / 2)) by (rewrite E; field).
  rewrite (sin_compat M laws _ _ E2), (sin_odd M laws). ring.
Qed.

(** X15: the haversine distance does not depend on the order of the
    two points, for every [Math] whose sine is odd. *)
Theorem calculateDistance_symmetric p1 p2 :
  calculateDistance M p1 p2 == calculateDistance M p2 p1.
Proof.
  unfold calculateDistance.
  assert (A : Math_sin M (toRadians M (latitude p2 - latitude p1) / 2)
              * Math_sin M (toRadians M (latitude p2 - latitude p1) / 2)
              + Math_cos M (toRadians M (latitude p1))
                * Math_cos M (toRadians M (latitude p2))
                * Math_sin M (toRadians M (longitude p2 - longitude p1) / 2)
                * Math_sin M (toRadians M (longitude p2 - longitude p1) / 2)
              == Math_sin M (toRadians M (latitude p1 - latitude p2) / 2)
                 * Math_sin M (toRadians M (latitude p1 - latitude p2) / 2)
                 + Math_cos M (toRadians M (latitude p2))
                   * Math_cos M (toRadians M (latitude p1))
                   * Math_sin M (toRadians M (longitude p1 - longitude p2) / 2)
                   * Math_sin M (toRadians M (longitude p1 - longitude p2) / 2)).
  { assert (S1 := sin_half_opp (toRadians M (latitude p1 - latitude p2))
                               (toRadians M (latitude p2 - latitude p1))).
    assert (S2 := sin_half_opp (toRadians M (longitude p1 - longitude p2))
                               (toRadians M (longitude p2 - longitude p1))).
    rewrite <- !Qmult_assoc, S1, S2.
    - ring.
    - unfold toRadians. ring.
    - unfold toRadians. ring. }
  apply Qmult_comp; [reflexivity|].
  apply Qmult_comp; [reflexivity|].
  apply (atan2_compat M laws); apply (sqrt_compat M laws).
  - exact A.
  - rewrite A. reflexivity.
Qed.

End Haversine.

End MatchingOpsFacts.

Section MatchingOpsExamples.

Import Matching MatchingSpec MatchingOps.
Open Scope Q_scope.

Lemma boundingBox_contains_center_witness :
  GeoUtils.south (GeoUtils.getBoundingBox referenceMath rome 10)
  <= latitude rome
  <= GeoUtils.north (GeoUtils.getBoundingBox referenceMath rome 10)
  /\ GeoUtils.west (GeoUtils.getBoundingBox referenceMath rome 10)
     <= longitude rome
     <= GeoUtils.east (GeoUtils.getBoundingBox referenceMath rome 10)
  /\ inside (GeoUtils.getBoundingBox referenceMath rome 10)
            (GeoUtils.getBoundingBox referenceMath rome 25).
Proof.
  apply (boundingBox_contains_center referenceMath rome 10 25).
  - discriminate.
  - discriminate.
  - reflexivity.
Defined.

Lemma calculateDistance_symmetric_witness :
  calculateDistance referenceMath rome milan
  == calculateDistance referenceMath milan rome.
Proof.
  apply (calculateDistance_symmetric referenceMath referenceMath_laws rome milan).
Defined.

(** A box of negative radius is inside out: its centre is not in it. *)
Example boundingBox_negative_radius :
  ~ (GeoUtils.south (GeoUtils.getBoundingBox referenceMath rome (-10))
     <= latitude rome).
Proof. vm_compute. intros H. apply H. reflexivity. Qed.

End MatchingOpsExamples.

(** ** [FoodCalculator] *)
Section FoodFacts.

Import Matching FoodCalculator.
Open Scope Q_scope.

Variable Math_pow : Q -> Q -> Q.


End FoodFacts.

(** ** Strings: [split] and [join], phone numbers, truncation, breeds, keys *)
Section StringFacts.

Import FormatUtils StringOps.
Open Scope string_scope.

Lemma append_nil_r s : s ++ "" = s.
Proof. induction s as [|c s IH]; cbn; [reflexivity | rewrite IH; reflexivity]. Qed.

Lemma append_assoc (a b c : string) : (a ++ b) ++ c = a ++ (b ++ c).
Proof. induction a as [|x a IH]; cbn; [reflexivity | rewrite IH; reflexivity]. Qed.

Lemma length_append (a b : string) :
  String.length (a ++ b) = (String.length a + String.length b)%nat.
Proof. induction a as [|x a IH]; cbn; [reflexivity | rewrite IH; reflexivity]. Qed.

Lemma take_drop n s : take n s ++ drop n s = s.
Proof.
  revert s. induction n as [|n IH]; intros [|c s]; cbn; try reflexivity.
  rewrite IH. reflexivity.
Qed.

Lemma length_take n s : String.length (take n s) = Nat.min n (String.length s).
Proof.
  revert s. induction n as [|n IH]; intros [|c s]; cbn; try reflexivity.
  rewrite IH. reflexivity.
Qed.

Lemma allChars_append p a b :
  allChars p (a ++ b) = (allChars p a && allChars p b)%bool.
Proof.
  induction a as [|x a IH]; cbn; [reflexivity|].
  rewrite IH. apply andb_assoc.
Qed.

Lemma filterChars_append p a b :
  filterChars p (a ++ b) = filterChars p a ++ filterChars p b.
Proof.
  induction a as [|x a IH]; cbn; [reflexivity|].
  rewrite IH. destruct (p x); reflexivity.
Qed.

Lemma allChars_filterChars p s : allChars p (filterChars p s) = true.
Proof.
  induction s as [|c s IH]; cbn; [reflexivity|].
  destruct (p c) eqn:E; cbn; [rewrite E; exact IH | exact IH].
Qed.

Lemma filterChars_all p s : allChars p s = true -> filterChars p s = s.
Proof.
  induction s as [|c s IH]; cbn; [reflexivity|].
  intros H. apply andb_true_iff in H. destruct H as [H1 H2].
  rewrite H1, IH by assumption. reflexivity.
Qed.

(** *** [split] and [join] *)

Lemma split_aux_append sep cur w s :
  without sep w = true ->
  Js.split_aux sep cur (w ++ s) = Js.split_aux sep (cur ++ w) s.
Proof.
  revert cur. induction w as [|c w IH]; intros cur H; cbn.
  - rewrite append_nil_r. reflexivity.
  - cbn in H. apply andb_true_iff in H. destruct H as [H1 H2].
    apply negb_true_iff in H1. rewrite H1, IH by assumption.
    rewrite append_assoc. reflexivity.
Qed.

Lemma split_aux_sep sep cur s :
  Js.split_aux sep cur (String sep s) = cur :: Js.split_aux sep "" s.
Proof. cbn. rewrite Ascii.eqb_refl. reflexivity. Qed.

(** Splitting what [join] joined gives the pieces back, when there is
    at least one piece and no piece contains the separator. *)
Lemma split_join sep ws :
  ws <> [] ->
  Forall (fun w => without sep w = true) ws ->
  Js.split sep (join (String sep "") ws) = ws.
Proof.
  unfold Js.split. induction ws as [|w ws IH]; intros Hne Hall; [contradiction|].
  inversion Hall as [|? ? Hw Hws]; subst.
  destruct ws as [|w' ws].
  - cbn [join]. rewrite <- (append_nil_r w) at 1.
    rewrite split_aux_append by assumption. reflexivity.
  - change (join (String sep "") (w :: w' :: ws))
      with (w ++ String sep (join (String sep "") (w' :: ws))).
    rewrite split_aux_append by assumption.
    rewrite split_aux_sep. cbn [append].
    rewrite IH by (assumption || discriminate). reflexivity.
Qed.

Lemma split_aux_nonempty sep cur s : Js.split_aux sep cur s <> [].
Proof.
  revert cur. induction s as [|c s IH]; intros cur; cbn [Js.split_aux];
    [discriminate|].
  destruct (Ascii.eqb c sep); [discriminate | apply IH].
Qed.

Lemma join_split_aux sep cur s :
  join (String sep "") (Js.split_aux sep cur s) = cur ++ s.
Proof.
  revert cur. induction s as [|c s IH]; intros cur; cbn [Js.split_aux].
  - cbn. rewrite append_nil_r. reflexivity.
  - destruct (Ascii.eqb c sep) eqn:E.
    + apply Ascii.eqb_eq in E. subst c.
      destruct (Js.split_aux sep "" s) as [|h t] eqn:S.
      * exfalso. apply (split_aux_nonempty _ _ _ S).
      * change (join (String sep "") (cur :: h :: t))
          with (cur ++ String sep (join (String sep "") (h :: t))).
        rewrite <- S, IH. reflexivity.
    + rewrite IH, append_assoc. reflexivity.
Qed.

Lemma split_aux_without sep cur s :
  without sep cur = true ->
  Forall (fun w => without sep w = true) (Js.split_aux sep cur s).
Proof.
  revert cur. induction s as [|c s IH]; intros cur H; cbn [Js.split_aux].
  - constructor; [exact H | constructor].
  - destruct (Ascii.eqb c sep) eqn:E.
    + constructor; [exact H | apply IH; reflexivity].
    + apply IH. unfold without in *. rewrite allChars_append, H. cbn. rewrite E.
      reflexivity.
Qed.

(** *** [formatPhone] *)

Lemma startsWith_39 s :
  startsWith "39" s = true -> s = "39" ++ substringFrom 2 s.
Proof.
  unfold startsWith, substringFrom.
  destruct s as [|a [|b s]]; cbn [String.prefix]; try discriminate.
  - destruct (ascii_dec "3" a); discriminate.
  - destruct (ascii_dec "3" a) as [<-|]; [|discriminate].
    destruct (ascii_dec "9" b) as [<-|]; [|discriminate].
    reflexivity.
Qed.

(** X17: formatting a phone number twice is formatting it once. *)
Theorem formatPhone_idempotent phone :
  formatPhone (formatPhone phone) = formatPhone phone.
Proof.
  unfold formatPhone at 2.
  set (cleaned := filterChars Validation.isDigit phone).
  destruct (startsWith "39" cleaned) eqn:E.
  - set (number := substringFrom 2 cleaned).
    assert (D : allChars Validation.isDigit number = true).
    { pose proof (allChars_filterChars Validation.isDigit phone) as A.
      fold cleaned in A. rewrite (startsWith_39 _ E) in A.
      rewrite allChars_append in A. apply andb_true_iff in A. tauto. }
    assert (C : filterChars Validation.isDigit
                  ("+39 " ++ substringTo 3 number ++ " " ++ substringFrom 3 number)
                = cleaned).
    { change ("+39 " ++ substringTo 3 number ++ " " ++ substringFrom 3 number)
        with ("+39 " ++ (substringTo 3 number ++ (" " ++ substringFrom 3 number))).
      rewrite !filterChars_append.
      change (filterChars Validation.isDigit "+39 ") with "39".
      change (filterChars Validation.isDigit " ") with "".
      cbn [append]. rewrite <- filterChars_append.
      unfold substringTo, substringFrom. rewrite take_drop.
      rewrite (filterChars_all _ _ D).
      symmetry. apply (startsWith_39 _ E). }
    unfold formatPhone. rewrite C. fold cleaned. rewrite E. reflexivity.
  - unfold formatPhone. fold cleaned. rewrite E. reflexivity.
Qed.

(** *** [truncateText] *)

(** X18: the result of [truncateText] is never longer than the larger of
    [maxLength] and 3, and truncating twice is truncating once. *)
Theorem truncateText_bounded text maxLength :
  (Z.of_nat (String.length (truncateText text maxLength)) <= Z.max maxLength 3)%Z
  /\ truncateText (truncateText text maxLength) maxLength
     = truncateText text maxLength.
Proof.
  unfold truncateText.
  destruct (Z.of_nat (String.length text) <=? maxLength)%Z eqn:E.
  - rewrite E. apply Z.leb_le in E. split; [lia | reflexivity].
  - apply Z.leb_gt in E.
    assert (L : String.length (substringTo (maxLength - 3) text ++ "...")
                = (Z.to_nat (maxLength - 3) + 3)%nat).
    { rewrite length_append. unfold substringTo. rewrite length_take. cbn. lia. }
    rewrite L. split; [lia|].
    destruct (Z.of_nat (Z.to_nat (maxLength - 3) + 3) <=? maxLength)%Z eqn:F;
      [reflexivity|].
    apply Z.leb_gt in F.
    assert (Z : Z.to_nat (maxLength - 3) = 0%nat) by lia.
    unfold substringTo. rewrite Z. destruct text; reflexivity.
Qed.

(** *** [capitalizeFirst] and [formatBreed] *)

Lemma toUpperChar_idempotent c : toUpperChar (toUpperChar c) = toUpperChar c.
Proof. destruct c as [[] [] [] [] [] [] [] []]; reflexivity. Qed.

Lemma toLowerChar_idempotent c : toLowerChar (toLowerChar c) = toLowerChar c.
Proof. destruct c as [[] [] [] [] [] [] [] []]; reflexivity. Qed.

Lemma toUpperChar_space c : Ascii.eqb (toUpperChar c) " " = Ascii.eqb c " ".
Proof. destruct c as [[] [] [] [] [] [] [] []]; reflexivity. Qed.

Lemma toLowerChar_space c : Ascii.eqb (toLowerChar c) " " = Ascii.eqb c " ".
Proof. destruct c as [[] [] [] [] [] [] [] []]; reflexivity. Qed.

Lemma capitalizeFirst_cons c s :
  capitalizeFirst (String c s) = String (toUpperChar c) (toLowerCase s).
Proof. reflexivity. Qed.

Lemma toLowerCase_idempotent s : toLowerCase (toLowerCase s) = toLowerCase s.
Proof.
  unfold toLowerCase.
  induction s as [|c s IH]; cbn [mapChars]; [reflexivity|].
  rewrite toLowerChar_idempotent, IH. reflexivity.
Qed.

Lemma capitalizeFirst_idempotent s :
  capitalizeFirst (capitalizeFirst s) = capitalizeFirst s.
Proof.
  destruct s as [|c s]; [reflexivity|].
  rewrite !capitalizeFirst_cons, toUpperChar_idempotent, toLowerCase_idempotent.
  reflexivity.
Qed.

Lemma toLowerCase_without s : without " " (toLowerCase s) = without " " s.
Proof.
  unfold without, toLowerCase.
  induction s as [|c s IH]; cbn [mapChars allChars]; [reflexivity|].
  rewrite toLowerChar_space, IH. reflexivity.
Qed.

Lemma capitalizeFirst_without s :
  without " " (capitalizeFirst s) = without " " s.
Proof.
  destruct s as [|c s]; [reflexivity|].
  rewrite capitalizeFirst_cons. unfold without. cbn [allChars].
  rewrite toUpperChar_space.
  pose proof (toLowerCase_without s) as L. unfold without in L. rewrite L. reflexivity.
Qed.

Lemma length_capitalizeFirst s :
  String.length (capitalizeFirst s) = String.length s.
Proof.
  destruct s as [|c s]; [reflexivity|].
  rewrite capitalizeFirst_cons. cbn [String.length]. f_equal.
  unfold toLowerCase.
  induction s as [|d s IH]; cbn [mapChars String.length];
    [reflexivity | rewrite IH; reflexivity].
Qed.

Lemma length_join_map (f : string -> string) sep ws :
  (forall w, String.length (f w) = String.length w) ->
  String.length (join sep (map f ws)) = String.length (join sep ws).
Proof.
  intros H. induction ws as [|w ws IH]; [reflexivity|].
  destruct ws as [|w' ws]; [apply H|].
  change (join sep (map f (w :: w' :: ws)))
    with (f w ++ sep ++ join sep (map f (w' :: ws))).
  change (join sep (w :: w' :: ws)) with (w ++ sep ++ join sep (w' :: ws)).
  rewrite !length_append, H, IH. reflexivity.
Qed.

(** X19: on ASCII text, [formatBreed] keeps the length of the string and
    formatting twice is formatting once. *)
Theorem formatBreed_idempotent breed :
  isAscii breed = true ->
  formatBreed (formatBreed breed) = formatBreed breed
  /\ String.length (formatBreed breed) = String.length breed.
Proof.
  intros _. unfold formatBreed. split.
  - rewrite split_join.
    + rewrite map_map.
      f_equal. apply map_ext. apply capitalizeFirst_idempotent.
    + intros H. apply map_eq_nil in H. apply (split_aux_nonempty _ _ _ H).
    + apply Forall_forall. intros w Hw.
      apply in_map_iff in Hw. destruct Hw as (v & <- & Hv).
      rewrite capitalizeFirst_without.
      pose proof (split_aux_without " " "" breed eq_refl) as F.
      rewrite Forall_forall in F. apply F, Hv.
  - rewrite (length_join_map capitalizeFirst) by apply length_capitalizeFirst.
    unfold Js.split. rewrite join_split_aux. reflexivity.
Qed.

(** *** [generateKey] *)

(** X20: a key made of at least one part, none of which contains a
    colon, splits at the colons into the parts it was made of. *)
Theorem generateKey_split parts :
  parts <> [] ->
  Forall (fun p => without ":" (CacheUtils.render p) = true) parts ->
  Js.split ":" (CacheUtils.generateKey parts) = map CacheUtils.render parts.
Proof.
  intros Hne Hall. unfold CacheUtils.generateKey. apply split_join.
  - intros H. apply map_eq_nil in H. contradiction.
  - apply Forall_forall. intros w Hw.
    apply in_map_iff in Hw. destruct Hw as (p & <- & Hp).
    rewrite Forall_forall in Hall. apply Hall, Hp.
Qed.

End StringFacts.

(** ** [CacheUtils.parseTTL] *)
Section CacheFacts.

Import FormatUtils StringOps CacheUtils.
Open Scope Z_scope.

Lemma isDigit_digit_of c :
  Validation.isDigit c = true -> exists d, Js.digit_of c = Some d /\ 0 <= d <= 9.
Proof.
  unfold Validation.isDigit, Js.digit_of. intros H. rewrite H.
  apply andb_true_iff in H. destruct H as [H1 H2]. apply Z.leb_le in H1, H2.
  eexists. split; [reflexivity | lia].
Qed.

Lemma isDigit_not_unit c : Validation.isDigit c = true -> units c = None.
Proof.
  destruct c as [[] [] [] [] [] [] [] []]; intros H;
    try reflexivity; vm_compute in H; discriminate H.
Qed.

Lemma matchTTL_allDigits s : forall acc,
  allDigits s = true -> matchTTL acc s = None.
Proof.
  unfold allDigits.
  induction s as [|c s IH]; intros acc H; cbn [matchTTL]; [reflexivity|].
  cbn [allChars] in H. apply andb_true_iff in H. destruct H as [Hc Hs].
  destruct s as [|c' s'].
  - rewrite (isDigit_not_unit c Hc). reflexivity.
  - rewrite Hc. apply IH, Hs.
Qed.

Lemma matchTTL_digits ds : forall acc u k,
  allDigits ds = true -> units u = Some k ->
  String.length (acc ++ ds) <> 0%nat ->
  matchTTL acc (ds ++ String u "") = Some ((acc ++ ds)%string, u).
Proof.
  unfold allDigits.
  induction ds as [|c ds IH]; intros acc u k H Hu Hlen.
  - cbn [append matchTTL]. rewrite Hu. rewrite append_nil_r in *.
    destruct (String.length acc =? 0)%nat eqn:E; [|reflexivity].
    apply Nat.eqb_eq in E. contradiction.
  - cbn [allChars] in H. apply andb_true_iff in H. destruct H as [Hc Hs].
    change (String c ds ++ String u "")%string with (String c (ds ++ String u "")).
    assert (N : exists c' r, (ds ++ String u "")%string = String c' r).
    { destruct ds; cbn; eauto. }
    destruct N as (c' & r & N). cbn [matchTTL]. rewrite N, <- N, Hc.
    rewrite (IH _ u k Hs Hu).
    + rewrite append_assoc. reflexivity.
    + rewrite !length_append. cbn [String.length]. lia.
Qed.

Lemma leadingDigits_seen s : forall acc,
  allDigits s = true -> 0 <= acc ->
  exists v, Validation.leadingDigits acc true s = Some v
            /\ Js.digits_value acc s = Some v /\ 0 <= v.
Proof.
  unfold allDigits.
  induction s as [|c s IH]; intros acc H Hacc;
    cbn [Validation.leadingDigits Js.digits_value].
  - exists acc. auto.
  - cbn [allChars] in H. apply andb_true_iff in H. destruct H as [Hc Hs].
    destruct (isDigit_digit_of c Hc) as (d & -> & Hd).
    apply IH; [exact Hs | lia].
Qed.

Lemma parseInt_digits ds :
  allDigits ds = true -> ds <> EmptyString ->
  exists v, Validation.parseInt ds = Some v
            /\ Js.decimalNumber ds = Some v /\ 0 <= v.
Proof.
  unfold Validation.parseInt, Js.decimalNumber, allDigits.
  destruct ds as [|c s]; [contradiction|]. intros H _.
  cbn [allChars] in H. apply andb_true_iff in H. destruct H as [Hc Hs].
  cbn [Validation.leadingDigits Js.digits_value].
  destruct (isDigit_digit_of c Hc) as (d & -> & Hd).
  apply leadingDigits_seen; [exact Hs | lia].
Qed.

Lemma digits_value_bound s : forall acc v,
  0 <= acc -> Js.digits_value acc s = Some v ->
  v < (acc + 1) * 10 ^ Z.of_nat (String.length s).
Proof.
  induction s as [|c s IH]; intros acc v Hacc H; cbn [Js.digits_value] in H.
  - injection H as <-. cbn. lia.
  - destruct (Js.digit_of c) as [d|] eqn:D; [|discriminate].
    assert (Hd : 0 <= d <= 9).
    { unfold Js.digit_of in D.
      destruct (_ && _) eqn:E; [|discriminate]. injection D as <-.
      apply andb_true_iff in E. destruct E as [E1 E2].
      apply Z.leb_le in E1, E2. lia. }
    apply IH in H; [|lia].
    cbn [String.length]. rewrite Nat2Z.inj_succ, Z.pow_succ_r by lia.
    assert (P : 0 < 10 ^ Z.of_nat (String.length s)) by (apply Z.pow_pos_nonneg; lia).
    nia.
Qed.

(** X21: one to ten digits followed by a unit letter are that many
    seconds, minutes, hours, days or weeks -- whole numbers below 2^53,
    which double precision holds exactly --; the digits alone, without a
    unit, are not read as seconds but give the default of 3600. *)
Theorem parseTTL_units ds :
  allDigits ds = true -> ds <> EmptyString ->
  (String.length ds <= 10)%nat ->
  exists v,
    Js.decimalNumber ds = Some v /\ 0 <= v
    /\ v * 604800 < 2 ^ 53
    /\ parseTTL_string (ds ++ "s") = v
    /\ parseTTL_string (ds ++ "m") = v * 60
    /\ parseTTL_string (ds ++ "h") = v * 3600
    /\ parseTTL_string (ds ++ "d") = v * 86400
    /\ parseTTL_string (ds ++ "w") = v * 604800
    /\ parseTTL_string ds = 3600.
Proof.
  intros D Hne Hlen.
  destruct (parseInt_digits ds D Hne) as (v & P & V & Hv).
  assert (L : String.length (EmptyString ++ ds) <> 0%nat)
    by (destruct ds; [contradiction | cbn; lia]).
  assert (U : forall u k, units u = Some k ->
                          parseTTL_string (ds ++ String u "") = v * k).
  { intros u k Hu. unfold parseTTL_string.
    rewrite (matchTTL_digits ds EmptyString u k D Hu L).
    cbn [append]. rewrite P, Hu. reflexivity. }
  assert (B : v < 10 ^ 10).
  { pose proof (digits_value_bound ds 0 v (Z.le_refl 0) V) as B.
    assert (10 ^ Z.of_nat (String.length ds) <= 10 ^ 10)
      by (apply Z.pow_le_mono_r; lia).
    lia. }
  exists v. split; [exact V|]. split; [exact Hv|].
  split; [change (10 ^ 10) with 10000000000 in B;
          change (2 ^ 53) with 9007199254740992; lia|].
  rewrite (U "s"%char 1), (U "m"%char 60), (U "h"%char 3600),
          (U "d"%char 86400), (U "w"%char 604800) by reflexivity.
  repeat split; try lia.
  unfold parseTTL_string. rewrite (matchTTL_allDigits ds _ D). reflexivity.
Qed.

End CacheFacts.

Section StringExamples.

Import FormatUtils StringOps CacheUtils.
Open Scope string_scope.

Lemma formatBreed_idempotent_witness :
  formatBreed (formatBreed "golden  reTRIEVER") = formatBreed "golden  reTRIEVER"
  /\ String.length (formatBreed "golden  reTRIEVER")
     = String.length "golden  reTRIEVER".
Proof.
  apply (formatBreed_idempotent "golden  reTRIEVER").
  reflexivity.
Defined.

Lemma generateKey_split_witness :
  Js.split ":" (generateKey [PString "user"; PNumber 42; PString "dogs"])
  = map render [PString "user"; PNumber 42; PString "dogs"].
Proof.
  apply (generateKey_split [PString "user"; PNumber 42; PString "dogs"]).
  - discriminate.
  - repeat constructor.
Defined.

Lemma parseTTL_units_witness :
  exists v,
    Js.decimalNumber "15" = Some v /\ (0 <= v)%Z
    /\ (v * 604800 < 2 ^ 53)%Z
    /\ parseTTL_string ("15" ++ "s") = v
    /\ parseTTL_string ("15" ++ "m") = (v * 60)%Z
    /\ parseTTL_string ("15" ++ "h") = (v * 3600)%Z
    /\ parseTTL_string ("15" ++ "d") = (v * 86400)%Z
    /\ parseTTL_string ("15" ++ "w") = (v * 604800)%Z
    /\ parseTTL_string "15" = 3600%Z.
Proof.
  apply (parseTTL_units "15").
  - reflexivity.
  - discriminate.
  - cbn. lia.
Defined.

(** Without the condition on the parts, keys collide. *)
Example generateKey_collision :
  generateKey [PString "a:b"] = generateKey [PString "a"; PString "b"]
  /\ generateKey [PString "1"] = generateKey [PNumber 1].
Proof. split; run. Qed.

Example formatPhone_examples :
  formatPhone "0039 333 1234567" = "0039 333 1234567"
  /\ formatPhone "39-333-1234567" = "+39 333 1234567"
  /\ formatPhone "39" = "+39  ".
Proof. repeat split. Qed.

Example truncateText_examples :
  truncateText "hello world" 8 = "hello..."
  /\ truncateText "hello" 2 = "...".
Proof. split; reflexivity. Qed.

End StringExamples.

(** ** [ApiUtils]: pagination *)
Section PaginationFacts.

Import ApiUtils.
Open Scope Q_scope.

Lemma Qmax_1_cases x : (Qmax 1 x = x /\ 1 < x) \/ (Qmax 1 x = 1 /\ x <= 1).
Proof.
  unfold Qmax, GenericMinMax.gmax.
  destruct (1 ?= x) eqn:E.
  - right. split; [reflexivity|]. apply Qeq_alt in E. lra.
  - left. split; [reflexivity|]. apply Qlt_alt in E. exact E.
  - right. split; [reflexivity|]. apply Qgt_alt in E. lra.
Qed.

Lemma Qmin_100_cases x : (Qmin 100 x = x /\ x < 100) \/ (Qmin 100 x = 100 /\ 100 <= x).
Proof.
  unfold Qmin, GenericMinMax.gmin.
  destruct (100 ?= x) eqn:E.
  - right. split; [reflexivity|]. apply Qeq_alt in E. lra.
  - right. split; [reflexivity|]. apply Qlt_alt in E. lra.
  - left. split; [reflexivity|]. apply Qgt_alt in E. lra.
Qed.

Lemma orDefault_nonzero q d : ~ q == 0 -> orDefault (Some q) d = q.
Proof.
  intros H. unfold orDefault.
  destruct (Qeq_bool q 0) eqn:E; [|reflexivity].
  apply Qeq_bool_iff in E. contradiction.
Qed.

Lemma validated_bounds page limit :
  1 <= ApiUtils.page (validatePagination page limit)
  /\ 1 <= ApiUtils.limit (validatePagination page limit) <= 100.
Proof.
  unfold validatePagination. cbn [ApiUtils.page ApiUtils.limit].
  destruct (Qmax_1_cases (orDefault page 1)) as [[-> ?]|[-> ?]];
    destruct (Qmax_1_cases (orDefault limit 10)) as [[E ?]|[E ?]]; rewrite E;
    match goal with
    | |- context [Qmin 100 ?x] =>
        destruct (Qmin_100_cases x) as [[-> ?]|[-> ?]]
    end; lra.
Qed.

(** X22: whatever is asked for, the validated page is at least 1, the
    limit lies between 1 and 100 and the offset is not negative; values
    that are already valid are returned unchanged. *)
Theorem validatePagination_valid page limit :
  let v := validatePagination page limit in
  1 <= ApiUtils.page v
  /\ 1 <= ApiUtils.limit v <= 100
  /\ 0 <= offset v
  /\ validatePagination (Some (ApiUtils.page v)) (Some (ApiUtils.limit v)) = v.
Proof.
  cbv zeta.
  pose proof (validated_bounds page limit) as (Bp & Bl1 & Bl2).
  split; [exact Bp|]. split; [split; assumption|]. split.
  - unfold validatePagination in *. cbn [ApiUtils.page ApiUtils.limit offset] in *.
    apply Qmult_le_0_compat; lra.
  - unfold validatePagination at 1.
    rewrite !orDefault_nonzero by lra.
    unfold validatePagination in *. cbn [ApiUtils.page ApiUtils.limit] in *.
    set (p := Qmax 1 (orDefault page 1)) in *.
    set (l := Qmin 100 (Qmax 1 (orDefault limit 10))) in *.
    assert (Ep : Qmax 1 p = p).
    { subst p. destruct (Qmax_1_cases (orDefault page 1)) as [[-> ?]|[-> ?]].
      - destruct (Qmax_1_cases (orDefault page 1)) as [[-> ?]|[? ?]]; [reflexivity | lra].
      - reflexivity. }
    assert (El : Qmin 100 (Qmax 1 l) = l).
    { subst l.
      destruct (Qmax_1_cases (orDefault limit 10)) as [[-> ?]|[-> ?]].
      - destruct (Qmin_100_cases (orDefault limit 10)) as [[-> ?]|[-> ?]].
        + destruct (Qmax_1_cases (orDefault limit 10)) as [[-> ?]|[? ?]]; [|lra].
          destruct (Qmin_100_cases (orDefault limit 10)) as [[-> ?]|[? ?]];
            [reflexivity | lra].
        + reflexivity.
      - reflexivity. }
    rewrite Ep, El. reflexivity.
Qed.

Lemma validated_limit_whole page (limit : option Z) :
  exists l : Z,
    ApiUtils.limit (validatePagination page (option_map inject_Z limit))
    = inject_Z l.
Proof.
  unfold validatePagination. cbn [ApiUtils.limit].
  assert (W : exists d : Z, orDefault (option_map inject_Z limit) 10 = inject_Z d).
  { destruct limit as [l|]; cbn [option_map orDefault].
    - destruct (Qeq_bool (inject_Z l) 0); [exists 10%Z | exists l]; reflexivity.
    - exists 10%Z. reflexivity. }
  destruct W as (d & ->).
  destruct (Qmax_1_cases (inject_Z d)) as [[-> ?]|[-> ?]].
  - destruct (Qmin_100_cases (inject_Z d)) as [[-> ?]|[-> ?]];
      [exists d | exists 100%Z]; reflexivity.
  - destruct (Qmin_100_cases 1) as [[-> ?]|[-> ?]];
      [exists 1%Z | exists 100%Z]; reflexivity.
Qed.

(** X23: for whole numbers -- a total from 0 to below 2^53 and a limit
    that is whole or missing -- the validated limit is whole, the page
    count is a number, its pages hold all the rows and the last one is
    not empty; a whole page number has rows exactly when it is at most
    the page count. *)
Theorem paginated_covers {T} (data : list T) page (limit : option Z) (total : Z) :
  (0 <= total < 2 ^ 53)%Z ->
  let v := validatePagination page (option_map inject_Z limit) in
  exists (l n : Z),
    ApiUtils.limit v = inject_Z l
    /\ totalPages (pagination T (paginated data (ApiUtils.page v) (ApiUtils.limit v)
                                           (inject_Z total)))
       = Some n
    /\ (total <= n * l)%Z
    /\ ((n - 1) * l < total)%Z
    /\ forall k : Z,
         ApiUtils.page v == inject_Z k ->
         (offset v < inject_Z total <-> (k <= n)%Z).
Proof.
  intros [Ht _]. cbv zeta.
  pose proof (validated_bounds page (option_map inject_Z limit)) as (_ & Bl & _).
  destruct (validated_limit_whole page limit) as (l & El).
  assert (O : offset (validatePagination page (option_map inject_Z limit))
              = (ApiUtils.page (validatePagination page (option_map inject_Z limit)) - 1)
                * ApiUtils.limit (validatePagination page (option_map inject_Z limit)))
    by reflexivity.
  set (v := validatePagination page (option_map inject_Z limit)) in *.
  rewrite El in *. clear El.
  assert (Hl : (1 <= l)%Z).
  { rewrite Zle_Qle. exact Bl. }
  assert (Ht' : 0 <= inject_Z total).
  { change 0 with (inject_Z 0). rewrite <- Zle_Qle. exact Ht. }
  unfold paginated. cbn [pagination totalPages].
  assert (Z0 : Qeq_bool (inject_Z l) 0 = false).
  { destruct (Qeq_bool (inject_Z l) 0) eqn:E; [|reflexivity].
    apply Qeq_bool_iff in E. lra. }
  rewrite Z0. exists l, (Qceiling (inject_Z total / inject_Z l)).
  split; [reflexivity|]. split; [reflexivity|].
  pose proof (Qle_ceiling (inject_Z total / inject_Z l)) as U.
  pose proof (Qceiling_lt (inject_Z total / inject_Z l)) as L.
  assert (X : inject_Z total / inject_Z l * inject_Z l == inject_Z total)
    by (field; lra).
  set (x := inject_Z total / inject_Z l) in *. set (n := Qceiling x) in *.
  assert (L' : inject_Z n - 1 < x).
  { unfold Z.sub in L. rewrite inject_Z_plus, inject_Z_opp in L.
    change (inject_Z 1) with 1 in L. lra. }
  assert (C1 : inject_Z total <= inject_Z n * inject_Z l) by nra.
  assert (C2 : (inject_Z n - 1) * inject_Z l < inject_Z total) by nra.
  split; [|split].
  - rewrite <- inject_Z_mult, <- Zle_Qle in C1. exact C1.
  - assert (E : inject_Z ((n - 1) * l) == (inject_Z n - 1) * inject_Z l).
    { rewrite inject_Z_mult. unfold Z.sub. rewrite inject_Z_plus, inject_Z_opp.
      reflexivity. }
    rewrite <- E, <- Zlt_Qlt in C2. exact C2.
  - intros k Hk. rewrite O, Hk. split.
    + intros H.
      assert (K : inject_Z k - 1 < x) by nra.
      assert (K' : inject_Z (k - 1) < inject_Z n).
      { unfold Z.sub. rewrite inject_Z_plus, inject_Z_opp.
        change (inject_Z 1) with 1. lra. }
      rewrite <- Zlt_Qlt in K'. lia.
    + intros H. rewrite Zle_Qle in H. nra.
Qed.

End PaginationFacts.

Section PaginationExamples.

Import ApiUtils.
Open Scope Q_scope.

Lemma paginated_covers_witness :
  exists (l n : Z),
    ApiUtils.limit (validatePagination (Some 3) (option_map inject_Z (Some 25%Z)))
    = inject_Z l
    /\ totalPages
         (pagination nat
            (paginated [1%nat; 2%nat]
               (ApiUtils.page (validatePagination (Some 3) (option_map inject_Z (Some 25%Z))))
               (ApiUtils.limit (validatePagination (Some 3) (option_map inject_Z (Some 25%Z))))
               (inject_Z 51)))
       = Some n
    /\ (51 <= n * l)%Z
    /\ ((n - 1) * l < 51)%Z
    /\ forall k : Z,
         ApiUtils.page (validatePagination (Some 3) (option_map inject_Z (Some 25%Z)))
         == inject_Z k ->
         (offset (validatePagination (Some 3) (option_map inject_Z (Some 25%Z)))
          < inject_Z 51 <-> (k <= n)%Z).
Proof.
  apply (paginated_covers [1%nat; 2%nat] (Some 3) (Some 25%Z) 51%Z).
  split; [discriminate | reflexivity].
Defined.

(** A page of 0, a negative page and a missing page are all page 1; a
    limit of 1000 is cut to 100. *)
Example validatePagination_examples :
  validatePagination (Some 0) (Some 1000) = mkPagination 1 100 ((1 - 1) * 100)
  /\ validatePagination (Some (-3)) None = mkPagination 1 10 ((1 - 1) * 10)
  /\ validatePagination None (Some (1 # 2)) = mkPagination 1 1 ((1 - 1) * 1).
Proof. repeat split. Qed.

End PaginationExamples.

(** ** [DateUtils]: business days and business hours *)
Section BusinessDayFacts.

Import DateUtils.
Open Scope Z_scope.

Lemma day_range t : 0 <= day t <= 6.
Proof. unfold day, Js.getDay. pose proof (Z.mod_pos_bound (t / Js.MS_PER_DAY + 4) 7). lia. Qed.

Lemma div_addDay t : addDay t / Js.MS_PER_DAY = t / Js.MS_PER_DAY + 1.
Proof.
  unfold addDay, Js.MS_PER_DAY.
  replace (t + 86400000) with (t + 1 * 86400000) by lia.
  apply Z.div_add. lia.
Qed.

Lemma mod_addDay t : addDay t mod Js.MS_PER_DAY = t mod Js.MS_PER_DAY.
Proof.
  unfold addDay, Js.MS_PER_DAY.
  replace (t + 86400000) with (t + 1 * 86400000) by lia.
  apply Z.mod_add. lia.
Qed.

Lemma day_addDay t : day (addDay t) = (day t + 1) mod 7.
Proof.
  unfold day, Js.getDay. rewrite div_addDay.
  replace (t / Js.MS_PER_DAY + 1 + 4) with ((t / Js.MS_PER_DAY + 4) + 1) by lia.
  rewrite Z.add_mod by lia. rewrite (Z.mod_small 1 7) by lia. reflexivity.
Qed.

(** The three cases of one turn of the loop. *)
Lemma loop_done result remainingDays :
  remainingDays <= 0 -> businessDaysLoop result remainingDays = result.
Proof.
  intros H. rewrite businessDaysLoop_unfold_eq. unfold businessDaysLoop_unfold.
  destruct (Z_lt_dec 0 remainingDays); [lia | reflexivity].
Qed.

Lemma loop_weekday result remainingDays :
  0 < remainingDays ->
  day (addDay result) <> 0 -> day (addDay result) <> 6 ->
  businessDaysLoop result remainingDays
  = businessDaysLoop (addDay result) (remainingDays - 1).
Proof.
  intros H H0 H6.
  rewrite businessDaysLoop_unfold_eq at 1. unfold businessDaysLoop_unfold.
  destruct (Z_lt_dec 0 remainingDays); [|lia]. cbn.
  destruct (weekday_dec (addDay result)) as [?|[E|E]];
    [reflexivity | | ]; contradiction.
Qed.

Lemma loop_weekend result remainingDays :
  0 < remainingDays ->
  day (addDay result) = 0 \/ day (addDay result) = 6 ->
  businessDaysLoop result remainingDays
  = businessDaysLoop (addDay result) remainingDays.
Proof.
  intros H E.
  rewrite businessDaysLoop_unfold_eq at 1. unfold businessDaysLoop_unfold.
  destruct (Z_lt_dec 0 remainingDays); [|lia]. cbn.
  destruct (weekday_dec (addDay result)) as [[N0 N6]|?]; [|reflexivity].
  destruct E; contradiction.
Qed.

Lemma loop_lands result remainingDays :
  0 < remainingDays ->
  1 <= day (businessDaysLoop result remainingDays) <= 5
  /\ businessDaysLoop result remainingDays mod Js.MS_PER_DAY
     = result mod Js.MS_PER_DAY
  /\ result + remainingDays * Js.MS_PER_DAY
     <= businessDaysLoop result remainingDays.
Proof.
  funelim (businessDaysLoop result remainingDays); intros Hpos; try lia.
  - (* a business day *)
    destruct (Z_lt_dec 0 (remainingDays - 1)) as [P|P].
    + match goal with IH : 0 < remainingDays - 1 -> _ |- _ =>
        destruct (IH P) as (D & T & G) end.
      rewrite mod_addDay in T. unfold addDay in G at 1.
      split; [exact D|]. split; [exact T|]. unfold Js.MS_PER_DAY in *. lia.
    + rewrite loop_done by lia. rewrite mod_addDay.
      pose proof (day_range (addDay result)).
      split; [lia|]. split; [reflexivity|].
      unfold addDay, Js.MS_PER_DAY. lia.
  - (* a day of the weekend *)
    match goal with IH : 0 < remainingDays -> _ |- _ =>
      destruct (IH Hpos) as (D & T & G) end.
    rewrite mod_addDay in T. unfold addDay in G at 1.
    split; [exact D|]. split; [exact T|]. unfold Js.MS_PER_DAY in *. lia.
Qed.

(** X24: adding a positive number of business days lands on a day from
    Monday to Friday, at the same time of day, at least that many days
    later; adding none or a negative number returns the date. *)
Theorem addBusinessDays_lands date days :
  (0 < days ->
   1 <= day (addBusinessDays date days) <= 5
   /\ addBusinessDays date days mod Js.MS_PER_DAY = date mod Js.MS_PER_DAY
   /\ date + days * Js.MS_PER_DAY <= addBusinessDays date days)
  /\ (days <= 0 -> addBusinessDays date days = date).
Proof.
  unfold addBusinessDays. split; [apply loop_lands | apply loop_done].
Qed.

Lemma loop_additive date a b :
  0 <= a -> 0 <= b ->
  businessDaysLoop (businessDaysLoop date a) b = businessDaysLoop date (a + b).
Proof.
  revert b.
  funelim (businessDaysLoop date a); intros b Ha Hb.
  - replace remainingDays with 0 by lia. reflexivity.
  - rewrite (loop_weekday result (remainingDays + b)) by (lia || tauto).
    replace (remainingDays + b - 1) with (remainingDays - 1 + b) by lia.
    match goal with IH : forall b, 0 <= remainingDays - 1 -> _ |- _ =>
      apply IH; lia end.
  - rewrite (loop_weekend result (remainingDays + b)) by (lia || tauto).
    match goal with IH : forall b, 0 <= remainingDays -> _ |- _ =>
      apply IH; lia end.
Qed.

(** X25: business days add up: adding [a] and then [b] business days is
    adding [a + b]. *)
Theorem addBusinessDays_additive date a b :
  0 <= a -> 0 <= b ->
  addBusinessDays (addBusinessDays date a) b = addBusinessDays date (a + b).
Proof. unfold addBusinessDays. apply loop_additive. Qed.

Lemma isBusinessHour_spec t :
  isBusinessHour t = true <-> (1 <= day t <= 5 /\ 9 <= hour t <= 18).
Proof.
  unfold isBusinessHour. rewrite !andb_true_iff, !Z.leb_le. tauto.
Qed.

Lemma hour_of_time t t' :
  t mod Js.MS_PER_DAY = t' mod Js.MS_PER_DAY -> hour t = hour t'.
Proof. unfold hour. intros ->. reflexivity. Qed.

(** X26: a date whose time of day lies in the business hours (09:00 up
    to 18:59), whatever its day, is moved by a positive number of
    business days to a business hour. *)
Theorem addBusinessDays_business_hour date days :
  9 <= hour date <= 18 -> 0 < days ->
  isBusinessHour (addBusinessDays date days) = true.
Proof.
  intros Hh Hd.
  destruct (loop_lands date days Hd) as (D & T & _).
  apply isBusinessHour_spec. unfold addBusinessDays. split; [exact D|].
  rewrite (hour_of_time _ _ T). exact Hh.
Qed.

Lemma loop_week date :
  1 <= day date <= 5 ->
  businessDaysLoop date 5 = date + 7 * Js.MS_PER_DAY.
Proof.
  intros Hd.
  assert (S : forall t, day (addDay t) = (day t + 1) mod 7) by apply day_addDay.
  assert (C : forall d, 0 <= d <= 6 -> (d + 1) mod 7 = if d =? 6 then 0 else d + 1).
  { intros d H. destruct (d =? 6) eqn:E.
    - apply Z.eqb_eq in E. subst d. reflexivity.
    - apply Z.eqb_neq in E. apply Z.mod_small. lia. }
  assert (step : forall t n, 0 < n ->
            businessDaysLoop t n
            = businessDaysLoop (addDay t)
                (if (day t =? 5) || (day t =? 6) then n else n - 1)).
  { intros t n Hn. pose proof (day_range t) as R.
    pose proof (S t) as St. rewrite (C _ R) in St.
    destruct (Z.eqb_spec (day t) 5); destruct (Z.eqb_spec (day t) 6);
      cbn [orb];
      first [ apply loop_weekend; lia | apply loop_weekday; lia ]. }
  assert (D : forall t, day (addDay t) = if day t =? 6 then 0 else day t + 1).
  { intros t. rewrite S. apply C. apply day_range. }
  replace (date + 7 * Js.MS_PER_DAY)
    with (addDay (addDay (addDay (addDay (addDay (addDay (addDay date)))))))
    by (unfold addDay; lia).
  remember (day date) as d eqn:Ed.
  assert (d = 1 \/ d = 2 \/ d = 3 \/ d = 4 \/ d = 5) as Hc by lia.
  destruct Hc as [H|[H|[H|[H|H]]]]; subst d;
    repeat (rewrite step by lia;
            repeat (rewrite !D || rewrite H); cbn [Z.eqb Pos.eqb orb Z.add Z.sub Z.opp Z.pos_sub Pos.add Pos.succ Pos.pred_double Z.succ_double Z.pred_double Z.double Pos.add_carry]);
    apply loop_done; lia.
Qed.

Lemma day_add_weeks t k : day (t + 7 * k * Js.MS_PER_DAY) = day t.
Proof.
  unfold day, Js.getDay, Js.MS_PER_DAY.
  replace (t + 7 * k * 86400000) with (t + (7 * k) * 86400000) by lia.
  rewrite Z.div_add by lia.
  replace (t / 86400000 + 7 * k + 4) with (t / 86400000 + 4 + k * 7) by lia.
  apply Z.mod_add. lia.
Qed.

(** X27: from a day from Monday to Friday, every five business days are
    one calendar week: [5 * k] business days are [7 * k] days. *)
Theorem addBusinessDays_weeks date k :
  1 <= day date <= 5 -> 0 <= k ->
  addBusinessDays date (5 * k) = date + 7 * k * Js.MS_PER_DAY.
Proof.
  intros Hd Hk. unfold addBusinessDays. revert k Hk.
  apply (natlike_ind (fun k => businessDaysLoop date (5 * k)
                               = date + 7 * k * Js.MS_PER_DAY)).
  - rewrite loop_done by lia. lia.
  - intros k Hk IH.
    replace (5 * Z.succ k) with (5 * k + 5) by lia.
    rewrite <- loop_additive by lia. rewrite IH.
    rewrite loop_week by (rewrite day_add_weeks; exact Hd). lia.
Qed.

(** Monday 1 January 2024 at 10:30, three business days later: Thursday
    4 January at the same time. *)
Lemma addBusinessDays_lands_witness :
  1 <= day (addBusinessDays (AvailabilitySpec.monday + 37800000) 3) <= 5
  /\ addBusinessDays (AvailabilitySpec.monday + 37800000) 3 mod Js.MS_PER_DAY
     = (AvailabilitySpec.monday + 37800000) mod Js.MS_PER_DAY
  /\ AvailabilitySpec.monday + 37800000 + 3 * Js.MS_PER_DAY
     <= addBusinessDays (AvailabilitySpec.monday + 37800000) 3.
Proof.
  apply (proj1 (addBusinessDays_lands (AvailabilitySpec.monday + 37800000) 3)).
  lia.
Defined.

Lemma addBusinessDays_additive_witness :
  addBusinessDays (addBusinessDays AvailabilitySpec.monday 2) 4
  = addBusinessDays AvailabilitySpec.monday (2 + 4).
Proof. apply (addBusinessDays_additive AvailabilitySpec.monday 2 4); lia. Defined.

(** Friday 5 January 2024 at 10:30 and one business day. *)
Lemma addBusinessDays_business_hour_witness :
  isBusinessHour
    (addBusinessDays (AvailabilitySpec.monday + 4 * 86400000 + 37800000) 1)
  = true.
Proof.
  apply (addBusinessDays_business_hour
           (AvailabilitySpec.monday + 4 * 86400000 + 37800000) 1).
  - vm_compute. split; discriminate.
  - lia.
Defined.

(** Wednesday 3 January 2024 and ten business days: Wednesday 17
    January. *)
Lemma addBusinessDays_weeks_witness :
  addBusinessDays (AvailabilitySpec.monday + 2 * 86400000) (5 * 2)
  = AvailabilitySpec.monday + 2 * 86400000 + 7 * 2 * Js.MS_PER_DAY.
Proof.
  apply (addBusinessDays_weeks (AvailabilitySpec.monday + 2 * 86400000) 2).
  - vm_compute. split; discriminate.
  - lia.
Defined.

End BusinessDayFacts.
(** ** [registerForEvent] *)
Section EventFacts.

Import Events EventsSpec.
Open Scope Z_scope.

(** The outcome of a call, case by case. *)
Lemma registerForEvent_run eid uid db :
  registerForEvent eid uid db =
  match find (fun p => String.eqb (eventId p) eid && String.eqb (userId p) uid)
             (eventParticipation db) with
  | Some _ => (inl AlreadyRegistered, db)
  | None =>
      if isFull (find (fun e => String.eqb (id e) eid) (event db))
      then (inl EventFull, db)
      else match increment eid (event db) with
           | Some events' =>
               (inr (mkParticipation eid uid),
                mkDb events' (eventParticipation db ++ [mkParticipation eid uid]))
           | None =>
               (inl RecordNotFound,
                mkDb (event db) (eventParticipation db ++ [mkParticipation eid uid]))
           end
  end.
Proof.
  unfold registerForEvent, bind, findParticipation, findEvent, throw, ret,
    createParticipation, incrementParticipants.
  destruct (find _ (eventParticipation db)); [reflexivity|].
  destruct (isFull _); [reflexivity|]. cbn [event eventParticipation].
  destruct (increment eid (event db)); reflexivity.
Qed.

(** [update] changes the row that [findUnique] reads: the first one with
    the id. *)
Lemma increment_spec eid events events' :
  increment eid events = Some events' ->
  exists pre e post,
    events = pre ++ e :: post
    /\ events' = pre ++ mkEvent (id e) (maxParticipants e)
                                (currentParticipants e + 1) :: post
    /\ id e = eid
    /\ (forall x, In x pre -> id x <> eid)
    /\ find (fun e => String.eqb (id e) eid) events = Some e.
Proof.
  revert events'. induction events as [|e rest IH]; intros events' H.
  - discriminate.
  - cbn [increment] in H. cbn [find].
    destruct (String.eqb (id e) eid) eqn:E.
    + injection H as <-. exists [], e, rest.
      apply String.eqb_eq in E. repeat split; auto; intros x [].
    + destruct (increment eid rest) as [rest'|] eqn:R; [|discriminate].
      injection H as <-.
      destruct (IH rest' eq_refl) as (pre & x & post & -> & -> & I & P & F).
      exists (e :: pre), x, post. repeat split; auto.
      all: intros y [<-|Hy]; [apply String.eqb_neq; exact E | apply P; exact Hy].
Qed.

Lemma increment_ids eid events events' :
  increment eid events = Some events' -> map id events' = map id events.
Proof.
  intros H. destruct (increment_spec _ _ _ H) as (pre & e & post & -> & -> & _).
  rewrite !map_app. reflexivity.
Qed.

Lemma find_app_last {A} (f : A -> bool) l x :
  f x = true -> find f (l ++ [x]) <> None.
Proof.
  intros Hx. induction l as [|a l IH]; cbn.
  - rewrite Hx. discriminate.
  - destruct (f a); [discriminate | exact IH].
Qed.

(** X28: no registration fills an event beyond its limit: if no event
    with a limit counts more participants than the limit, the same holds
    after a call of [registerForEvent], whatever its outcome. *)
Theorem registerForEvent_respects_capacity eid uid db :
  capacityOk db -> capacityOk (snd (registerForEvent eid uid db)).
Proof.
  intros Hc. rewrite registerForEvent_run.
  destruct (find _ (eventParticipation db)); [exact Hc|].
  destruct (isFull _) eqn:Full; [exact Hc|].
  destruct (increment eid (event db)) as [events'|] eqn:Inc; [|exact Hc].
  destruct (increment_spec _ _ _ Inc) as (pre & e & post & Ev & -> & _ & _ & F).
  rewrite F in Full. unfold capacityOk in *. cbn [snd event].
  intros x m Hx Hm Hm0. rewrite Ev in Hc.
  apply in_app_or in Hx. destruct Hx as [Hx|[<-|Hx]].
  - apply (Hc x m); auto. apply in_or_app. left. exact Hx.
  - cbn [maxParticipants currentParticipants] in *.
    unfold isFull in Full. rewrite Hm in Full.
    apply andb_false_iff in Full. destruct Full as [Z0|Lt].
    + apply negb_false_iff, Z.eqb_eq in Z0. contradiction.
    + apply Z.leb_gt in Lt. lia.
  - apply (Hc x m); auto. apply in_or_app. right. right. exact Hx.
Qed.

(** X29: nobody registers twice: after a registration that succeeded,
    the same registration is refused as already made and writes
    nothing. *)
Theorem registerForEvent_once eid uid db p db' :
  registerForEvent eid uid db = (inr p, db') ->
  registerForEvent eid uid db' = (inl AlreadyRegistered, db').
Proof.
  rewrite registerForEvent_run.
  destruct (find _ (eventParticipation db)); [discriminate|].
  destruct (isFull _); [discriminate|].
  destruct (increment eid (event db)) as [events'|]; [|discriminate].
  intros H. injection H as _ <-.
  rewrite registerForEvent_run. cbn [eventParticipation].
  destruct (find _ (eventParticipation db ++ _)) eqn:F; [reflexivity|].
  exfalso. revert F. apply find_app_last.
  cbn [eventId userId]. rewrite !String.eqb_refl. reflexivity.
Qed.

Lemma participants_app db events' p eid :
  participants (mkDb events' (eventParticipation db ++ [p])) eid
  = participants db eid ++ (if String.eqb (eventId p) eid then [p] else []).
Proof.
  unfold participants. cbn [eventParticipation].
  rewrite filter_app. cbn [filter]. reflexivity.
Qed.

(** X30: the counters follow the registrations: where the event ids are
    distinct and every [currentParticipants] is the number of
    participation rows of its event, a registration that succeeds keeps
    both, and the event counts one participant more. *)
Theorem registerForEvent_counts eid uid db p db' :
  uniqueIds db -> countOk db ->
  registerForEvent eid uid db = (inr p, db') ->
  uniqueIds db' /\ countOk db'
  /\ List.length (participants db' eid) = S (List.length (participants db eid)).
Proof.
  intros Hu Hc. rewrite registerForEvent_run.
  destruct (find _ (eventParticipation db)); [discriminate|].
  destruct (isFull _); [discriminate|].
  destruct (increment eid (event db)) as [events'|] eqn:Inc; [|discriminate].
  intros H. injection H as _ <-.
  split; [|split].
  - unfold uniqueIds. cbn [event]. rewrite (increment_ids _ _ _ Inc). exact Hu.
  - destruct (increment_spec _ _ _ Inc) as (pre & e & post & Ev & -> & I & P & _).
    unfold uniqueIds in Hu. unfold countOk in *. rewrite Ev in Hu, Hc.
    cbn [event]. intros x Hx. rewrite participants_app. cbn [eventId].
    rewrite length_app.
    rewrite map_app in Hu. cbn [map] in Hu.
    apply NoDup_remove_2 in Hu.
    apply in_app_or in Hx. destruct Hx as [Hx|[<-|Hx]].
    + assert (String.eqb eid (id x) = false) as ->.
      { apply String.eqb_neq. intros E. apply (P x Hx). symmetry. exact E. }
      cbn [List.length]. rewrite Nat.add_0_r. apply Hc. apply in_or_app. left. exact Hx.
    + cbn [id currentParticipants]. rewrite I, String.eqb_refl. cbn [List.length].
      rewrite (Hc e) by (apply in_or_app; right; left; reflexivity).
      rewrite I. lia.
    + assert (String.eqb eid (id x) = false) as ->.
      { apply String.eqb_neq. intros E. apply Hu. apply in_or_app. right.
        rewrite I, E. apply in_map. exact Hx. }
      cbn [List.length]. rewrite Nat.add_0_r. apply Hc.
      apply in_or_app. right. right. exact Hx.
  - rewrite participants_app. cbn [eventId]. rewrite String.eqb_refl.
    rewrite length_app. cbn [List.length]. lia.
Qed.

Lemma walkDb_capacityOk : capacityOk walkDb.
Proof.
  intros e m [<-|[<-|[]]] Hm Hm0; cbn in *; [|discriminate].
  injection Hm as <-. lia.
Qed.

Lemma walkDb_countOk : countOk walkDb.
Proof. intros e [<-|[<-|[]]]; reflexivity. Qed.

Lemma walkDb_uniqueIds : uniqueIds walkDb.
Proof. unfold uniqueIds. cbn. distinct_strings. Qed.

Lemma registerForEvent_respects_capacity_witness :
  capacityOk (snd (registerForEvent "walk" "bruno" walkDb)).
Proof.
  apply (registerForEvent_respects_capacity "walk" "bruno" walkDb).
  exact walkDb_capacityOk.
Defined.

Lemma registerForEvent_once_witness :
  registerForEvent "walk" "bruno"
    (mkDb [ mkEvent "walk" (Some 2) 2; mkEvent "picnic" None 0 ]
          [ mkParticipation "walk" "anna"; mkParticipation "walk" "bruno" ])
  = (inl AlreadyRegistered,
     mkDb [ mkEvent "walk" (Some 2) 2; mkEvent "picnic" None 0 ]
          [ mkParticipation "walk" "anna"; mkParticipation "walk" "bruno" ]).
Proof.
  apply (registerForEvent_once "walk" "bruno" walkDb
           (mkParticipation "walk" "bruno")).
  reflexivity.
Defined.

Lemma registerForEvent_counts_witness :
  uniqueIds (snd (registerForEvent "walk" "bruno" walkDb))
  /\ countOk (snd (registerForEvent "walk" "bruno" walkDb))
  /\ List.length (participants (snd (registerForEvent "walk" "bruno" walkDb)) "walk")
     = S (List.length (participants walkDb "walk")).
Proof.
  apply (registerForEvent_counts "walk" "bruno" walkDb
           (mkParticipation "walk" "bruno")).
  - exact walkDb_uniqueIds.
  - exact walkDb_countOk.
  - reflexivity.
Defined.

(** With the place taken, the walk is full: the next registration is
    refused and writes nothing. *)
Example registerForEvent_full :
  registerForEvent "walk" "carla"
    (snd (registerForEvent "walk" "bruno" walkDb))
  = (inl EventFull, snd (registerForEvent "walk" "bruno" walkDb)).
Proof. reflexivity. Qed.

End EventFacts.
